(** * Jarvis concierge agent: decision-and-dispatch loop and its tools

    A shallow embedding of [agent.py] (class [GeminiAgent] and [main]) and of
    the tools of [tools.py], followed by the properties of the
    specification and by further properties of the code.

    Conventions of the embedding.
    - A Python [str] is a Rocq [string], one [ascii] per code point; the
      embedding covers code points below 256.
    - Values built by [json.loads] (and the action dictionaries of the
      rule-based planner) are terms of [value]; a [dict] is an association
      list in insertion order.
    - A call returns a value or raises: [outcome] keeps the exception, and
      the methods of the agent thread the agent and the world through a
      state-and-exception monad.
    - Library calls whose result the program only inspects ([json.loads],
      which returns, raises [JSONDecodeError] or raises something else;
      [json.dumps]; the remote backends; the bodies of the registered tools)
      are fields of an environment.  [datetime.fromisoformat] (with naive
      and aware results), [int] on a [str] and [strftime] are parameters of
      the tools that call them, and so is what each write of a JSON file
      does (it succeeds, [open] fails, or [json.dump] fails).  Every theorem
      holds for all of them, and a concrete environment is given so that
      each definition can be run.
    - Logging has no effect on results and is left out. *)

From Stdlib Require Import String Ascii List ZArith NArith Lia Bool DecimalString.
Import ListNotations.
Local Open Scope list_scope.
Local Open Scope string_scope.

(* ================================================================== *)
(** * Part I: definitions *)
(* ================================================================== *)

(** ** Python string primitives *)

Module PyStr.

Definition LF : string := String "010"%char EmptyString.
Definition DQ : string := String "034"%char EmptyString.

(** [str.isspace] on one code point below 256. *)
Definition isspace (c : ascii) : bool :=
  let n := N_of_ascii c in
  (((9 <=? n) && (n <=? 13)) || ((28 <=? n) && (n <=? 32))
   || (n =? 133) || (n =? 160))%N.

(** [str.lower] on one code point below 256: A-Z and the Latin-1 capitals. *)
Definition lower_char (c : ascii) : ascii :=
  let n := N_of_ascii c in
  if (((65 <=? n) && (n <=? 90))
      || ((192 <=? n) && (n <=? 222) && negb (n =? 215)))%N
  then ascii_of_N (n + 32) else c.

Fixpoint lower (s : string) : string :=
  match s with
  | EmptyString => EmptyString
  | String c r => String (lower_char c) (lower r)
  end.

Fixpoint lstrip (s : string) : string :=
  match s with
  | EmptyString => EmptyString
  | String c r => if isspace c then lstrip r else s
  end.

Fixpoint rstrip (s : string) : string :=
  match s with
  | EmptyString => EmptyString
  | String c r =>
      match rstrip r with
      | EmptyString => if isspace c then EmptyString else String c EmptyString
      | r' => String c r'
      end
  end.

Definition strip (s : string) : string := rstrip (lstrip s).

(** [s.startswith(p)] *)
Definition startswith (s p : string) : bool := prefix p s.

(** [sub in s] *)
Fixpoint contains (sub s : string) : bool :=
  prefix sub s ||
  match s with
  | EmptyString => false
  | String _ r => contains sub r
  end.

(** [s.replace(old, new)]: every non-overlapping occurrence, left to right.
    [skip] counts the characters of a match that are still to be dropped. *)
Fixpoint replace_from (old new : string) (skip : nat) (s : string) : string :=
  match s with
  | EmptyString => if old =? "" then new else EmptyString
  | String c r =>
      match skip with
      | S k => replace_from old new k r
      | O =>
          if old =? "" then new ++ String c (replace_from old new 0 r)
          else if prefix old s
               then new ++ replace_from old new (String.length old - 1) r
               else String c (replace_from old new 0 r)
      end
  end.

Definition replace (old new s : string) : string := replace_from old new 0 s.

Fixpoint drop (n : nat) (s : string) : string :=
  match n, s with
  | O, _ => s
  | S _, EmptyString => EmptyString
  | S k, String _ r => drop k r
  end.

Fixpoint take (n : nat) (s : string) : string :=
  match n, s with
  | O, _ => EmptyString
  | S _, EmptyString => EmptyString
  | S k, String c r => String c (take k r)
  end.

(** [s[-n:]] for a positive [n] *)
Definition last_chars (n : nat) (s : string) : string := drop (String.length s - n) s.

(** [s[:n]] *)
Definition first_chars (n : nat) (s : string) : string := take n s.

(** [sep.join(parts)] *)
Definition join (sep : string) (parts : list string) : string :=
  String.concat sep parts.

(** [s.split(c)] for a one-character separator *)
Fixpoint split (c : ascii) (s : string) : list string :=
  match s with
  | EmptyString => [EmptyString]
  | String a r =>
      if Ascii.eqb a c then EmptyString :: split c r
      else match split c r with
           | [] => [String a EmptyString]
           | h :: t => String a h :: t
           end
  end.

(** [s.endswith(p)] *)
Definition endswith (s p : string) : bool :=
  (String.length p <=? String.length s)%nat
  && (drop (String.length s - String.length p) s =? p).

(** [c * n] for a one-character string *)
Fixpoint repeat_char (c : ascii) (n : nat) : string :=
  match n with
  | O => EmptyString
  | S k => String c (repeat_char c k)
  end.

(** [str(n)] for an [int] *)
Definition str_of_int (z : Z) : string := NilZero.string_of_int (Z.to_int z).

(** [x or d] on strings *)
Definition or_str (x d : string) : string := if x =? "" then d else x.

End PyStr.

(** ** Python values and exceptions *)

(** A [float] is observed by the program through its truth value, its
    [repr] and its integer part ([None] for nan and the infinities). *)
Record pyfloat := { float_is_zero : bool; float_repr : string; float_trunc : option Z }.

#[warnings="-register-all"]
Inductive value :=
| VNone
| VBool (b : bool)
| VInt (z : Z)
| VFloat (f : pyfloat)
| VStr (s : string)
| VList (l : list value)
| VDict (d : list (string * value)).

Inductive exn :=
| TypeError (msg : string)
| AttributeError (msg : string)
| KeyError (msg : string)
| ValueError (msg : string)
| RecursionError (msg : string)
| OverflowError (msg : string)
| OtherError (msg : string).

Inductive outcome (A : Type) :=
| Returned (a : A)
| Raised (e : exn).
Arguments Returned {A} a.
Arguments Raised {A} e.

Module Py.

(** [bool(v)] *)
Definition truthy (v : value) : bool :=
  match v with
  | VNone => false
  | VBool b => b
  | VInt z => negb (z =? 0)%Z
  | VFloat f => negb (float_is_zero f)
  | VStr s => negb (s =? "")
  | VList l => match l with [] => false | _ :: _ => true end
  | VDict d => match d with [] => false | _ :: _ => true end
  end.

(** [a or b] *)
Definition or_else (a b : value) : value := if truthy a then a else b.

Fixpoint lookup (k : string) (d : list (string * value)) : option value :=
  match d with
  | [] => None
  | (k', v) :: rest => if k' =? k then Some v else lookup k rest
  end.

(** [d.get(k, default)] *)
Definition get (d : list (string * value)) (k : string) (default : value) : value :=
  match lookup k d with
  | Some v => v
  | None => default
  end.

(** [type(v).__name__] *)
Definition type_name (v : value) : string :=
  match v with
  | VNone => "NoneType"
  | VBool _ => "bool"
  | VInt _ => "int"
  | VFloat _ => "float"
  | VStr _ => "str"
  | VList _ => "list"
  | VDict _ => "dict"
  end.

(** [v.strip()]: only [str] has the method. *)
Definition strip_method (v : value) : outcome string :=
  match v with
  | VStr s => Returned (PyStr.strip s)
  | _ => Raised (AttributeError
                   ("'" ++ type_name v ++ "' object has no attribute 'strip'"))
  end.

Definition hex_digit (n : N) : ascii :=
  ascii_of_N (if (n <? 10)%N then 48 + n else 87 + n).

(** The characters [repr] of a [str] keeps as they are. *)
Definition isprintable (c : ascii) : bool :=
  let n := N_of_ascii c in
  (((32 <=? n) && (n <=? 126)) || ((161 <=? n) && negb (n =? 173)))%N.

Definition repr_char (quote c : ascii) : string :=
  let n := N_of_ascii c in
  if Ascii.eqb c quote || Ascii.eqb c "\"%char then String "\"%char (String c "")
  else if (n =? 9)%N then "\t"
  else if (n =? 10)%N then "\n"
  else if (n =? 13)%N then "\r"
  else if isprintable c then String c ""
  else String "\"%char (String "x"%char
         (String (hex_digit (n / 16)) (String (hex_digit (n mod 16)) ""))).

Fixpoint repr_chars (quote : ascii) (s : string) : string :=
  match s with
  | EmptyString => EmptyString
  | String c r => repr_char quote c ++ repr_chars quote r
  end.

(** [repr(s)] for a [str] *)
Definition repr_str (s : string) : string :=
  let quote :=
    if PyStr.contains "'" s && negb (PyStr.contains PyStr.DQ s)
    then "034"%char else "'"%char in
  String quote (repr_chars quote s) ++ String quote "".

(** [repr(v)] *)
Fixpoint repr (v : value) : string :=
  match v with
  | VNone => "None"
  | VBool true => "True"
  | VBool false => "False"
  | VInt z => PyStr.str_of_int z
  | VFloat f => float_repr f
  | VStr s => repr_str s
  | VList l => "[" ++ PyStr.join ", " (map repr l) ++ "]"
  | VDict d =>
      "{" ++ PyStr.join ", "
               (map (fun kv => match kv with
                               | (k, x) => repr_str k ++ ": " ++ repr x
                               end) d) ++ "}"
  end.

(** [str(v)], which is what an f-string or [%s] inserts *)
Definition str (v : value) : string :=
  match v with
  | VStr s => s
  | _ => repr v
  end.

(** [v == s] for a [str] literal [s] *)
Definition eq_str (v : value) (s : string) : bool :=
  match v with
  | VStr t => t =? s
  | _ => false
  end.

(** [hash(v)] succeeds *)
Definition hashable (v : value) : bool :=
  match v with
  | VList _ | VDict _ => false
  | _ => true
  end.

End Py.

(** ** [posixpath] *)

Module PosixPath.
Import PyStr.

Definition isabs (p : string) : bool := startswith p "/".

(** [os.path.join(a, b)] *)
Definition join (a b : string) : string :=
  if startswith b "/" then b
  else if (a =? "") || endswith a "/" then a ++ b
  else a ++ "/" ++ b.

Definition initial_slashes (path : string) : nat :=
  if startswith path "/" then
    if startswith path "//" && negb (startswith path "///") then 2 else 1
  else 0.

(** The loop of [normpath] over the components, [new_comps] being the
    list built so far. *)
Fixpoint norm_comps (initial : nat) (comps new_comps : list string) : list string :=
  match comps with
  | [] => new_comps
  | comp :: rest =>
      if (comp =? "") || (comp =? ".") then norm_comps initial rest new_comps
      else if negb (comp =? "..")
              || ((initial =? 0)%nat && match new_comps with [] => true | _ => false end)
              || match new_comps with [] => false | _ => last new_comps "" =? ".." end
      then norm_comps initial rest (new_comps ++ [comp])%list
      else match new_comps with
           | [] => norm_comps initial rest new_comps
           | _ => norm_comps initial rest (removelast new_comps)
           end
  end.

Definition normpath (path : string) : string :=
  if path =? "" then "."
  else
    let initial := initial_slashes path in
    let comps := norm_comps initial (split "/" path) [] in
    let path' := repeat_char "/" initial ++ PyStr.join "/" comps in
    or_str path' ".".

(** [os.path.abspath(path)] in a process whose working directory is [cwd] *)
Definition abspath (cwd path : string) : string :=
  if isabs path then normpath path else normpath (join cwd path).

End PosixPath.

(** ** [tools.py] *)

Module Tools.
Import PyStr.

(** *** The host: working directory, install directory and files *)

(** What [open(...).read()] gives for a path: the decoded text, or the text
    of the exception it raises (a directory, a permission error). *)
Inductive read_result :=
| ReadText (content : string)
| ReadError (detail : string).

Record fs_node := {
  node_size : Z;              (* os.path.getsize, in bytes *)
  node_read : read_result
}.

Record host := {
  getcwd : string;
  BASE_DIR : string;          (* dirname(abspath(__file__)), an absolute path *)
  files : string -> option fs_node   (* None: os.path.exists is False *)
}.

Definition ACCESS_DENIED : string :=
  "Access denied: you can only read files inside the project folder.".

Definition TOO_LARGE : string := "File is too large to read (limit: 200KB).".

Definition read_file (h : host) (path : string) : string :=
  let full_path := PosixPath.abspath (getcwd h) (PosixPath.join (BASE_DIR h) path) in
  if negb (startswith full_path (BASE_DIR h)) then ACCESS_DENIED
  else
    match files h full_path with
    | None => "File not found: " ++ path
    | Some node =>
        if (200 * 1024 <? node_size node)%Z then TOO_LARGE
        else
          match node_read node with
          | ReadError e => "Error reading file: " ++ e
          | ReadText content =>
              let content :=
                if (4000 <? String.length content)%nat
                then first_chars 4000 content ++ LF ++ LF ++ "[Content truncated...]"
                else content in
              "Content of " ++ path ++ ":" ++ LF ++ LF ++ content
          end
    end.

(** *** Persisted JSON documents *)

(** The state of one JSON file on disk, as the program can observe it:
    missing; present with a content that is no JSON document ([json.load]
    raises); present but not to be opened for reading, whatever it holds;
    or holding a document that [json.load] gives back. *)
Inductive json_file (A : Type) :=
| Missing
| Corrupt
| Unreadable
| Holds (doc : A).
Arguments Missing {A}.
Arguments Corrupt {A}.
Arguments Unreadable {A}.
Arguments Holds {A} doc.

Definition _ensure_json_file {A} (f : json_file A) (default : A) : json_file A :=
  match f with
  | Missing => Holds default
  | _ => f
  end.

Definition _load_json {A} (f : json_file A) (default : A) : A * json_file A :=
  let f' := _ensure_json_file f default in
  match f' with
  | Holds doc => (doc, f')
  | _ => (default, f')
  end.

(** What happens when [_save_json] writes: the document is written; or
    [open] raises and the file stays as it was; or [json.dump] raises after
    [open] has emptied the file, which then holds no complete document.
    [_save_json] logs the exception and returns in every case.  A file that
    cannot be opened for reading stays so, whatever is written to it. *)
Inductive write_outcome :=
| Written
| OpenFails
| DumpFails.

Definition _save_json {A} (write : write_outcome) (f : json_file A) (data : A)
  : json_file A :=
  match write, f with
  | OpenFails, _ => f
  | _, Unreadable => Unreadable
  | Written, _ => Holds data
  | DumpFails, _ => Corrupt
  end.

(** *** Reminders *)

(** A naive [datetime]; comparison is that of the field tuples. *)
Record datetime := {
  year : Z; month : Z; day : Z;
  hour : Z; minute : Z; second : Z; microsecond : Z
}.

(** What [datetime.fromisoformat] returns: a naive [datetime], or an aware
    one, with its UTC offset in seconds. *)
Inductive parsed_time :=
| Naive (d : datetime)
| Aware (d : datetime) (utcoffset : Z).

(** The text of the [TypeError] of [aware <= naive]. *)
Definition NAIVE_AWARE : string :=
  "can't compare offset-naive and offset-aware datetimes".

Definition datetime_fields (d : datetime) : list Z :=
  [year d; month d; day d; hour d; minute d; second d; microsecond d].

Fixpoint lex_leb (a b : list Z) : bool :=
  match a, b with
  | [], _ => true
  | _ :: _, [] => false
  | x :: a', y :: b' => (x <? y)%Z || ((x =? y)%Z && lex_leb a' b')
  end.

(** [a <= b] *)
Definition datetime_leb (a b : datetime) : bool :=
  lex_leb (datetime_fields a) (datetime_fields b).

(** One record of reminders.json, as [set_reminder] writes it; [delivered]
    is [None] when the key is absent. *)
Record reminder := {
  message : string;
  created_at : string;
  due_at : string;
  delivered : option bool
}.

(** [r["delivered"] = True] *)
Definition mark_delivered (r : reminder) : reminder :=
  {| message := message r; created_at := created_at r;
     due_at := due_at r; delivered := Some true |}.

(** [r.get("delivered", False)] *)
Definition get_delivered (r : reminder) : bool :=
  match delivered r with
  | Some b => b
  | None => false
  end.

Definition NONE_DUE : string := "You don't have any reminders due right now.".

Definition due_line (r : reminder) : string :=
  "- " ++ message r ++ " (due at " ++ due_at r ++ ")".

Section Reminders.

(** [datetime.fromisoformat]: [None] when it raises. *)
Variable fromisoformat : string -> option parsed_time.

(** The [for r in reminders] loop: the list [due] and the list after the
    in-place updates.  [due] holds the updated records, as the Python list
    holds the very dictionaries that were marked.  The comparison with
    [now], a naive [datetime], is outside the [try]: on an aware due time it
    raises [TypeError] and the loop is left. *)
Fixpoint scan_due (now : datetime) (reminders : list reminder)
  : outcome (list reminder * list reminder) :=
  match reminders with
  | [] => Returned ([], [])
  | r :: rest =>
      let skip :=
        match scan_due now rest with
        | Returned (due, rest') => Returned (due, r :: rest')
        | Raised e => Raised e
        end in
      if negb (get_delivered r) then
        match fromisoformat (due_at r) with
        | None => skip
        | Some (Aware _ _) => Raised (TypeError NAIVE_AWARE)
        | Some (Naive due_time) =>
            if datetime_leb due_time now then
              match scan_due now rest with
              | Returned (due, rest') =>
                  Returned (mark_delivered r :: due, mark_delivered r :: rest')
              | Raised e => Raised e
              end
            else skip
        end
      else skip
  end.

(** [write] is what the write of [_save_json] does in this call.  When the
    loop raises, nothing is saved. *)
Definition check_reminders (now : datetime) (write : write_outcome)
    (file : json_file (list reminder))
  : outcome string * json_file (list reminder) :=
  let (reminders, file) := _load_json file [] in
  match scan_due now reminders with
  | Raised e => (Raised e, file)
  | Returned (due, reminders) =>
      let file := _save_json write file reminders in
      match due with
      | [] => (Returned NONE_DUE, file)
      | _ => (Returned (PyStr.join LF ("Here are your due reminders:"
                                       :: map due_line due)), file)
      end
  end.

End Reminders.

(** The registry keys of [TOOLS]. *)
Definition TOOLS : list string :=
  ["web_search"; "read_file"; "remember_info"; "recall_memory";
   "set_reminder"; "check_reminders"].

(** The parameter names of the registered tools, from their [def] lines;
    none has a default. *)
Definition SIGNATURES : list (string * list string) :=
  [("web_search", ["query"]);
   ("read_file", ["path"]);
   ("remember_info", ["note"]);
   ("recall_memory", []);
   ("set_reminder", ["message"; "minutes_from_now"]);
   ("check_reminders", [])].

Fixpoint signature_of (name : string) (table : list (string * list string))
  : option (list string) :=
  match table with
  | [] => None
  | (n, params) :: rest => if n =? name then Some params else signature_of name rest
  end.

(** A call with the keyword arguments [kwargs] ([None]: a call with no
    argument) binds the parameters [params]: every keyword is a parameter
    and every parameter is given; anything but a dictionary cannot be
    unpacked. *)
Definition binds (params : list string) (kwargs : option value) : bool :=
  match kwargs with
  | None => match params with [] => true | _ => false end
  | Some (VDict d) =>
      forallb (fun kv => existsb (String.eqb (fst kv)) params) d
      && forallb (fun p => existsb (fun kv => fst kv =? p) d) params
  | Some _ => false
  end.

(** *** Timestamps *)

Definition digit_char (d : Z) : ascii := ascii_of_N (Z.to_N (48 + d)).

(** [%02d] and [%04d] on a field of a [datetime] *)
Definition pad2 (n : Z) : string :=
  String (digit_char (n / 10)) (String (digit_char (n mod 10)) EmptyString).

Definition pad4 (n : Z) : string :=
  String (digit_char (n / 1000)) (String (digit_char (n / 100 mod 10)) (pad2 (n mod 100))).

(** [d.isoformat(timespec="seconds")] *)
Definition isoformat_seconds (d : datetime) : string :=
  pad4 (year d) ++ "-" ++ pad2 (month d) ++ "-" ++ pad2 (day d) ++ "T"
  ++ pad2 (hour d) ++ ":" ++ pad2 (minute d) ++ ":" ++ pad2 (second d).

Definition is_leap (y : Z) : bool :=
  ((y mod 4 =? 0) && (negb (y mod 100 =? 0) || (y mod 400 =? 0)))%Z.

Definition days_in_month (y m : Z) : Z :=
  if (m =? 2)%Z then (if is_leap y then 29 else 28)
  else if ((m =? 4) || (m =? 6) || (m =? 9) || (m =? 11))%Z then 30 else 31.

(** The field ranges every [datetime] object satisfies. *)
Definition valid_datetime (d : datetime) : bool :=
  ((1 <=? year d) && (year d <=? 9999) && (1 <=? month d) && (month d <=? 12)
   && (1 <=? day d) && (day d <=? days_in_month (year d) (month d))
   && (0 <=? hour d) && (hour d <? 24) && (0 <=? minute d) && (minute d <? 60)
   && (0 <=? second d) && (second d <? 60)
   && (0 <=? microsecond d) && (microsecond d <? 1000000))%Z.

(** The same instant without its microseconds. *)
Definition whole_seconds (d : datetime) : datetime :=
  {| year := year d; month := month d; day := day d;
     hour := hour d; minute := minute d; second := second d; microsecond := 0 |}.

(** *** [datetime + timedelta(minutes=n)] *)

Definition next_day (date : Z * Z * Z) : Z * Z * Z :=
  match date with
  | (y, m, d) =>
      if (d <? days_in_month y m)%Z then (y, m, d + 1)%Z
      else if (m <? 12)%Z then (y, m + 1, 1)%Z
      else (y + 1, 1, 1)%Z
  end.

Definition prev_day (date : Z * Z * Z) : Z * Z * Z :=
  match date with
  | (y, m, d) =>
      if (1 <? d)%Z then (y, m, d - 1)%Z
      else if (1 <? m)%Z then (y, m - 1, days_in_month y (m - 1))%Z
      else (y - 1, 12, 31)%Z
  end.

(** The date [k] days after (before, for a negative [k]) [date]. *)
Definition shift_days (date : Z * Z * Z) (k : Z) : Z * Z * Z :=
  if (0 <=? k)%Z then Nat.iter (Z.to_nat k) next_day date
  else Nat.iter (Z.to_nat (- k)) prev_day date.

(** The ordinal of 9999-12-31, the last date a [datetime] can hold. *)
Definition MAX_ORDINAL : Z := 3652059.

(** [now + dt.timedelta(minutes=n)]: the new [datetime], or [OverflowError]
    when the [timedelta] (days that do not fit a C int, or more than
    999999999 of them) or the result (a year outside 1..9999) cannot be
    represented. *)
Definition plus_minutes (now : datetime) (n : Z) : outcome datetime :=
  let delta_days := (n / 1440)%Z in
  if ((delta_days <? - 2147483648) || (2147483647 <? delta_days))%Z then
    Raised (OverflowError "Python int too large to convert to C int")
  else if (999999999 <? Z.abs delta_days)%Z then
    Raised (OverflowError ("days=" ++ str_of_int delta_days
                           ++ "; must have magnitude <= 999999999"))
  else
    let seconds := (hour now * 3600 + minute now * 60 + second now
                    + (n mod 1440) * 60)%Z in
    let days := (delta_days + seconds / 86400)%Z in
    let seconds := (seconds mod 86400)%Z in
    if (MAX_ORDINAL <? Z.abs days)%Z then Raised (OverflowError "date value out of range")
    else
      match shift_days (year now, month now, day now) days with
      | (y, m, d) =>
          if ((1 <=? y) && (y <=? 9999))%Z then
            Returned {| year := y; month := m; day := d;
                        hour := seconds / 3600; minute := seconds mod 3600 / 60;
                        second := seconds mod 60; microsecond := microsecond now |}
          else Raised (OverflowError "date value out of range")
      end.

(** *** Notes *)

(** One record of memory.json. *)
Record memory_note := { timestamp : string; note : string }.

(** [write] is what the write of [_save_json] does in this call. *)
Definition remember_info (now : datetime) (text : string) (write : write_outcome)
    (file : json_file (list memory_note)) : string * json_file (list memory_note) :=
  let (data, file) := _load_json file [] in
  let stamp := isoformat_seconds now in
  let data := (data ++ [{| timestamp := stamp; note := text |}])%list in
  let file := _save_json write file data in
  ("I've saved this to memory at " ++ stamp ++ ".", file).

(** [l[-n:]] for a positive [n] *)
Definition last_items {A} (n : nat) (l : list A) : list A :=
  skipn (List.length l - n) l.

Definition note_line (item : memory_note) : string :=
  "- [" ++ timestamp item ++ "] " ++ note item.

Definition NO_MEMORY : string := "I don't have any saved memory yet.".

Definition recall_memory (file : json_file (list memory_note))
  : string * json_file (list memory_note) :=
  let (data, file) := _load_json file [] in
  match data with
  | [] => (NO_MEMORY, file)
  | _ =>
      ("Here are the memories I have:" ++ LF ++ LF
       ++ PyStr.join LF (map note_line (last_items 20 data)), file)
  end.

(** *** Setting a reminder *)

Section SetReminder.

(** [due_time.strftime('%Y-%m-%d %H:%M:%S')], used for the reply only *)
Variable strftime : datetime -> string.

(** [int(s)] for a [str] *)
Variable int_of_str : string -> outcome Z.

(** [int(v)]: an [int] as it is, a [bool] as 0 or 1, a [float] cut toward
    zero, a [str] parsed; [None], a list and a dictionary are refused. *)
Definition int_of (v : value) : outcome Z :=
  match v with
  | VInt z => Returned z
  | VBool b => Returned (if b then 1 else 0)%Z
  | VFloat f =>
      match float_trunc f with
      | Some z => Returned z
      | None =>
          if float_repr f =? "nan"
          then Raised (ValueError "cannot convert float NaN to integer")
          else Raised (OverflowError "cannot convert float infinity to integer")
      end
  | VStr s => int_of_str s
  | VNone | VList _ | VDict _ =>
      Raised (TypeError ("int() argument must be a string, a bytes-like object or "
                         ++ "a real number, not '" ++ Py.type_name v ++ "'"))
  end.

(** [write] is what the write of [_save_json] does in this call.  When
    [int] or the addition raises, nothing is saved. *)
Definition set_reminder (now : datetime) (text : string) (minutes_from_now : value)
    (write : write_outcome) (file : json_file (list reminder))
  : outcome string * json_file (list reminder) :=
  let (reminders, file) := _load_json file [] in
  match int_of minutes_from_now with
  | Raised e => (Raised e, file)
  | Returned minutes =>
      match plus_minutes now minutes with
      | Raised e => (Raised e, file)
      | Returned due_time =>
          let reminder :=
            {| message := text;
               created_at := isoformat_seconds now;
               due_at := isoformat_seconds due_time;
               delivered := Some false |} in
          let reminders := (reminders ++ [reminder])%list in
          let file := _save_json write file reminders in
          (Returned ("Reminder set: '" ++ text ++ "' in about "
                     ++ Py.str minutes_from_now ++ " minute(s), around "
                     ++ strftime due_time ++ "."), file)
      end
  end.

End SetReminder.

(** *** Web search *)

(** The first position from [pos] on where [sub] occurs, [s] being the text
    from [pos] on; -1 when there is none. *)
Fixpoint find_at (sub s : string) (pos : nat) : Z :=
  if prefix sub s then Z.of_nat pos
  else match s with
       | EmptyString => (-1)%Z
       | String _ r => find_at sub r (S pos)
       end.

(** [s.find(sub, start)] *)
Definition str_find (sub s : string) (start : Z) : Z :=
  let len := Z.of_nat (String.length s) in
  let start := if (start <? 0)%Z then Z.max 0 (start + len) else start in
  if (len <? start)%Z then (-1)%Z
  else find_at sub (drop (Z.to_nat start) s) (Z.to_nat start).

(** The last position where [sub] occurs in [s], [s] being the text from
    [pos] on; [best] when there is none. *)
Fixpoint rfind_at (sub s : string) (pos : nat) (best : Z) : Z :=
  let best := if prefix sub s then Z.of_nat pos else best in
  match s with
  | EmptyString => best
  | String _ r => rfind_at sub r (S pos) best
  end.

(** A slice bound, as Python adjusts it. *)
Definition slice_index (len i : Z) : Z :=
  if (i <? 0)%Z then Z.max 0 (i + len) else Z.min i len.

(** [s.rfind(sub, 0, stop)] *)
Definition str_rfind (sub s : string) (stop : Z) : Z :=
  let stop := slice_index (Z.of_nat (String.length s)) stop in
  rfind_at sub (take (Z.to_nat stop) s) 0 (-1)%Z.

(** [s[a:b]] *)
Definition str_slice (s : string) (a b : Z) : string :=
  let len := Z.of_nat (String.length s) in
  let a := slice_index len a in
  let b := slice_index len b in
  if (a <? b)%Z then take (Z.to_nat (b - a)) (drop (Z.to_nat a) s) else EmptyString.

(** What [requests] gives for the query: the package is missing, [get]
    raises, or a response arrives. *)
Inductive http_outcome :=
| RequestsMissing
| GetRaises (detail : string)
| HttpResponse (status_code : Z) (text : string).

Definition RESULT_MARKER : string := "class=" ++ DQ ++ "result__a" ++ DQ.

Definition HREF : string := "href=" ++ DQ.

(** The [while len(results) < 5] loop; each round appends a result or
    stops, so five rounds are all it can make. *)
Fixpoint scrape (rounds : nat) (text : string) (start : Z) (results : list string)
  : list string :=
  match rounds with
  | O => results
  | S rounds' =>
      if (5 <=? List.length results)%nat then results
      else
        let idx := str_find RESULT_MARKER text start in
        if (idx =? -1)%Z then results
        else
          let href_start := str_rfind HREF text idx in
          if (href_start =? -1)%Z then results
          else
            let href_start := (href_start + Z.of_nat (String.length HREF))%Z in
            let href_end := str_find DQ text href_start in
            let url := str_slice text href_start href_end in
            let title_start := (str_find ">" text idx + 1)%Z in
            let title_end := str_find "</a>" text title_start in
            let title := str_slice text title_start title_end in
            let title := replace "&quot;" DQ (replace "&amp;" "&" title) in
            let entry := str_of_int (Z.of_nat (List.length results) + 1) ++ ". "
                         ++ title ++ LF ++ "   " ++ url in
            scrape rounds' text title_end (results ++ [entry])%list
  end.

Definition REQUESTS_MISSING : string :=
  "Web search is not available because the 'requests' package is missing. "
  ++ "Install it with: pip install requests".

Definition web_search (http : http_outcome) (query : string) : string :=
  match http with
  | RequestsMissing => REQUESTS_MISSING
  | GetRaises e => "Web search failed: " ++ e
  | HttpResponse status_code text =>
      if negb (status_code =? 200)%Z
      then "Web search failed with status code " ++ str_of_int status_code
      else
        match scrape 5 text 0 [] with
        | [] => "No results found for: " ++ query
        | results =>
            "Top search results:" ++ LF ++ LF ++ PyStr.join (LF ++ LF) results
        end
  end.

End Tools.

(** ** [agent.py] *)

Module Agent.
Import PyStr.

(** *** The environment of an agent *)

(** [hf_client.text_generation(...)]: the value it returns ([None] or a
    [str]) or the text of the exception it raises. *)
Inductive hf_outcome :=
| HfText (response_text : option string)
| HfRaise (detail : string).

(** What [_call_model] reads of the object [generate_content] returns:
    [getattr(response, "text", None)], and the [text] attribute of every part
    of every candidate ([None] when walking the candidates raises). *)
Record gemini_response := {
  response_text : option string;
  response_candidates : option (list (list (option string)))
}.

Inductive gemini_outcome :=
| GeminiResponse (response : gemini_response)
| GeminiRaise (detail : string).

(** A call of a registered tool, with the dictionary [args] unpacked as
    keyword arguments or with no argument at all: the string it
    returns, a [TypeError] (arguments that do not fit the signature, or one
    raised by the body), or any other exception. *)
Inductive tool_outcome :=
| ToolReturn (result : string)
| ToolTypeError (detail : string)
| ToolError (detail : string).

(** What [json.loads] does with a text: it returns the parsed value, it
    raises [json.JSONDecodeError], or it raises another exception
    ([RecursionError] on a deeply nested text, [ValueError] on an integer
    literal beyond the digit limit). *)
Inductive loads_outcome :=
| Parsed (v : value)
| JSONDecodeError
| LoadsRaises (e : exn).

Class Env := {
  World : Type;
  (** the module-level constant read from the process environment *)
  LLM_BACKEND : string;
  (** [json.loads] *)
  json_loads : string -> loads_outcome;
  (** [json.dumps(v, ensure_ascii=flag)] *)
  json_dumps : bool -> value -> string;
  text_generation : string -> World -> hf_outcome * World;
  (** [generate_content(model=..., contents=...)] *)
  generate_content : string -> string -> World -> gemini_outcome * World;
  (** [TOOLS[name]] called with keyword arguments ([Some args]) or with
      none ([None]) *)
  call_tool : string -> option value -> World -> tool_outcome * World
}.

(** The literal of [SYSTEM_PROMPT], line by line. *)
Definition SYSTEM_PROMPT_LINES : list string :=
  ["You are Jarvis, an AI concierge agent helping a developer named Madhu.";
  "";
  "You are powered by an LLM backend (Gemini or Hugging Face) and you must ALWAYS produce";
  "your primary reasoning output in pure JSON following this schema:";
  "";
  "1) To answer the user directly (no tools):";
  "{";
  "  " ++ DQ ++ "action" ++ DQ ++ ": " ++ DQ ++ "respond" ++ DQ ++ ",";
  "  " ++ DQ ++ "content" ++ DQ ++ ": " ++ DQ ++ "<your natural language reply to the user>" ++ DQ;
  "}";
  "";
  "2) To call a tool:";
  "{";
  "  " ++ DQ ++ "action" ++ DQ ++ ": " ++ DQ ++ "tool" ++ DQ ++ ",";
  "  " ++ DQ ++ "name" ++ DQ ++ ": " ++ DQ ++ "<tool_name>" ++ DQ ++ ",";
  "  " ++ DQ ++ "args" ++ DQ ++ ": { ... }";
  "}";
  "";
  "Available tools and their arguments:";
  "";
  "1) web_search";
  "   - description: Search the web for recent or dynamic information.";
  "   - args: { " ++ DQ ++ "query" ++ DQ ++ ": " ++ DQ ++ "search text" ++ DQ ++ " }";
  "";
  "2) read_file";
  "   - description: Read a small text file from the local project folder.";
  "   - args: { " ++ DQ ++ "path" ++ DQ ++ ": " ++ DQ ++ "relative/path/to/file.txt" ++ DQ ++ " }";
  "";
  "3) remember_info";
  "   - description: Save an important note to long-term memory.";
  "   - args: { " ++ DQ ++ "note" ++ DQ ++ ": " ++ DQ ++ "text to remember" ++ DQ ++ " }";
  "";
  "4) recall_memory";
  "   - description: Show previously saved notes from long-term memory.";
  "   - args: { }";
  "";
  "5) set_reminder";
  "   - description: Create a reminder N minutes from now.";
  "   - args: { " ++ DQ ++ "message" ++ DQ ++ ": " ++ DQ ++ "reminder text" ++ DQ ++ ", " ++ DQ ++ "minutes_from_now" ++ DQ ++ ": 10 }";
  "";
  "6) check_reminders";
  "   - description: Check which reminders are due now.";
  "   - args: { }";
  "";
  "Rules:";
  "- If the user asks for current or changing information, strongly consider using web_search.";
  "- Use remember_info when the user explicitly says to remember something.";
  "- Use recall_memory when the user wants to recall past notes.";
  "- Use set_reminder/check_reminders for reminder workflows.";
  "- If a tool is not needed, use " ++ DQ ++ "action" ++ DQ ++ ": " ++ DQ ++ "respond" ++ DQ ++ ".";
  "";
  "Context Engineering:";
  "- The system may compact older parts of the conversation to keep only the most relevant";
  "  recent turns. When this happens, you still respond normally, assuming a short summary";
  "  of prior context is sufficient.";
  "";
  "Return ONLY valid JSON when asked to follow the JSON schema above."].

Definition SYSTEM_PROMPT : string := LF ++ PyStr.join LF SYSTEM_PROMPT_LINES ++ LF.

Definition DEFAULT_GEMINI_MODEL : string := "gemini-2.0-flash-thinking-exp-1219".

Record agent := {
  model_name : string;
  max_dialogue_chars : Z;
  dialogue : string
}.

Definition with_dialogue (a : agent) (d : string) : agent :=
  {| model_name := model_name a;
     max_dialogue_chars := max_dialogue_chars a;
     dialogue := d |}.

(** [GeminiAgent.__init__] *)
Definition GeminiAgent (model_name : string) (max_dialogue_chars : Z) : agent :=
  {| model_name := model_name;
     max_dialogue_chars := max_dialogue_chars;
     dialogue := strip SYSTEM_PROMPT ++ LF ++ LF ++ "Conversation so far:" ++ LF |}.

Definition COMPACTION_NOTICE : string :=
  LF ++ LF ++ "[Older conversation compacted for brevity. "
  ++ "Only the most recent turns are kept here.]" ++ LF ++ LF.

Definition _compact_context (a : agent) : agent :=
  if (Z.of_nat (String.length (dialogue a)) <=? max_dialogue_chars a)%Z then a
  else
    let tail := last_chars 4000 (dialogue a) in
    with_dialogue a (strip SYSTEM_PROMPT ++ COMPACTION_NOTICE ++ tail).

(** [self.dialogue += f"User: {user_message}\nAssistant: {reply_text}\n"] *)
Definition turn_text (user_message reply_text : string) : string :=
  "User: " ++ user_message ++ LF ++ "Assistant: " ++ reply_text ++ LF.

Definition append_turn (a : agent) (user_message reply_text : string) : agent :=
  with_dialogue a (dialogue a ++ turn_text user_message reply_text).

(** *** The rule-based planner *)

Definition _mock_decide_action (user_message : string) : list (string * value) :=
  let msg := lower user_message in
  if contains "check reminders" msg || contains "any reminders" msg
     || contains "show my reminders" msg
  then [("action", VStr "tool"); ("name", VStr "check_reminders"); ("args", VDict [])]
  else if contains "remember" msg then
    let note := strip (replace "remember that" EmptyString user_message) in
    let note := if note =? EmptyString then user_message else note in
    [("action", VStr "tool"); ("name", VStr "remember_info");
     ("args", VDict [("note", VStr note)])]
  else if contains "recall" msg || contains "what do you remember" msg
          || contains "memory" msg
  then [("action", VStr "tool"); ("name", VStr "recall_memory"); ("args", VDict [])]
  else if contains "search" msg || contains "news" msg
  then [("action", VStr "tool"); ("name", VStr "web_search");
        ("args", VDict [("query", VStr user_message)])]
  else if contains "remind" msg || contains "reminder" msg
          || contains "set a reminder" msg
  then [("action", VStr "tool"); ("name", VStr "set_reminder");
        ("args", VDict [("message", VStr user_message);
                        ("minutes_from_now", VInt 5)])]
  else [("action", VStr "respond");
        ("content", VStr ("Hi, I'm Jarvis running in offline mock mode. I received: "
                          ++ user_message))].

(** *** Methods that touch the agent and the world

    A computation takes the agent and the world and gives a result or an
    exception together with the agent and the world as they are then. *)

Section Methods.
Context {E : Env}.

Definition M (A : Type) : Type := agent -> World -> outcome A * agent * World.

Definition ret {A} (x : A) : M A := fun a w => (Returned x, a, w).

Definition raise {A} (e : exn) : M A := fun a w => (Raised e, a, w).

Definition bind {A B} (m : M A) (k : A -> M B) : M B :=
  fun a w =>
    match m a w with
    | (Returned x, a', w') => k x a' w'
    | (Raised e, a', w') => (Raised e, a', w')
    end.

Definition read_agent {A} (f : agent -> A) : M A := fun a w => (Returned (f a), a, w).

Definition update_agent (f : agent -> agent) : M unit := fun a w => (Returned tt, f a, w).

Definition in_world {A} (f : World -> A * World) : M A :=
  fun a w => let (x, w') := f w in (Returned x, a, w').

Definition of_outcome {A} (o : outcome A) : M A :=
  match o with
  | Returned x => ret x
  | Raised e => raise e
  end.

End Methods.

Notation "x <- m ;; k" := (bind m (fun x => k))
  (at level 61, m at next level, right associativity).
Notation "m ;;; k" := (bind m (fun _ => k))
  (at level 61, right associativity).

Section Methods2.
Context {E : Env}.

Definition respond_action (content : string) : value :=
  VDict [("action", VStr "respond"); ("content", VStr content)].

Definition HF_APOLOGY : string :=
  "I couldn't reach the Hugging Face model due to an error.".

Definition GEMINI_APOLOGY : string :=
  "I couldn't reach the Gemini API because of a quota or network error.".

Definition error_content (apology detail : string) : string :=
  apology ++ LF ++ LF ++ "Technical details: " ++ detail.

Definition MISCONFIGURED : string :=
  "LLM backend is misconfigured. Please set LLM_BACKEND to 'mock', 'hf' or 'gemini' in .env.".

(** [x or EmptyString] for an optional [str] *)
Definition or_empty (x : option string) : string :=
  match x with
  | Some t => t
  | None => EmptyString
  end.

(** The texts the nested loops over [response.candidates] collect. *)
Definition collect_parts (candidates : list (list (option string))) : list string :=
  flat_map (fun parts =>
              flat_map (fun part =>
                          match part with
                          | Some t => if t =? EmptyString then [] else [t]
                          | None => []
                          end) parts) candidates.

Definition _call_model (prompt : string) : M string :=
  update_agent _compact_context ;;;
  if LLM_BACKEND =? "hf" then
    r <- in_world (text_generation prompt) ;;
    match r with
    | HfText response_text => ret (strip (or_empty response_text))
    | HfRaise e =>
        ret (json_dumps true (respond_action (error_content HF_APOLOGY e)))
    end
  else if LLM_BACKEND =? "gemini" then
    model <- read_agent model_name ;;
    r <- in_world (generate_content model prompt) ;;
    match r with
    | GeminiRaise e =>
        ret (json_dumps true (respond_action (error_content GEMINI_APOLOGY e)))
    | GeminiResponse response =>
        let text := response_text response in
        let text :=
          if or_empty text =? EmptyString then
            match response_candidates response with
            | Some candidates => Some (PyStr.join LF (collect_parts candidates))
            | None => Some EmptyString
            end
          else text in
        ret (strip (or_empty text))
    end
  else
    ret (json_dumps true (respond_action MISCONFIGURED)).

Definition _run_tool (name args : value) : M string :=
  if negb (Py.hashable name)
  then raise (TypeError ("unhashable type: '" ++ Py.type_name name ++ "'"))
  else
    match name with
    | VStr key =>
        if existsb (String.eqb key) Tools.TOOLS then
          r <- in_world (call_tool key (if Py.truthy args then Some args else None)) ;;
          match r with
          | ToolReturn result => ret result
          | ToolTypeError e => ret ("Error calling tool '" ++ key ++ "': " ++ e)
          | ToolError e => ret ("Tool '" ++ key ++ "' raised an error: " ++ e)
          end
        else ret ("Error: tool '" ++ key ++ "' is not implemented.")
    | _ => ret ("Error: tool '" ++ Py.str name ++ "' is not implemented.")
    end.

(** [d[k]] *)
Definition subscript (d : list (string * value)) (k : string) : M value :=
  match Py.lookup k d with
  | Some v => ret v
  | None => raise (KeyError (Py.repr_str k))
  end.

Definition EMPTY_CONTENT : string := "I tried to respond, but my content was empty.".

(** Appends the turn and returns the reply. *)
Definition finish_turn (user_message reply_text : string) : M string :=
  update_agent (fun a => append_turn a user_message reply_text) ;;;
  ret reply_text.

Definition first_prompt (dialogue user_message : string) : string :=
  dialogue ++ "User: " ++ user_message ++ LF
  ++ "Assistant (reply ONLY in JSON as specified above):".

Definition followup_prompt (dialogue user_message : string)
    (tool_name args : value) (tool_result : string) : string :=
  dialogue
  ++ "User: " ++ user_message ++ LF
  ++ "Assistant decided to call a tool." ++ LF
  ++ "Tool name: " ++ Py.str tool_name ++ LF
  ++ "Tool args: " ++ json_dumps false args ++ LF
  ++ "Tool result: " ++ tool_result ++ LF ++ LF
  ++ "Now Assistant, give the final, user-friendly answer (no JSON, just text):".

(** [isinstance(action, dict) and "action" in action]: the dictionary and
    its discriminator. *)
Definition action_of (parsed : value) : option (list (string * value) * value) :=
  match parsed with
  | VDict d =>
      match Py.lookup "action" d with
      | Some tag => Some (d, tag)
      | None => None
      end
  | _ => None
  end.

Definition chat (user_message : string) : M string :=
  if LLM_BACKEND =? "mock" then
    let action := _mock_decide_action user_message in
    tag <- subscript action "action" ;;
    if Py.eq_str tag "respond" then
      content <- of_outcome (Py.strip_method (Py.get action "content" (VStr EmptyString))) ;;
      finish_turn user_message (or_str content EMPTY_CONTENT)
    else
      tag <- subscript action "action" ;;
      if Py.eq_str tag "tool" then
        let tool_name := Py.get action "name" VNone in
        let args := Py.or_else (Py.get action "args" VNone) (VDict []) in
        tool_result <- _run_tool tool_name args ;;
        finish_turn user_message
          ("(Mock mode) I used tool '" ++ Py.str tool_name
           ++ "' and got this result:" ++ LF ++ LF ++ tool_result)
      else
        finish_turn user_message "I produced an unknown action in mock mode."
  else
    d <- read_agent dialogue ;;
    raw <- _call_model (first_prompt d user_message) ;;
    match json_loads raw with
    | LoadsRaises e => raise e
    | JSONDecodeError =>
        finish_turn user_message (or_str raw "I could not understand my own JSON output.")
    | Parsed parsed =>
        match action_of parsed with
        | None =>
            finish_turn user_message (or_str raw "I produced an invalid JSON action.")
        | Some (action, tag) =>
            if Py.eq_str tag "respond" then
              content <- of_outcome
                (Py.strip_method
                   (Py.or_else (Py.get action "content" VNone) (VStr EmptyString))) ;;
              finish_turn user_message (or_str content EMPTY_CONTENT)
            else if Py.eq_str tag "tool" then
              let tool_name := Py.get action "name" VNone in
              let args := Py.or_else (Py.get action "args" VNone) (VDict []) in
              tool_result <- _run_tool tool_name args ;;
              d <- read_agent dialogue ;;
              final_text <- _call_model
                (followup_prompt d user_message tool_name args tool_result) ;;
              finish_turn user_message
                (or_str (strip final_text) "I used a tool but couldn't form a response.")
            else
              finish_turn user_message (or_str raw "I produced an unknown action type.")
        end
    end.

(** The agents a session can hold: the one [__init__] builds, and the one
    left by any compaction, backend call or chat turn, finished or not. *)
Inductive reachable : agent -> Prop :=
| reach_init (model : string) (budget : Z) : reachable (GeminiAgent model budget)
| reach_compact (a : agent) : reachable a -> reachable (_compact_context a)
| reach_call_model (a : agent) (prompt : string) (w : World) :
    reachable a -> reachable (snd (fst (_call_model prompt a w)))
| reach_chat (a : agent) (user_message : string) (w : World) :
    reachable a -> reachable (snd (fst (chat user_message a w))).

(** [n] chat turns in a row. *)
Fixpoint chat_turns (messages : list string) (a : agent) (w : World) : agent * World :=
  match messages with
  | [] => (a, w)
  | m :: rest =>
      match chat m a w with
      | (_, a', w') => chat_turns rest a' w'
      end
  end.

(** *** The command loop *)

(** What [input("You: ")] gives: a line, or [KeyboardInterrupt]; the end of
    the recorded input is [EOFError]. *)
Inductive stdin_event :=
| Line (user_msg : string)
| Interrupt.

(** What [main] prints (the prompt of [input] aside): the banner, the
    farewell (after a newline when the input ended), a reply, or the text of
    an exception. *)
Inductive printed :=
| Banner
| Farewell (after_newline : bool)
| JarvisSays (reply : string)
| ErrorSays (detail : string).

(** [str(e)] *)
Definition exn_text (e : exn) : string :=
  match e with
  | TypeError msg | AttributeError msg | KeyError msg | ValueError msg
  | RecursionError msg | OverflowError msg | OtherError msg => msg
  end.

(** [user_msg.lower().strip() in {"exit", "quit"}] *)
Definition is_exit_command (user_msg : string) : bool :=
  (strip (lower user_msg) =? "exit") || (strip (lower user_msg) =? "quit").

(** The [while True] loop of [main] over the recorded input. *)
Fixpoint command_loop (inputs : list stdin_event) (a : agent) (w : World)
  : list printed * agent * World :=
  match inputs with
  | [] => ([Farewell true], a, w)
  | Interrupt :: _ => ([Farewell true], a, w)
  | Line user_msg :: rest =>
      if is_exit_command user_msg then ([Farewell false], a, w)
      else
        match chat user_msg a w with
        | (Returned reply, a', w') =>
            match command_loop rest a' w' with
            | (out, a'', w'') => (JarvisSays reply :: out, a'', w'')
            end
        | (Raised e, a', w') =>
            match command_loop rest a' w' with
            | (out, a'', w'') => (ErrorSays (exn_text e) :: out, a'', w'')
            end
        end
  end.

Definition main (inputs : list stdin_event) (w : World) : list printed * agent * World :=
  match command_loop inputs (GeminiAgent DEFAULT_GEMINI_MODEL 8000) w with
  | (out, a, w') => (Banner :: out, a, w')
  end.

End Methods2.

End Agent.

(** ** A concrete environment

    [JsonText] implements [json.dumps] and, on the fragment of JSON without
    fractional numbers and without code points above 255, [json.loads],
    with the two exceptions it raises besides [JSONDecodeError]: on a text
    that opens too many arrays and objects, and on an integer literal with
    too many digits.  [replay_env]
    answers each backend and tool call with the next recorded outcome.
    Theorems are stated for every environment; this one runs them. *)

Module JsonText.
Import PyStr.

Definition hex4 (n : N) : string :=
  String (Py.hex_digit (n / 4096)) (String (Py.hex_digit ((n / 256) mod 16))
    (String (Py.hex_digit ((n / 16) mod 16)) (String (Py.hex_digit (n mod 16)) EmptyString))).

Definition escape_char (ensure_ascii : bool) (c : ascii) : string :=
  let n := N_of_ascii c in
  if Ascii.eqb c "034"%char then "\" ++ DQ
  else if Ascii.eqb c "\"%char then "\\"
  else if (n =? 10)%N then "\n"
  else if (n =? 13)%N then "\r"
  else if (n =? 9)%N then "\t"
  else if (n =? 8)%N then "\b"
  else if (n =? 12)%N then "\f"
  else if ((n <? 32) || (ensure_ascii && (126 <? n)))%N then "\u" ++ hex4 n
  else String c EmptyString.

Fixpoint escape (ensure_ascii : bool) (s : string) : string :=
  match s with
  | EmptyString => EmptyString
  | String c r => escape_char ensure_ascii c ++ escape ensure_ascii r
  end.

Definition dumps_str (ensure_ascii : bool) (s : string) : string :=
  DQ ++ escape ensure_ascii s ++ DQ.

Fixpoint dumps (ensure_ascii : bool) (v : value) : string :=
  match v with
  | VNone => "null"
  | VBool true => "true"
  | VBool false => "false"
  | VInt z => str_of_int z
  | VFloat f => float_repr f
  | VStr s => dumps_str ensure_ascii s
  | VList l => "[" ++ PyStr.join ", " (map (dumps ensure_ascii) l) ++ "]"
  | VDict d =>
      "{" ++ PyStr.join ", "
               (map (fun kv => match kv with
                               | (k, x) => dumps_str ensure_ascii k ++ ": "
                                           ++ dumps ensure_ascii x
                               end) d) ++ "}"
  end.

Definition is_ws (c : ascii) : bool :=
  let n := N_of_ascii c in ((n =? 32) || (n =? 9) || (n =? 10) || (n =? 13))%N.

Fixpoint skip_ws (s : string) : string :=
  match s with
  | EmptyString => EmptyString
  | String c r => if is_ws c then skip_ws r else s
  end.

Definition hex_value (c : ascii) : option N :=
  let n := N_of_ascii c in
  if ((48 <=? n) && (n <=? 57))%N then Some (n - 48)%N
  else if ((97 <=? n) && (n <=? 102))%N then Some (n - 87)%N
  else if ((65 <=? n) && (n <=? 70))%N then Some (n - 55)%N
  else None.

Definition simple_escape (e : ascii) : option ascii :=
  match e with
  | "034"%char => Some "034"%char
  | "\"%char => Some "\"%char
  | "/"%char => Some "/"%char
  | "b"%char => Some "008"%char
  | "f"%char => Some "012"%char
  | "n"%char => Some "010"%char
  | "r"%char => Some "013"%char
  | "t"%char => Some "009"%char
  | _ => None
  end.

Definition cons_char (c : ascii) (p : option (string * string)) : option (string * string) :=
  match p with
  | Some (t, rest) => Some (String c t, rest)
  | None => None
  end.

(** The characters of a string literal after its opening quote, and the
    text after its closing quote. *)
Fixpoint parse_string (s : string) : option (string * string) :=
  match s with
  | EmptyString => None
  | String c r =>
      if Ascii.eqb c "034"%char then Some (EmptyString, r)
      else if Ascii.eqb c "\"%char then
        match r with
        | String "u"%char (String h1 (String h2 (String h3 (String h4 r')))) =>
            match hex_value h1, hex_value h2, hex_value h3, hex_value h4 with
            | Some a, Some b, Some c3, Some d =>
                let n := (a * 4096 + b * 256 + c3 * 16 + d)%N in
                if (n <? 256)%N then cons_char (ascii_of_N n) (parse_string r')
                else None
            | _, _, _, _ => None
            end
        | String e r' =>
            match simple_escape e with
            | Some x => cons_char x (parse_string r')
            | None => None
            end
        | EmptyString => None
        end
      else if (N_of_ascii c <? 32)%N then None
      else cons_char c (parse_string r)
  end.

Definition digit_value (c : ascii) : option Z :=
  let n := N_of_ascii c in
  if ((48 <=? n) && (n <=? 57))%N then Some (Z.of_N (n - 48)) else None.

(** What a parsing step gives: a value and the text after it, a syntax
    error ([JSONDecodeError]), or another exception. *)
Inductive step (A : Type) :=
| Step (a : A) (rest : string)
| Syntax
| Throws (e : exn).
Arguments Step {A} a rest.
Arguments Syntax {A}.
Arguments Throws {A} e.

(** The digits read, their value and their number. *)
Fixpoint parse_digits (acc : Z) (count : nat) (s : string) : Z * nat * string :=
  match s with
  | EmptyString => (acc, count, s)
  | String c r =>
      match digit_value c with
      | Some d => parse_digits (acc * 10 + d) (S count) r
      | None => (acc, count, s)
      end
  end.

Definition starts_fraction (s : string) : bool :=
  match s with
  | String c _ => Ascii.eqb c "."%char || Ascii.eqb c "e"%char || Ascii.eqb c "E"%char
  | EmptyString => false
  end.

(** [sys.get_int_max_str_digits()], by default *)
Definition MAX_STR_DIGITS : nat := 4300.

Definition too_many_digits (count : nat) : exn :=
  ValueError ("Exceeds the limit (4300 digits) for integer string conversion: value has "
              ++ str_of_int (Z.of_nat count)
              ++ " digits; use sys.set_int_max_str_digits() to increase the limit").

(** An [int] literal: [0] or a digit from 1 to 9 and more digits; a literal
    of more than [MAX_STR_DIGITS] digits is refused with [ValueError]. *)
Definition parse_nat (s : string) : step Z :=
  match s with
  | String c r =>
      match digit_value c with
      | Some 0%Z => if starts_fraction r then Syntax else Step 0%Z r
      | Some d =>
          match parse_digits d 1 r with
          | (n, count, rest) =>
              if starts_fraction rest then Syntax
              else if (MAX_STR_DIGITS <? count)%nat then Throws (too_many_digits count)
              else Step n rest
          end
      | None => Syntax
      end
  | EmptyString => Syntax
  end.

Definition parse_int (s : string) : step value :=
  match s with
  | String "-"%char r =>
      match parse_nat r with
      | Step n rest => Step (VInt (- n)) rest
      | Syntax => Syntax
      | Throws e => Throws e
      end
  | _ =>
      match parse_nat s with
      | Step n rest => Step (VInt n) rest
      | Syntax => Syntax
      | Throws e => Throws e
      end
  end.

(** [d[k] = v] *)
Fixpoint dict_set (d : list (string * value)) (k : string) (v : value)
  : list (string * value) :=
  match d with
  | [] => [(k, v)]
  | (k', v') :: rest =>
      if k' =? k then (k', v) :: rest else (k', v') :: dict_set rest k v
  end.

(** The arrays and objects that can be open at once: the scanner enters a
    recursive call for each, and the interpreter's recursion limit (1000 by
    default, less the calls in progress) bounds them. *)
Definition NESTING_LIMIT : nat := 1000.

Definition too_deep (what : string) : exn :=
  RecursionError ("maximum recursion depth exceeded while decoding a JSON "
                  ++ what ++ " from a unicode string").

(** [fuel] bounds the steps (the length of the text does); [depth] is the
    number of arrays and objects that may still be opened. *)
Fixpoint parse_value (fuel depth : nat) (s : string) : step value :=
  match fuel with
  | O => Syntax
  | S f =>
      match s with
      | EmptyString => Syntax
      | String c r =>
          if Ascii.eqb c "{"%char then
            match depth with
            | O => Throws (too_deep "object")
            | S dep =>
                match skip_ws r with
                | String "}"%char r' => Step (VDict []) r'
                | r' => parse_members f dep r' []
                end
            end
          else if Ascii.eqb c "["%char then
            match depth with
            | O => Throws (too_deep "array")
            | S dep =>
                match skip_ws r with
                | String "]"%char r' => Step (VList []) r'
                | r' => parse_elements f dep r' []
                end
            end
          else if Ascii.eqb c "034"%char then
            match parse_string r with
            | Some (t, rest) => Step (VStr t) rest
            | None => Syntax
            end
          else if prefix "null" s then Step VNone (drop 4 s)
          else if prefix "true" s then Step (VBool true) (drop 4 s)
          else if prefix "false" s then Step (VBool false) (drop 5 s)
          else parse_int s
      end
  end
with parse_elements (fuel depth : nat) (s : string) (acc : list value) : step value :=
  match fuel with
  | O => Syntax
  | S f =>
      match parse_value f depth s with
      | Step v rest =>
          match skip_ws rest with
          | String ","%char r' => parse_elements f depth (skip_ws r') (acc ++ [v])%list
          | String "]"%char r' => Step (VList (acc ++ [v])%list) r'
          | _ => Syntax
          end
      | Syntax => Syntax
      | Throws e => Throws e
      end
  end
with parse_members (fuel depth : nat) (s : string) (acc : list (string * value))
  : step value :=
  match fuel with
  | O => Syntax
  | S f =>
      match s with
      | String "034"%char r =>
          match parse_string r with
          | Some (k, rest) =>
              match skip_ws rest with
              | String ":"%char r1 =>
                  match parse_value f depth (skip_ws r1) with
                  | Step v rest' =>
                      match skip_ws rest' with
                      | String ","%char r' =>
                          parse_members f depth (skip_ws r') (dict_set acc k v)
                      | String "}"%char r' => Step (VDict (dict_set acc k v)) r'
                      | _ => Syntax
                      end
                  | Syntax => Syntax
                  | Throws e => Throws e
                  end
              | _ => Syntax
              end
          | None => Syntax
          end
      | _ => Syntax
      end
  end.

Definition loads (s : string) : Agent.loads_outcome :=
  match parse_value (2 * String.length s + 2) NESTING_LIMIT (skip_ws s) with
  | Step v rest =>
      if skip_ws rest =? EmptyString then Agent.Parsed v else Agent.JSONDecodeError
  | Syntax => Agent.JSONDecodeError
  | Throws e => Agent.LoadsRaises e
  end.

End JsonText.

(** The outcomes still to be played back. *)
Record replay := {
  hf_replies : list Agent.hf_outcome;
  gemini_replies : list Agent.gemini_outcome;
  tool_replies : list Agent.tool_outcome
}.

Definition replay_hf (prompt : string) (w : replay) : Agent.hf_outcome * replay :=
  match hf_replies w with
  | [] => (Agent.HfRaise "connection refused", w)
  | r :: rest =>
      (r, {| hf_replies := rest; gemini_replies := gemini_replies w;
             tool_replies := tool_replies w |})
  end.

Definition replay_gemini (model prompt : string) (w : replay)
  : Agent.gemini_outcome * replay :=
  match gemini_replies w with
  | [] => (Agent.GeminiRaise "connection refused", w)
  | r :: rest =>
      (r, {| hf_replies := hf_replies w; gemini_replies := rest;
             tool_replies := tool_replies w |})
  end.

Definition replay_tool (name : string) (args : option value) (w : replay)
  : Agent.tool_outcome * replay :=
  match tool_replies w with
  | [] => (Agent.ToolError "no recorded outcome", w)
  | r :: rest =>
      (r, {| hf_replies := hf_replies w; gemini_replies := gemini_replies w;
             tool_replies := rest |})
  end.

Definition replay_env (backend : string) : Agent.Env :=
  {| Agent.World := replay;
     Agent.LLM_BACKEND := backend;
     Agent.json_loads := JsonText.loads;
     Agent.json_dumps := JsonText.dumps;
     Agent.text_generation := replay_hf;
     Agent.generate_content := replay_gemini;
     Agent.call_tool := replay_tool |}.

Module IsoSeconds.
Import PyStr Tools.

(** [datetime.fromisoformat] on the timestamps that
    [isoformat(timespec="seconds")] writes: YYYY-MM-DDTHH:MM:SS for a naive
    [datetime], and the same followed by +HH:MM or -HH:MM for an aware one;
    other texts are not parsed. *)

Fixpoint number (acc : Z) (s : string) : option Z :=
  match s with
  | EmptyString => Some acc
  | String c r =>
      match JsonText.digit_value c with
      | Some d => number (acc * 10 + d) r
      | None => None
      end
  end.

Definition is_leap (y : Z) : bool :=
  ((y mod 4 =? 0) && (negb (y mod 100 =? 0) || (y mod 400 =? 0)))%Z.

Definition days_in_month (y m : Z) : Z :=
  if (m =? 2)%Z then (if is_leap y then 29 else 28)
  else if ((m =? 4) || (m =? 6) || (m =? 9) || (m =? 11))%Z then 30 else 31.

(** The date and time of the first 19 characters. *)
Definition date_time (s : string) : option datetime :=
  if (substring 4 1 s =? "-") && (substring 7 1 s =? "-")
     && (substring 10 1 s =? "T")
     && (substring 13 1 s =? ":") && (substring 16 1 s =? ":")
  then
    match number 0 (substring 0 4 s), number 0 (substring 5 2 s),
          number 0 (substring 8 2 s), number 0 (substring 11 2 s),
          number 0 (substring 14 2 s), number 0 (substring 17 2 s) with
    | Some y, Some mo, Some d, Some h, Some mi, Some sec =>
        if ((1 <=? y) && (1 <=? mo) && (mo <=? 12) && (1 <=? d)
            && (d <=? days_in_month y mo) && (h <? 24) && (mi <? 60) && (sec <? 60))%Z
        then Some {| year := y; month := mo; day := d;
                     hour := h; minute := mi; second := sec; microsecond := 0 |}
        else None
    | _, _, _, _, _, _ => None
    end
  else None.

(** The UTC offset, in seconds, of the six characters [+HH:MM] or
    [-HH:MM]. *)
Definition utc_offset (s : string) : option Z :=
  if (substring 3 1 s =? ":") && ((substring 0 1 s =? "+") || (substring 0 1 s =? "-"))
  then
    match number 0 (substring 1 2 s), number 0 (substring 4 2 s) with
    | Some h, Some mi =>
        if ((h <? 24) && (mi <? 60))%Z
        then Some (if substring 0 1 s =? "-"
                   then (- (h * 3600 + mi * 60))%Z else (h * 3600 + mi * 60)%Z)
        else None
    | _, _ => None
    end
  else None.

Definition fromisoformat (s : string) : option parsed_time :=
  if (String.length s =? 19)%nat then
    match date_time s with
    | Some d => Some (Naive d)
    | None => None
    end
  else if (String.length s =? 25)%nat then
    match date_time (substring 0 19 s), utc_offset (substring 19 6 s) with
    | Some d, Some offset => Some (Aware d offset)
    | _, _ => None
    end
  else None.

End IsoSeconds.

(** ** Vocabulary of the properties *)

Section Vocabulary.
Import PyStr Agent Tools.

Definition system_instruction : string := strip SYSTEM_PROMPT.

(** The transcript begins with the system instruction. *)
Definition begins_with_system (a : agent) : Prop :=
  prefix system_instruction (dialogue a) = true.

(** The parsed text is no dictionary, or a dictionary without the key
    [action]. *)
Definition lacks_action (parsed : value) : Prop :=
  match parsed with
  | VDict d => Py.lookup "action" d = None
  | _ => True
  end.

(** The triggers as the specification lists them, in the order they are
    tested: the phrases of each, and the tool it selects. *)
Definition TRIGGERS : list (list string * string) :=
  [ (["check reminders"; "any reminders"; "show my reminders"], "check_reminders");
    (["remember"], "remember_info");
    (["recall"; "memory"], "recall_memory");
    (["search"; "news"], "web_search");
    (["remind"; "reminder"], "set_reminder") ].

Definition trigger_matches (msg : string) (t : list string * string) : bool :=
  existsb (fun phrase => contains phrase msg) (fst t).

(** The tool of the first trigger that matches, if any. *)
Definition first_trigger (msg : string) : option string :=
  option_map snd (find (trigger_matches msg) TRIGGERS).

(** The tool an action dictionary names, if it is a tool call. *)
Definition planned_tool (action : list (string * value)) : option string :=
  if Py.eq_str (Py.get action "action" VNone) "tool" then
    match Py.get action "name" VNone with
    | VStr name => Some name
    | _ => None
    end
  else None.

Definition echo_action (user_message : string) : list (string * value) :=
  [("action", VStr "respond");
   ("content", VStr ("Hi, I'm Jarvis running in offline mock mode. I received: "
                     ++ user_message))].

Definition in_registry (key : string) : bool := existsb (String.eqb key) Tools.TOOLS.

(** The keyword arguments [_run_tool] passes on: the dictionary, or none
    when [args] is false. *)
Definition passed_args (args : value) : option value :=
  if Py.truthy args then Some args else None.

Definition NO_ANSWER : string := "I used a tool but couldn't form a response.".

Definition mock_tool_reply (key tool_result : string) : string :=
  "(Mock mode) I used tool '" ++ key ++ "' and got this result:" ++ LF ++ LF ++ tool_result.

(** [full] is the directory [root] or a path below it. *)
Definition lies_inside (root full : string) : bool :=
  (full =? root)
  || startswith full (if endswith root "/" then root else root ++ "/").

(** A host whose project folder /srv/app has a sibling /srv/app_backup. *)
Definition sibling_host : host :=
  {| getcwd := "/";
     BASE_DIR := "/srv/app";
     files := fun p =>
       if p =? "/srv/app_backup/secret.txt"
       then Some {| node_size := 5; node_read := ReadText "token" |}
       else None |}.

Definition resolve (h : host) (path : string) : string :=
  PosixPath.abspath (getcwd h) (PosixPath.join (BASE_DIR h) path).

(** The record is selected by the loop at time [now]: not delivered, with a
    due time that parses to a naive [datetime] and has passed. *)
Definition is_due (fromisoformat : string -> option parsed_time)
    (now : datetime) (r : reminder) : bool :=
  negb (get_delivered r)
  && match fromisoformat (due_at r) with
     | Some (Naive due_time) => datetime_leb due_time now
     | _ => false
     end.

(** The loop cannot compare the record with [now]: it is not delivered and
    its due time parses to an aware [datetime]. *)
Definition is_aware (fromisoformat : string -> option parsed_time)
    (r : reminder) : bool :=
  negb (get_delivered r)
  && match fromisoformat (due_at r) with
     | Some (Aware _ _) => true
     | _ => false
     end.

(** Some record of the list stops the loop. *)
Definition has_aware (fromisoformat : string -> option parsed_time)
    (reminders : list reminder) : bool :=
  existsb (is_aware fromisoformat) reminders.

(** What the loop leaves of a record. *)
Definition deliver_due (fromisoformat : string -> option parsed_time)
    (now : datetime) (r : reminder) : reminder :=
  if is_due fromisoformat now r then mark_delivered r else r.

End Vocabulary.

Section MethodProperties.
Import Agent.
Context {E : Env}.

(** Running [m] keeps the property [P] of the agent, whether [m] returns or
    raises. *)
Definition preserves {A} (P : agent -> Prop) (m : M A) : Prop :=
  forall a w, P a -> P (snd (fst (m a w))).

(** Whenever [m] returns, it returns a non-empty string. *)
Definition nonempty_reply (m : M string) : Prop :=
  forall a w r a' w', m a w = (Returned r, a', w') -> r <> EmptyString.

End MethodProperties.

(** ** Inputs of the runs in the concrete environment *)

Section Scenarios.
Import PyStr Agent Tools.

Definition quoted (s : string) : string := DQ ++ s ++ DQ.

(** [{"action": "respond", "content": 5}] *)
Definition NUMERIC_CONTENT_TEXT : string :=
  "{" ++ quoted "action" ++ ": " ++ quoted "respond" ++ ", "
  ++ quoted "content" ++ ": 5}".

(** [{"action":"tool","name":"nonexistent_tool","args":{}}] *)
Definition UNKNOWN_TOOL_TEXT : string :=
  "{" ++ quoted "action" ++ ":" ++ quoted "tool" ++ "," ++ quoted "name" ++ ":"
  ++ quoted "nonexistent_tool" ++ "," ++ quoted "args" ++ ":{}}".

(** 1500 opening brackets *)
Definition DEEP_TEXT : string := repeat_char "[" 1500.

Definition fresh_agent : agent := GeminiAgent DEFAULT_GEMINI_MODEL 8000.

(** An agent with a budget its first dialogue already exceeds. *)
Definition tight_agent : agent := GeminiAgent DEFAULT_GEMINI_MODEL 100.

Definition nothing_recorded : replay :=
  {| hf_replies := []; gemini_replies := []; tool_replies := [] |}.

Definition gemini_says (texts : list string) : replay :=
  {| hf_replies := [];
     gemini_replies :=
       map (fun t => GeminiResponse {| response_text := Some t;
                                       response_candidates := None |}) texts;
     tool_replies := [] |}.

Definition hf_says (outcomes : list hf_outcome) : replay :=
  {| hf_replies := outcomes; gemini_replies := []; tool_replies := [] |}.

Definition at_time (h mi : Z) : datetime :=
  {| year := 2024; month := 1; day := 1; hour := h; minute := mi; second := 0;
     microsecond := 0 |}.

Definition tea_reminder : reminder :=
  {| message := "tea"; created_at := "2024-01-01T09:00:00";
     due_at := "2024-01-01T10:00:00"; delivered := Some false |}.

(** A reminder whose due time carries a UTC offset. *)
Definition zoned_reminder : reminder :=
  {| message := "flight"; created_at := "2024-01-01T09:00:00";
     due_at := "2024-01-01T10:00:00+00:00"; delivered := Some false |}.

Definition call_reminder : reminder :=
  {| message := "call"; created_at := "2024-01-01T09:00:00";
     due_at := "2024-01-01T10:05:00"; delivered := Some false |}.

End Scenarios.

(** ** Vocabulary of the further properties *)

Section FurtherVocabulary.
Import PyStr Agent Tools.

(** The longest dialogue a compaction can leave. *)
Definition COMPACTED_MAX : nat :=
  String.length system_instruction + String.length COMPACTION_NOTICE + 4000.

(** The dialogue is longer than the budget: the next compaction fires. *)
Definition over_budget (a : agent) : Prop :=
  (max_dialogue_chars a < Z.of_nat (String.length (dialogue a)))%Z.

(** An agent whose dialogue is 9000 characters long. *)
Definition long_agent : agent :=
  with_dialogue (GeminiAgent DEFAULT_GEMINI_MODEL 8000) (repeat_char "x" (90 * 100)).

(** The text a Gemini response yields before stripping. *)
Definition gemini_text (response : gemini_response) : string :=
  if or_empty (response_text response) =? EmptyString then
    match response_candidates response with
    | Some candidates => PyStr.join LF (collect_parts candidates)
    | None => EmptyString
    end
  else or_empty (response_text response).

(** The record was not selected at time [now1] and is selected at time
    [now2]. *)
Definition came_due (fromisoformat : string -> option parsed_time)
    (now1 now2 : datetime) (r : reminder) : bool :=
  is_due fromisoformat now2 r && negb (is_due fromisoformat now1 r).

(** The month and the day of a date are in range. *)
Definition valid_date (date : Z * Z * Z) : Prop :=
  match date with
  | (y, m, d) => (1 <= m <= 12 /\ 1 <= d <= days_in_month y m)%Z
  end.

(** A number that orders dates as their (year, month, day) triples do. *)
Definition date_key (date : Z * Z * Z) : Z :=
  match date with
  | (y, m, d) => ((y * 12 + m) * 32 + d)%Z
  end.

(** A number that orders [datetime] objects as their comparison does. *)
Definition instant (d : datetime) : Z :=
  ((date_key (year d, month d, day d) * 86400
    + hour d * 3600 + minute d * 60 + second d) * 1000000 + microsecond d)%Z.

(** [fromisoformat] reads back what [isoformat(timespec="seconds")] wrote
    for a naive [datetime]: the same naive [datetime], without its
    microseconds. *)
Definition reads_back (fromisoformat : string -> option parsed_time) : Prop :=
  forall d, valid_datetime d = true ->
    fromisoformat (isoformat_seconds d) = Some (Naive (whole_seconds d)).

(** The record [set_reminder] appends for a reminder set at [now] and due at
    [due_time]. *)
Definition new_reminder (now due_time : datetime) (text : string) : reminder :=
  {| message := text;
     created_at := isoformat_seconds now;
     due_at := isoformat_seconds due_time;
     delivered := Some false |}.

(** A line [main] prints for a message: a reply that is not empty, or the
    text of an exception. *)
Definition is_answer (p : printed) : Prop :=
  match p with
  | JarvisSays reply => reply <> EmptyString
  | ErrorSays _ => True
  | Banner | Farewell _ => False
  end.

(** A reply that is not empty. *)
Definition is_reply (p : printed) : Prop :=
  match p with
  | JarvisSays reply => reply <> EmptyString
  | _ => False
  end.

(** The lines are messages to answer: none is an exit command. *)
Definition no_exit_command (messages : list string) : Prop :=
  Forall (fun m => is_exit_command m = false) messages.

(** A host whose project folder /srv/app holds the file notes.txt. *)
Definition project_host : host :=
  {| getcwd := "/";
     BASE_DIR := "/srv/app";
     files := fun p =>
       if p =? "/srv/app/notes.txt"
       then Some {| node_size := 5; node_read := ReadText "hello" |}
       else None |}.

(** [strftime('%Y-%m-%d %H:%M:%S')] for a four-digit year *)
Definition strftime_seconds (d : datetime) : string :=
  pad4 (year d) ++ "-" ++ pad2 (month d) ++ "-" ++ pad2 (day d) ++ " "
  ++ pad2 (hour d) ++ ":" ++ pad2 (minute d) ++ ":" ++ pad2 (second d).

(** The float 0.5 *)
Definition HALF : pyfloat :=
  {| float_is_zero := false; float_repr := "0.5"; float_trunc := Some 0%Z |}.

(** [int(s)] on plain decimal texts: an optional sign and digits, with
    whitespace around them; other texts are refused here. *)
Definition int_of_decimal (s : string) : outcome Z :=
  let t := strip s in
  let refused :=
    Raised (ValueError ("invalid literal for int() with base 10: " ++ Py.repr_str s)) in
  let digits :=
    match t with
    | String "-"%char r => r
    | String "+"%char r => r
    | _ => t
    end in
  match digits with
  | EmptyString => refused
  | _ =>
      match IsoSeconds.number 0 digits with
      | Some n => Returned (if prefix "-" t then (- n)%Z else n)
      | None => refused
      end
  end.

End FurtherVocabulary.

(* ================================================================== *)
(** * Part II: properties *)
(* ================================================================== *)

(** ** Facts about strings *)

Section StringFacts.
Import PyStr.

Lemma app_assoc (a b c : string) : (a ++ b) ++ c = a ++ b ++ c.
Proof. induction a as [|x a IH]; simpl; [reflexivity | now rewrite IH]. Qed.

Lemma app_empty_r (a : string) : a ++ EmptyString = a.
Proof. induction a as [|x a IH]; simpl; [reflexivity | now rewrite IH]. Qed.

Lemma length_app (a b : string) :
  String.length (a ++ b) = String.length a + String.length b.
Proof. induction a as [|x a IH]; simpl; [reflexivity | now rewrite IH]. Qed.

Lemma prefix_empty (s : string) : prefix EmptyString s = true.
Proof. destruct s; reflexivity. Qed.

Lemma prefix_app (p s : string) : prefix p (p ++ s) = true.
Proof.
  induction p as [|x p IH]; simpl; [apply prefix_empty|].
  destruct (ascii_dec x x) as [_|ne]; [exact IH | now elim ne].
Qed.

Lemma prefix_split (p s : string) : prefix p s = true -> exists v, s = p ++ v.
Proof.
  revert s; induction p as [|x p IH]; intros s H.
  - exists s; reflexivity.
  - destruct s as [|y s]; simpl in H; [discriminate|].
    destruct (ascii_dec x y) as [->|_]; [|discriminate].
    destruct (IH s H) as [v ->]. exists v; reflexivity.
Qed.

Lemma prefix_app_r (p s t : string) : prefix p s = true -> prefix p (s ++ t) = true.
Proof.
  intros H. destruct (prefix_split p s H) as [v ->].
  rewrite app_assoc. apply prefix_app.
Qed.

Lemma length_drop (k : nat) (s : string) :
  String.length (drop k s) = String.length s - k.
Proof.
  revert s; induction k as [|k IH]; intros s; simpl.
  - lia.
  - destruct s as [|c s]; simpl; [reflexivity | apply IH].
Qed.

Lemma take_drop (k : nat) (s : string) : take k s ++ drop k s = s.
Proof.
  revert s; induction k as [|k IH]; intros s; simpl; [reflexivity|].
  destruct s as [|c s]; simpl; [reflexivity | now rewrite IH].
Qed.

Lemma length_last_chars (n : nat) (s : string) :
  String.length (last_chars n s) = Nat.min n (String.length s).
Proof. unfold last_chars. rewrite length_drop. lia. Qed.

Lemma last_chars_suffix (n : nat) (s : string) :
  exists older, s = older ++ last_chars n s.
Proof.
  exists (take (String.length s - n) s). unfold last_chars.
  symmetry; apply take_drop.
Qed.

Lemma contains_intro (sub u v : string) : contains sub (u ++ sub ++ v) = true.
Proof.
  induction u as [|c u IH]; simpl.
  - destruct (sub ++ v) eqn:Ev; cbn [contains].
    + destruct sub; [reflexivity | discriminate].
    + rewrite <- Ev, prefix_app. reflexivity.
  - rewrite IH. apply orb_true_r.
Qed.

Lemma contains_elim (sub s : string) :
  contains sub s = true -> exists u v, s = u ++ sub ++ v.
Proof.
  induction s as [|c s IH]; cbn [contains]; intros H.
  - rewrite orb_false_r in H. destruct (prefix_split _ _ H) as [v ->].
    exists EmptyString, v; reflexivity.
  - apply orb_true_iff in H as [H|H].
    + destruct (prefix_split _ _ H) as [v ->]. exists EmptyString, v; reflexivity.
    + destruct (IH H) as (u & v & ->). exists (String c u), v; reflexivity.
Qed.

(** A string that contains [big] contains every piece of [big]. *)
Lemma contains_trans (small big s : string) :
  contains small big = true -> contains big s = true -> contains small s = true.
Proof.
  intros H1 H2.
  destruct (contains_elim _ _ H1) as (u1 & v1 & ->).
  destruct (contains_elim _ _ H2) as (u2 & v2 & ->).
  replace (u2 ++ (u1 ++ small ++ v1) ++ v2) with ((u2 ++ u1) ++ small ++ (v1 ++ v2)).
  - apply contains_intro.
  - now rewrite !app_assoc.
Qed.

Lemma or_str_nonempty (x d : string) : d <> EmptyString -> or_str x d <> EmptyString.
Proof.
  unfold or_str. intros Hd. destruct (String.eqb_spec x EmptyString); assumption.
Qed.

End StringFacts.

(** ** Context compaction *)

Section Compaction.
Import PyStr Agent.

Lemma compact_over_budget (a : agent) :
  (max_dialogue_chars a < Z.of_nat (String.length (dialogue a)))%Z ->
  dialogue (_compact_context a)
  = system_instruction ++ COMPACTION_NOTICE ++ last_chars 4000 (dialogue a).
Proof.
  intros H. unfold _compact_context.
  destruct (Z.leb_spec (Z.of_nat (String.length (dialogue a))) (max_dialogue_chars a));
    [lia | reflexivity].
Qed.

Lemma compact_within_budget (a : agent) :
  (Z.of_nat (String.length (dialogue a)) <= max_dialogue_chars a)%Z ->
  _compact_context a = a.
Proof.
  intros H. unfold _compact_context.
  destruct (Z.leb_spec (Z.of_nat (String.length (dialogue a))) (max_dialogue_chars a));
    [reflexivity | lia].
Qed.

Lemma compact_begins_with_system (a : agent) :
  begins_with_system a -> begins_with_system (_compact_context a).
Proof.
  intros H.
  destruct (Z.le_gt_cases (Z.of_nat (String.length (dialogue a))) (max_dialogue_chars a)).
  - now rewrite compact_within_budget.
  - unfold begins_with_system. rewrite compact_over_budget by assumption.
    apply prefix_app.
Qed.

(** C7.  When the dialogue is longer than [max_dialogue_chars],
    [_compact_context] replaces it with the stripped system prompt, the fixed
    notice and the last 4000 characters of the previous dialogue (a suffix of
    it, at most 4000 long); the new length is at most
    |system prompt| + |notice| + 4000 and the system instruction is a prefix.
    A dialogue within the budget is left as it is. *)
Theorem compact_context_bounded (a : agent) :
  ((max_dialogue_chars a < Z.of_nat (String.length (dialogue a)))%Z ->
     let tail := last_chars 4000 (dialogue a) in
     dialogue (_compact_context a) = system_instruction ++ COMPACTION_NOTICE ++ tail
     /\ (exists older, dialogue a = older ++ tail)
     /\ String.length tail = Nat.min 4000 (String.length (dialogue a))
     /\ String.length (dialogue (_compact_context a))
        <= String.length system_instruction + String.length COMPACTION_NOTICE + 4000
     /\ prefix system_instruction (dialogue (_compact_context a)) = true
     /\ max_dialogue_chars (_compact_context a) = max_dialogue_chars a
     /\ model_name (_compact_context a) = model_name a)
  /\ ((Z.of_nat (String.length (dialogue a)) <= max_dialogue_chars a)%Z ->
        _compact_context a = a).
Proof.
  split.
  - intros Hover tail.
    pose proof (compact_over_budget a Hover) as Hd. fold tail in Hd.
    repeat split.
    + exact Hd.
    + apply last_chars_suffix.
    + apply length_last_chars.
    + rewrite Hd, !length_app. unfold tail. rewrite length_last_chars. lia.
    + rewrite Hd. apply prefix_app.
    + unfold _compact_context.
      destruct (Z.of_nat _ <=? _)%Z; reflexivity.
    + unfold _compact_context.
      destruct (Z.of_nat _ <=? _)%Z; reflexivity.
  - apply compact_within_budget.
Qed.

End Compaction.

(** ** The transcript invariant *)

Section Invariant.
Import PyStr Agent.
Context {E : Env}.

Lemma preserves_ret {A} P (x : A) : preserves P (ret x).
Proof. intros a w H; exact H. Qed.

Lemma preserves_raise {A} P (e : exn) : preserves P (@raise E A e).
Proof. intros a w H; exact H. Qed.

Lemma preserves_bind {A B} P (m : M A) (k : A -> M B) :
  preserves P m -> (forall x, preserves P (k x)) -> preserves P (bind m k).
Proof.
  intros Hm Hk a w H. unfold bind.
  specialize (Hm a w H).
  destruct (m a w) as [[[x|e] a'] w']; simpl in *.
  - now apply Hk.
  - exact Hm.
Qed.

Lemma preserves_read_agent {A} P (f : agent -> A) : preserves P (read_agent f).
Proof. intros a w H; exact H. Qed.

Lemma preserves_in_world {A} P (f : World -> A * World) : preserves P (in_world f).
Proof. intros a w H. unfold in_world. now destruct (f w). Qed.

Lemma preserves_of_outcome {A} P (o : outcome A) : preserves P (of_outcome o).
Proof. destruct o; [apply preserves_ret | apply preserves_raise]. Qed.

Lemma preserves_update_agent P (f : agent -> agent) :
  (forall a, P a -> P (f a)) -> preserves P (update_agent f).
Proof. intros Hf a w H. now apply Hf. Qed.

Lemma preserves_subscript P d k : preserves P (subscript d k).
Proof.
  unfold subscript. destruct (Py.lookup k d); [apply preserves_ret | apply preserves_raise].
Qed.

Ltac preserve_step :=
  first
    [ apply preserves_ret | apply preserves_raise | apply preserves_read_agent
    | apply preserves_in_world | apply preserves_of_outcome | apply preserves_subscript
    | apply preserves_bind; [|intros]
    | match goal with
      | |- preserves _ (if ?c then _ else _) => destruct c
      | |- preserves _ (match ?x with _ => _ end) => destruct x
      end ].

Lemma run_tool_preserves P (name args : value) : preserves P (_run_tool name args).
Proof. unfold _run_tool. repeat preserve_step. Qed.

Lemma call_model_preserves (prompt : string) :
  preserves begins_with_system (_call_model prompt).
Proof.
  unfold _call_model.
  apply preserves_bind; [|intros _].
  - apply preserves_update_agent, compact_begins_with_system.
  - repeat preserve_step.
Qed.

Lemma append_turn_begins_with_system (a : agent) (user_message reply_text : string) :
  begins_with_system a -> begins_with_system (append_turn a user_message reply_text).
Proof. unfold begins_with_system; simpl. apply prefix_app_r. Qed.

Lemma finish_turn_preserves (user_message reply_text : string) :
  preserves begins_with_system (finish_turn user_message reply_text).
Proof.
  unfold finish_turn. apply preserves_bind; [|intros _; apply preserves_ret].
  apply preserves_update_agent. intros a. apply append_turn_begins_with_system.
Qed.

Lemma chat_preserves (user_message : string) :
  preserves begins_with_system (chat user_message).
Proof.
  unfold chat.
  repeat first
    [ apply finish_turn_preserves | apply call_model_preserves
    | apply run_tool_preserves | preserve_step ].
Qed.

Lemma init_begins_with_system (model : string) (budget : Z) :
  begins_with_system (GeminiAgent model budget).
Proof. unfold begins_with_system, GeminiAgent; cbn [dialogue]. apply prefix_app. Qed.

(** C8.  The dialogue of every agent a session can hold begins with the
    stripped system instruction: the agent just built, and every agent left
    by a chat turn (which only appends the User/Assistant text), by a backend
    call or by a compaction, however many times these are applied; and a
    compaction that fires puts the instruction in front whatever the
    dialogue was. *)
Theorem dialogue_begins_with_system :
  (forall a, reachable a -> prefix (strip SYSTEM_PROMPT) (dialogue a) = true)
  /\ (forall a user_message reply_text,
        prefix (strip SYSTEM_PROMPT) (dialogue a) = true ->
        prefix (strip SYSTEM_PROMPT)
               (dialogue a ++ turn_text user_message reply_text) = true)
  /\ (forall a n,
        prefix (strip SYSTEM_PROMPT) (dialogue a) = true ->
        prefix (strip SYSTEM_PROMPT) (dialogue (Nat.iter n _compact_context a)) = true)
  /\ (forall a,
        (max_dialogue_chars a < Z.of_nat (String.length (dialogue a)))%Z ->
        prefix (strip SYSTEM_PROMPT) (dialogue (_compact_context a)) = true).
Proof.
  repeat split.
  - intros a H. change (begins_with_system a).
    induction H.
    + apply init_begins_with_system.
    + now apply compact_begins_with_system.
    + now apply call_model_preserves.
    + now apply chat_preserves.
  - intros a u r H. now apply prefix_app_r.
  - intros a n H. change (begins_with_system (Nat.iter n _compact_context a)).
    induction n; simpl; [exact H | now apply compact_begins_with_system].
  - intros a H. rewrite compact_over_budget by assumption. apply prefix_app.
Qed.

End Invariant.

(** ** Mock mode *)

Section MockMode.
Import PyStr Agent.
Context {E : Env}.

Lemma run_tool_registered (key : string) (args : value) (a : agent) (w : World) :
  existsb (String.eqb key) Tools.TOOLS = true ->
  exists result w', _run_tool (VStr key) args a w = (Returned result, a, w').
Proof.
  intros Hin. unfold _run_tool. cbn [Py.hashable negb]. rewrite Hin.
  unfold bind, in_world.
  destruct (call_tool key (if Py.truthy args then Some args else None) w) as [[r|e|e] w'];
    eexists; eexists; reflexivity.
Qed.

Lemma length_turn_text (user_message reply_text : string) :
  String.length (turn_text user_message reply_text)
  = 19 + String.length user_message + String.length reply_text.
Proof.
  unfold turn_text. rewrite !length_app. unfold LF. simpl String.length. lia.
Qed.

(** One turn in mock mode: it returns, and the dialogue is the old one with
    the text of the turn appended. *)
Lemma chat_mock_turn (user_message : string) (a : agent) (w : World) :
  LLM_BACKEND = "mock" ->
  exists reply w',
    chat user_message a w = (Returned reply, append_turn a user_message reply, w')
    /\ reply <> EmptyString.
Proof.
  intros Hmock. unfold chat. rewrite Hmock. cbn [String.eqb Ascii.eqb Bool.eqb].
  unfold _mock_decide_action.
  repeat match goal with
         | |- context [if ?c then _ else _] =>
             match c with
             | context [contains] => destruct c
             end
         end.
  1-5: cbn [bind subscript Py.lookup String.eqb Ascii.eqb Bool.eqb ret Py.eq_str Py.get
            Py.or_else Py.truthy];
     match goal with
     | |- context [_run_tool (VStr ?k) ?args] =>
         destruct (run_tool_registered k args a w eq_refl) as (result & w' & Hrun)
     end;
     match goal with
     | Hrun : _ |- exists _ _, bind ?m ?k ?x ?y = _ /\ _ =>
         unfold bind at 1; rewrite Hrun
     end;
     eexists; eexists; split; [reflexivity | discriminate].
  cbn [bind subscript Py.lookup String.eqb Ascii.eqb Bool.eqb ret Py.eq_str Py.get
       of_outcome Py.strip_method finish_turn update_agent].
  eexists; eexists; split; [reflexivity|].
  apply or_str_nonempty. discriminate.
Qed.

Lemma chat_turns_mock (messages : list string) (a : agent) (w : World) :
  LLM_BACKEND = "mock" ->
  (exists appended,
      dialogue (fst (chat_turns messages a w)) = dialogue a ++ appended)
  /\ String.length (dialogue a) + 20 * List.length messages
     <= String.length (dialogue (fst (chat_turns messages a w)))
  /\ max_dialogue_chars (fst (chat_turns messages a w)) = max_dialogue_chars a.
Proof.
  intros Hmock. revert a w.
  induction messages as [|m rest IH]; intros a w; cbn [chat_turns fst List.length].
  - repeat split; [exists EmptyString; now rewrite app_empty_r | lia].
  - destruct (chat_mock_turn m a w Hmock) as (reply & w' & -> & Hne).
    destruct (IH (append_turn a m reply) w') as ((app & Happ) & Hlen & Hmax).
    repeat split.
    + exists (turn_text m reply ++ app). rewrite Happ. cbn [append_turn with_dialogue dialogue].
      apply app_assoc.
    + cbn [append_turn with_dialogue dialogue] in Hlen.
      rewrite length_app, length_turn_text in Hlen.
      destruct reply as [|c reply]; [now elim Hne|]. cbn [String.length] in Hlen. lia.
    + exact Hmax.
Qed.

(** C10.  In mock mode a chat turn never compacts: whatever the budget and
    the length of the dialogue, the turn returns a non-empty reply and leaves
    the old dialogue followed by the text of the turn.  So across turns the
    dialogue only grows, by at least 20 characters a turn, its budget stays
    what it was, and its length passes every bound. *)
Theorem mock_mode_never_compacts :
  LLM_BACKEND = "mock" ->
  (forall user_message a w,
      exists reply w',
        chat user_message a w = (Returned reply, append_turn a user_message reply, w')
        /\ reply <> EmptyString)
  /\ (forall messages a w,
        (exists appended,
            dialogue (fst (chat_turns messages a w)) = dialogue a ++ appended)
        /\ String.length (dialogue a) + 20 * List.length messages
           <= String.length (dialogue (fst (chat_turns messages a w)))
        /\ max_dialogue_chars (fst (chat_turns messages a w)) = max_dialogue_chars a)
  /\ (forall (bound : nat) a w,
        exists messages,
          (max_dialogue_chars a + Z.of_nat bound
           < Z.of_nat (String.length (dialogue (fst (chat_turns messages a w)))))%Z
          /\ max_dialogue_chars (fst (chat_turns messages a w)) = max_dialogue_chars a).
Proof.
  intros Hmock. split; [|split].
  - intros; now apply chat_mock_turn.
  - intros; now apply chat_turns_mock.
  - intros bound a w.
    exists (List.repeat EmptyString (Z.to_nat (max_dialogue_chars a) + bound + 1)).
    destruct (chat_turns_mock
                (List.repeat EmptyString (Z.to_nat (max_dialogue_chars a) + bound + 1))
                a w Hmock) as (_ & Hlen & Hmax).
    rewrite List.repeat_length in Hlen. split; [lia | exact Hmax].
Qed.

End MockMode.

(** ** The backend adapter *)

Section BackendAdapter.
Import PyStr Agent.
Context {E : Env}.

Lemma compact_model_name (a : agent) : model_name (_compact_context a) = model_name a.
Proof. unfold _compact_context. now destruct (_ <=? _)%Z. Qed.

(** [_call_model] always returns, and leaves the compacted agent. *)
Lemma call_model_returns (prompt : string) (a : agent) (w : World) :
  exists raw w', _call_model prompt a w = (Returned raw, _compact_context a, w').
Proof.
  unfold _call_model, bind, update_agent, in_world, read_agent, ret.
  destruct (LLM_BACKEND =? "hf").
  - destruct (text_generation prompt w) as [[t|e] w']; eexists; eexists; reflexivity.
  - destruct (LLM_BACKEND =? "gemini").
    + destruct (generate_content (model_name (_compact_context a)) prompt w)
        as [[r|e] w']; eexists; eexists; reflexivity.
    + eexists; eexists; reflexivity.
Qed.

Lemma error_content_mentions (apology detail : string) :
  contains apology (error_content apology detail) = true
  /\ contains detail (error_content apology detail) = true.
Proof.
  unfold error_content. split.
  - apply (contains_intro apology EmptyString).
  - replace (apology ++ LF ++ LF ++ "Technical details: " ++ detail)
      with ((apology ++ LF ++ LF ++ "Technical details: ") ++ detail ++ EmptyString).
    + apply contains_intro.
    + now rewrite !app_assoc, app_empty_r.
Qed.

(** C4.  When the remote call raises, [_call_model] returns the JSON text of
    a respond action whose content is the apology of that backend followed by
    the text of the exception, and it does so for the Hugging Face and for
    the Gemini backend; whatever the backend does, [_call_model] returns a
    string and raises nothing. *)
Theorem call_model_backend_failure :
  (forall prompt a w w' detail,
      LLM_BACKEND = "hf" ->
      text_generation prompt w = (HfRaise detail, w') ->
      _call_model prompt a w
      = (Returned (json_dumps true
                     (VDict [("action", VStr "respond");
                             ("content", VStr (error_content HF_APOLOGY detail))])),
         _compact_context a, w'))
  /\ (forall prompt a w w' detail,
        LLM_BACKEND = "gemini" ->
        generate_content (model_name a) prompt w = (GeminiRaise detail, w') ->
        _call_model prompt a w
        = (Returned (json_dumps true
                       (VDict [("action", VStr "respond");
                               ("content", VStr (error_content GEMINI_APOLOGY detail))])),
           _compact_context a, w'))
  /\ (forall apology detail,
        contains apology (error_content apology detail) = true
        /\ contains detail (error_content apology detail) = true)
  /\ (forall prompt a w,
        exists raw w', _call_model prompt a w = (Returned raw, _compact_context a, w')).
Proof.
  repeat split.
  - intros prompt a w w' detail Hb Hcall.
    unfold _call_model, bind, update_agent, in_world, ret.
    rewrite Hb. cbn [String.eqb Ascii.eqb Bool.eqb]. now rewrite Hcall.
  - intros prompt a w w' detail Hb Hcall.
    unfold _call_model, bind, update_agent, in_world, read_agent, ret.
    rewrite Hb. cbn [String.eqb Ascii.eqb Bool.eqb].
    rewrite compact_model_name. now rewrite Hcall.
  - apply error_content_mentions.
  - apply error_content_mentions.
  - intros; apply call_model_returns.
Qed.

End BackendAdapter.

(** ** Parsing the backend's text *)

Section BackendDriven.
Import PyStr Agent.
Context {E : Env}.

Lemma lacks_action_of (parsed : value) : lacks_action parsed -> action_of parsed = None.
Proof.
  destruct parsed; try reflexivity. simpl. intros ->. reflexivity.
Qed.

(** In backend-driven mode a turn is the first backend call followed by the
    handling of its text. *)
Lemma chat_backend_step (user_message : string) (a a1 : agent) (w w1 : World) (raw : string) :
  LLM_BACKEND <> "mock" ->
  _call_model (first_prompt (dialogue a) user_message) a w = (Returned raw, a1, w1) ->
  chat user_message a w
  = match json_loads raw with
    | LoadsRaises e => raise e
    | JSONDecodeError =>
        finish_turn user_message (or_str raw "I could not understand my own JSON output.")
    | Parsed parsed =>
        match action_of parsed with
        | None =>
            finish_turn user_message (or_str raw "I produced an invalid JSON action.")
        | Some (action, tag) =>
            if Py.eq_str tag "respond" then
              content <- of_outcome
                (Py.strip_method
                   (Py.or_else (Py.get action "content" VNone) (VStr EmptyString))) ;;
              finish_turn user_message (or_str content EMPTY_CONTENT)
            else if Py.eq_str tag "tool" then
              let tool_name := Py.get action "name" VNone in
              let args := Py.or_else (Py.get action "args" VNone) (VDict []) in
              tool_result <- _run_tool tool_name args ;;
              d <- read_agent dialogue ;;
              final_text <- _call_model
                (followup_prompt d user_message tool_name args tool_result) ;;
              finish_turn user_message
                (or_str (strip final_text) "I used a tool but couldn't form a response.")
            else
              finish_turn user_message (or_str raw "I produced an unknown action type.")
        end
    end a1 w1.
Proof.
  intros Hb Hcall. unfold chat.
  destruct (String.eqb_spec LLM_BACKEND "mock") as [Heq|_]; [now elim Hb|].
  unfold bind at 1. unfold read_agent at 1.
  unfold bind at 1. rewrite Hcall. reflexivity.
Qed.

Lemma finish_turn_run (user_message reply : string) (a : agent) (w : World) :
  finish_turn user_message reply a w = (Returned reply, append_turn a user_message reply, w).
Proof. reflexivity. Qed.

(** C5 (code bug).  Backend-driven mode, [raw] being the text [_call_model]
    gives for the first prompt.  [chat] catches [JSONDecodeError] only:
    whenever [json.loads] raises another exception on [raw] (as it does,
    with [RecursionError], on a text of 1500 opening brackets, which is not
    valid JSON), the turn raises that exception instead of falling back to
    the raw text; no reply is returned and nothing is appended.  On the
    other texts the fallbacks are as claimed: when [json.loads] raises
    [JSONDecodeError] the turn returns [raw] itself, or a fixed placeholder
    when [raw] is empty; when it returns something that is no object with an
    [action] key the same holds (with the placeholder of that case); when it
    returns a respond action whose content is missing or empty the turn
    returns the fixed empty-content placeholder; in these cases the reply is
    appended to the dialogue and no second backend call is made. *)
Theorem chat_raises_when_loads_raises (user_message : string) (a a1 : agent)
    (w w1 : World) (raw : string) :
  LLM_BACKEND <> "mock" ->
  _call_model (first_prompt (dialogue a) user_message) a w = (Returned raw, a1, w1) ->
  (forall e,
      json_loads raw = LoadsRaises e ->
      chat user_message a w = (Raised e, a1, w1))
  /\ (json_loads raw = JSONDecodeError ->
      let reply := if raw =? EmptyString
                   then "I could not understand my own JSON output." else raw in
      chat user_message a w = (Returned reply, append_turn a1 user_message reply, w1))
  /\ (forall parsed,
        json_loads raw = Parsed parsed -> lacks_action parsed ->
        let reply := if raw =? EmptyString
                     then "I produced an invalid JSON action." else raw in
        chat user_message a w = (Returned reply, append_turn a1 user_message reply, w1))
  /\ (forall d,
        json_loads raw = Parsed (VDict d) ->
        Py.lookup "action" d = Some (VStr "respond") ->
        Py.lookup "content" d = None \/ Py.lookup "content" d = Some (VStr EmptyString) ->
        chat user_message a w
        = (Returned "I tried to respond, but my content was empty.",
           append_turn a1 user_message "I tried to respond, but my content was empty.",
           w1)).
Proof.
  intros Hb Hcall.
  pose proof (chat_backend_step user_message a a1 w w1 raw Hb Hcall) as Hstep.
  repeat split.
  - intros e Hraise. rewrite Hstep, Hraise. reflexivity.
  - intros Hnone reply. rewrite Hstep, Hnone. apply finish_turn_run.
  - intros parsed Hsome Hlack reply.
    rewrite Hstep, Hsome, (lacks_action_of parsed Hlack). apply finish_turn_run.
  - intros d Hsome Htag Hcontent.
    rewrite Hstep, Hsome. cbn [action_of]. rewrite Htag.
    cbn [Py.eq_str String.eqb Ascii.eqb Bool.eqb]. unfold Py.get.
    destruct Hcontent as [-> | ->]; reflexivity.
Qed.

End BackendDriven.

(** ** The rule-based planner *)

Section Planner.
Import PyStr Agent.

Lemma contains_piece (small big msg : string) :
  contains small big = true -> contains small msg = false -> contains big msg = false.
Proof.
  intros Hsb Hno. destruct (contains big msg) eqn:Hbig; [|reflexivity].
  rewrite (contains_trans small big msg Hsb Hbig) in Hno. discriminate.
Qed.

Lemma planner_check_reminders (user_message : string) :
  contains "check reminders" (lower user_message)
  || contains "any reminders" (lower user_message)
  || contains "show my reminders" (lower user_message) = true ->
  _mock_decide_action user_message
  = [("action", VStr "tool"); ("name", VStr "check_reminders"); ("args", VDict [])].
Proof. intros H. unfold _mock_decide_action. now rewrite H. Qed.

Lemma planner_follows_triggers (user_message : string) :
  planned_tool (_mock_decide_action user_message) = first_trigger (lower user_message)
  /\ (first_trigger (lower user_message) = None ->
      _mock_decide_action user_message = echo_action user_message).
Proof.
  unfold _mock_decide_action, first_trigger, TRIGGERS, trigger_matches.
  cbn [find existsb fst snd option_map].
  set (msg := lower user_message).
  rewrite !orb_false_r, !orb_assoc.
  destruct (contains "check reminders" msg || contains "any reminders" msg
            || contains "show my reminders" msg) eqn:Hcheck.
  { split; [reflexivity | discriminate]. }
  destruct (contains "remember" msg) eqn:Hremember.
  { split; [reflexivity | discriminate]. }
  rewrite (contains_piece "remember" "what do you remember" msg eq_refl Hremember).
  rewrite orb_false_r.
  destruct (contains "recall" msg || contains "memory" msg) eqn:Hrecall.
  { split; [reflexivity | discriminate]. }
  destruct (contains "search" msg || contains "news" msg) eqn:Hsearch.
  { split; [reflexivity | discriminate]. }
  destruct (contains "remind" msg) eqn:Hremind; cbn [orb].
  { split; [reflexivity | discriminate]. }
  rewrite (contains_piece "remind" "reminder" msg eq_refl Hremind).
  rewrite (contains_piece "remind" "set a reminder" msg eq_refl Hremind).
  cbn [orb]. split; reflexivity.
Qed.

(** C3.  A message whose lower-casing contains "check reminders", "any
    reminders" or "show my reminders" is planned as a call of
    [check_reminders] with no arguments, whatever else it contains
    ("remember", "reminder", "recall", ...).  For every message the planner
    selects the tool of the first trigger that matches, the triggers being
    tested in the order check-reminders, remember, recall/memory,
    search/news, remind/reminder; a message that matches none gives the
    respond action that echoes it. *)
Theorem planner_first_match_wins (user_message : string) :
  (contains "check reminders" (lower user_message)
   || contains "any reminders" (lower user_message)
   || contains "show my reminders" (lower user_message) = true ->
   _mock_decide_action user_message
   = [("action", VStr "tool"); ("name", VStr "check_reminders"); ("args", VDict [])])
  /\ planned_tool (_mock_decide_action user_message) = first_trigger (lower user_message)
  /\ (first_trigger (lower user_message) = None ->
      _mock_decide_action user_message
      = [("action", VStr "respond");
         ("content", VStr ("Hi, I'm Jarvis running in offline mock mode. I received: "
                           ++ user_message))]).
Proof.
  split; [apply planner_check_reminders | apply planner_follows_triggers].
Qed.

End Planner.

(** ** Reminders *)

Section RemindersFacts.
Import PyStr Tools.
Variable fromisoformat : string -> option parsed_time.

(** The loop raises exactly when some undelivered record has an aware due
    time; otherwise it selects the due records and marks them. *)
Lemma scan_due_spec (now : datetime) (reminders : list reminder) :
  scan_due fromisoformat now reminders
  = if has_aware fromisoformat reminders then Raised (TypeError NAIVE_AWARE)
    else Returned (map mark_delivered (filter (is_due fromisoformat now) reminders),
                   map (deliver_due fromisoformat now) reminders).
Proof.
  unfold has_aware.
  induction reminders as [|r rest IH]; [reflexivity|].
  cbn [scan_due existsb filter map]. rewrite IH.
  unfold deliver_due, is_due, is_aware.
  destruct (get_delivered r); cbn [negb andb orb];
    [now destruct (existsb _ rest)|].
  destruct (fromisoformat (due_at r)) as [[due_time|due_time offset]|]; cbn [orb];
    [|reflexivity|now destruct (existsb _ rest)].
  destruct (datetime_leb due_time now); now destruct (existsb _ rest).
Qed.

Lemma is_due_marked (now : datetime) (r : reminder) :
  is_due fromisoformat now (mark_delivered r) = false.
Proof. reflexivity. Qed.

Lemma is_due_deliver_due (now now2 : datetime) (r : reminder) :
  is_due fromisoformat now2 (deliver_due fromisoformat now r)
  = is_due fromisoformat now2 r && negb (is_due fromisoformat now r).
Proof.
  unfold deliver_due. destruct (is_due fromisoformat now r) eqn:Hd.
  - rewrite is_due_marked. now rewrite andb_false_r.
  - now rewrite andb_true_r.
Qed.

(** Marking records delivered makes none of them aware. *)
Lemma has_aware_deliver_due (now : datetime) (reminders : list reminder) :
  has_aware fromisoformat reminders = false ->
  has_aware fromisoformat (map (deliver_due fromisoformat now) reminders) = false.
Proof.
  unfold has_aware. induction reminders as [|r rest IH]; [reflexivity|].
  cbn [map existsb]. intros H. apply orb_false_iff in H as [Hr Hrest].
  rewrite (IH Hrest), orb_false_r.
  unfold deliver_due. now destruct (is_due fromisoformat now r).
Qed.

Lemma filter_none {A} (f : A -> bool) (l : list A) :
  (forall x, In x l -> f x = false) -> filter f l = [].
Proof.
  induction l as [|x l IH]; intros H; [reflexivity|].
  cbn [filter]. rewrite (H x (or_introl eq_refl)). apply IH.
  intros y Hy. apply H. now right.
Qed.

Lemma contains_app_r (sub pre s : string) :
  contains sub s = true -> contains sub (pre ++ s) = true.
Proof.
  intros H. destruct (contains_elim _ _ H) as (u & v & ->).
  rewrite <- app_assoc. apply contains_intro.
Qed.

Lemma contains_self_app (sub post : string) : contains sub (sub ++ post) = true.
Proof. apply (contains_intro sub EmptyString post). Qed.

Lemma contains_join (sep x : string) (parts : list string) :
  In x parts -> contains x (PyStr.join sep parts) = true.
Proof.
  unfold PyStr.join.
  induction parts as [|y parts IH]; intros Hin; [destruct Hin|].
  destruct parts as [|z parts].
  - destruct Hin as [->|[]]. cbn [String.concat].
    rewrite <- (app_empty_r x) at 2. apply contains_self_app.
  - change (String.concat sep (y :: z :: parts))
      with (y ++ sep ++ String.concat sep (z :: parts)).
    destruct Hin as [->|Hin].
    + apply contains_self_app.
    + apply contains_app_r, contains_app_r, IH, Hin.
Qed.

(** The reply and the document after a call, from the document before. *)
Lemma check_reminders_holds (now : datetime) (write : write_outcome)
    (reminders : list reminder) :
  check_reminders fromisoformat now write (Holds reminders)
  = if has_aware fromisoformat reminders
    then (Raised (TypeError NAIVE_AWARE), Holds reminders)
    else (Returned match filter (is_due fromisoformat now) reminders with
                   | [] => NONE_DUE
                   | due => PyStr.join LF ("Here are your due reminders:"
                                           :: map due_line (map mark_delivered due))
                   end,
          _save_json write (Holds reminders)
            (map (deliver_due fromisoformat now) reminders)).
Proof.
  unfold check_reminders. cbn [_load_json _ensure_json_file].
  rewrite scan_due_spec. destruct (has_aware fromisoformat reminders); [reflexivity|].
  destruct (filter (is_due fromisoformat now) reminders); reflexivity.
Qed.

(** An aware due time on an undelivered record makes the call raise, and
    then nothing is saved, whatever else is due. *)
Lemma check_reminders_raises_on_aware (now : datetime) (write : write_outcome)
    (reminders : list reminder) :
  has_aware fromisoformat reminders = true ->
  check_reminders fromisoformat now write (Holds reminders)
  = (Raised (TypeError NAIVE_AWARE), Holds reminders).
Proof. intros H. now rewrite check_reminders_holds, H. Qed.

(** C9 (as amended).  From a reminders list in which no undelivered record
    has an aware due time and which holds an undelivered reminder whose due
    time has passed, [check_reminders] returns a text with that reminder's
    line and, when its write succeeds, stores the list with the reminder
    marked delivered; no stored record is then undelivered and past due, so
    a second call at the same time returns the none-due message (and, unless
    its own write fails midway, leaves the file as it is), and so does a
    second call at any time by which no further reminder of the list has
    come due. *)
Theorem check_reminders_delivers_once
    (now : datetime) (reminders : list reminder) (r : reminder) (due_time : datetime) :
  has_aware fromisoformat reminders = false ->
  In r reminders ->
  get_delivered r = false ->
  fromisoformat (due_at r) = Some (Naive due_time) ->
  datetime_leb due_time now = true ->
  let first := check_reminders fromisoformat now Written (Holds reminders) in
  let stored := map (deliver_due fromisoformat now) reminders in
  (exists reply, fst first = Returned reply /\ contains (due_line r) reply = true)
  /\ snd first = Holds stored
  /\ In (mark_delivered r) stored
  /\ (forall x, In x stored -> is_due fromisoformat now x = false)
  /\ (forall write,
        fst (check_reminders fromisoformat now write (snd first)) = Returned NONE_DUE)
  /\ (forall write,
        write <> DumpFails ->
        check_reminders fromisoformat now write (snd first) = (Returned NONE_DUE, snd first))
  /\ (forall later write,
        (forall x, In x reminders ->
                   is_due fromisoformat later x = true -> is_due fromisoformat now x = true) ->
        fst (check_reminders fromisoformat later write (snd first)) = Returned NONE_DUE).
Proof.
  intros Hnaive Hin Hundelivered Hparse Hpast first stored.
  subst first stored. cbv zeta.
  set (stored := map (deliver_due fromisoformat now) reminders).
  assert (Hdue : is_due fromisoformat now r = true).
  { unfold is_due. now rewrite Hundelivered, Hparse, Hpast. }
  assert (Hstored : forall later x,
             In x stored -> is_due fromisoformat later x = true ->
             exists y, In y reminders /\ is_due fromisoformat later y = true
                       /\ is_due fromisoformat now y = false).
  { intros later x Hx Hlater. apply in_map_iff in Hx as (y & <- & Hy).
    rewrite is_due_deliver_due in Hlater. apply andb_true_iff in Hlater as [H1 H2].
    exists y. repeat split; [assumption | assumption |].
    now destruct (is_due fromisoformat now y). }
  assert (Hnone : forall later,
             (forall x, In x reminders ->
                        is_due fromisoformat later x = true ->
                        is_due fromisoformat now x = true) ->
             filter (is_due fromisoformat later) stored = []).
  { intros later Hquiet. apply filter_none. intros x Hx.
    destruct (is_due fromisoformat later x) eqn:Hl; [|reflexivity].
    destruct (Hstored later x Hx Hl) as (y & Hy & Hly & Hny).
    rewrite (Hquiet y Hy Hly) in Hny. discriminate. }
  assert (Hnaive' : has_aware fromisoformat stored = false)
    by (now apply has_aware_deliver_due).
  assert (Hsame : map (deliver_due fromisoformat now) stored = stored).
  { unfold stored. rewrite map_map. apply map_ext_in. intros x Hx.
    unfold deliver_due at 1. rewrite is_due_deliver_due.
    now destruct (is_due fromisoformat now x). }
  rewrite check_reminders_holds, Hnaive. cbn [fst snd _save_json]. fold stored.
  split; [|split; [reflexivity|split; [|split; [|split; [|split]]]]].
  - assert (Hsel : In r (filter (is_due fromisoformat now) reminders))
      by (apply filter_In; now split).
    destruct (filter (is_due fromisoformat now) reminders) as [|d0 due] eqn:Hf;
      [destruct Hsel|].
    eexists. split; [reflexivity|].
    apply contains_join. right.
    change (due_line r) with (due_line (mark_delivered r)).
    apply in_map, in_map, Hsel.
  - apply in_map_iff. exists r. split; [|assumption].
    unfold deliver_due. now rewrite Hdue.
  - intros x Hx. destruct (is_due fromisoformat now x) eqn:Hl; [|reflexivity].
    destruct (Hstored now x Hx Hl) as (y & _ & Hy1 & Hy2). congruence.
  - intros write. rewrite check_reminders_holds, Hnaive'. cbn [fst].
    now rewrite (Hnone now) by auto.
  - intros write Hwrite. rewrite check_reminders_holds, Hnaive'.
    rewrite (Hnone now) by auto. rewrite Hsame.
    now destruct write.
  - intros later write Hquiet. rewrite check_reminders_holds, Hnaive'. cbn [fst].
    now rewrite (Hnone later Hquiet).
Qed.

End RemindersFacts.

(** ** Reading files *)

Section ReadFile.
Import PyStr Tools.

(** A path that does not resolve to a text beginning with [BASE_DIR] is
    refused. *)
Lemma read_file_denies_other_prefixes (h : host) (path : string) :
  startswith (resolve h path) (BASE_DIR h) = false -> read_file h path = ACCESS_DENIED.
Proof. unfold read_file, resolve. intros ->. reflexivity. Qed.

(** Paths inside the root pass the test of [read_file]. *)
Lemma lies_inside_startswith (root full : string) :
  lies_inside root full = true -> startswith full root = true.
Proof.
  unfold lies_inside, startswith. intros H. apply orb_true_iff in H as [H|H].
  - apply String.eqb_eq in H as ->. rewrite <- (app_empty_r root) at 2. apply prefix_app.
  - destruct (endswith root "/"); [exact H|].
    destruct (prefix_split _ _ H) as [v ->]. rewrite app_assoc. apply prefix_app.
Qed.

(** Every result of [read_file] is one of its five texts. *)
Lemma read_file_results (h : host) (path : string) :
  read_file h path = ACCESS_DENIED
  \/ read_file h path = "File not found: " ++ path
  \/ read_file h path = TOO_LARGE
  \/ (exists e, read_file h path = "Error reading file: " ++ e)
  \/ (exists shown, read_file h path = "Content of " ++ path ++ ":" ++ LF ++ LF ++ shown
                    /\ String.length shown <= 4024).
Proof.
  unfold read_file.
  destruct (negb _); [now left|].
  destruct (files h _) as [node|]; [|now right; left].
  destruct (_ <? _)%Z; [now right; right; left|].
  destruct (node_read node) as [content|e].
  - right; right; right; right.
    destruct (Nat.ltb_spec 4000 (String.length content)).
    + eexists; split; [reflexivity|].
      rewrite !length_app. unfold first_chars, LF. cbn [String.length].
      assert (String.length (take 4000 content) <= 4000); [|lia].
      clear. generalize 4000 as n. induction content; intros [|n]; simpl; try lia.
      specialize (IHcontent n). lia.
    + eexists; split; [reflexivity | lia].
  - right; right; right; left. now exists e.
Qed.

(** C1 (the code at a failing input).  With the project folder /srv/app,
    the path ../app_backup/secret.txt resolves to
    /srv/app_backup/secret.txt, which lies outside /srv/app; [read_file]
    does not refuse it and returns the content of the file. *)
Theorem read_file_leaks_sibling_directory :
  resolve sibling_host "../app_backup/secret.txt" = "/srv/app_backup/secret.txt"
  /\ lies_inside (BASE_DIR sibling_host)
                 (resolve sibling_host "../app_backup/secret.txt") = false
  /\ read_file sibling_host "../app_backup/secret.txt"
     = "Content of ../app_backup/secret.txt:" ++ LF ++ LF ++ "token"
  /\ read_file sibling_host "../app_backup/secret.txt" <> ACCESS_DENIED.
Proof.
  repeat split; try reflexivity. vm_compute. discriminate.
Qed.

End ReadFile.

(** ** The dispatcher and the turn as a whole *)

Section Dispatcher.
Import PyStr Agent.
Context {E : Env}.

Lemma nonempty_bind {A} (m : M A) (k : A -> M string) :
  (forall x, nonempty_reply (k x)) -> nonempty_reply (bind m k).
Proof.
  intros Hk a w r a' w'. unfold bind.
  destruct (m a w) as [[[x|e] a1] w1]; [apply Hk | discriminate].
Qed.

Lemma nonempty_finish_turn (user_message reply : string) :
  reply <> EmptyString -> nonempty_reply (finish_turn user_message reply).
Proof. intros Hne a w r a' w' H. rewrite finish_turn_run in H. congruence. Qed.

Lemma nonempty_or_str (user_message x placeholder : string) :
  placeholder <> EmptyString ->
  nonempty_reply (finish_turn user_message (or_str x placeholder)).
Proof. intros H. now apply nonempty_finish_turn, or_str_nonempty. Qed.

Lemma nonempty_raise (e : exn) : nonempty_reply (raise e).
Proof. intros a w r a' w' H. discriminate. Qed.

(** Every reply a chat turn returns is non-empty. *)
Lemma chat_reply_nonempty (user_message : string) : nonempty_reply (chat user_message).
Proof.
  unfold chat.
  repeat first
    [ apply nonempty_or_str; discriminate
    | apply nonempty_finish_turn; discriminate
    | apply nonempty_raise
    | apply nonempty_bind; intros
    | match goal with
      | |- nonempty_reply (if ?c then _ else _) => destruct c
      | |- nonempty_reply (match ?x with _ => _ end) => destruct x
      | |- nonempty_reply (let x := _ in _) => cbv zeta
      end ].
Qed.

(** [_run_tool] on a hashable name returns and leaves the agent alone. *)
Lemma run_tool_returns (name args : value) (a : agent) (w : World) :
  Py.hashable name = true ->
  exists result w', _run_tool name args a w = (Returned result, a, w').
Proof.
  intros Hh. unfold _run_tool. rewrite Hh. cbn [negb].
  destruct name; try discriminate; try (eexists; eexists; reflexivity).
  destruct (existsb (String.eqb s) Tools.TOOLS) eqn:Hin.
  - destruct (run_tool_registered s args a w Hin) as (result & w' & Hrun).
    unfold _run_tool in Hrun. cbn [Py.hashable negb] in Hrun. rewrite Hin in Hrun.
    eauto.
  - eexists; eexists; reflexivity.
Qed.

Lemma run_tool_unhashable (name args : value) (a : agent) (w : World) :
  Py.hashable name = false ->
  _run_tool name args a w
  = (Raised (TypeError ("unhashable type: '" ++ Py.type_name name ++ "'")), a, w).
Proof. intros Hh. unfold _run_tool. now rewrite Hh. Qed.

Lemma followup_prompt_has_result (d user_message : string) (tool_name args : value)
    (tool_result : string) :
  contains tool_result (followup_prompt d user_message tool_name args tool_result) = true.
Proof.
  unfold followup_prompt.
  repeat (apply contains_self_app || apply contains_app_r).
Qed.

(** C2 (the code at a failing input).  In backend-driven mode, when the
    backend's text parses to a respond action whose content is a true value
    that is no string (the number 5, a list, ...), [chat] raises
    [AttributeError] instead of returning a reply. *)
Theorem chat_raises_on_non_string_content
    (user_message : string) (a a1 : agent) (w w1 : World) (raw : string)
    (d : list (string * value)) (content : value) :
  LLM_BACKEND <> "mock" ->
  _call_model (first_prompt (dialogue a) user_message) a w = (Returned raw, a1, w1) ->
  json_loads raw = Parsed (VDict d) ->
  Py.lookup "action" d = Some (VStr "respond") ->
  Py.lookup "content" d = Some content ->
  Py.truthy content = true ->
  (forall s, content <> VStr s) ->
  chat user_message a w
  = (Raised (AttributeError
               ("'" ++ Py.type_name content ++ "' object has no attribute 'strip'")),
     a1, w1).
Proof.
  intros Hb Hcall Hparse Htag Hcontent Htrue Hnostr.
  rewrite (chat_backend_step user_message a a1 w w1 raw Hb Hcall), Hparse.
  cbn [action_of]. rewrite Htag. cbn [Py.eq_str String.eqb Ascii.eqb Bool.eqb].
  unfold Py.get. rewrite Hcontent. unfold Py.or_else. rewrite Htrue.
  destruct content; try reflexivity. now elim (Hnostr s).
Qed.

(** The same turn crashes when the action names its tool by a list or an
    object: the registry lookup of [_run_tool] raises [TypeError]. *)
Lemma chat_raises_on_unhashable_tool_name
    (user_message : string) (a a1 : agent) (w w1 : World) (raw : string)
    (d : list (string * value)) (name : value) :
  LLM_BACKEND <> "mock" ->
  _call_model (first_prompt (dialogue a) user_message) a w = (Returned raw, a1, w1) ->
  json_loads raw = Parsed (VDict d) ->
  Py.lookup "action" d = Some (VStr "tool") ->
  Py.lookup "name" d = Some name ->
  Py.hashable name = false ->
  chat user_message a w
  = (Raised (TypeError ("unhashable type: '" ++ Py.type_name name ++ "'")), a1, w1).
Proof.
  intros Hb Hcall Hparse Htag Hname Hh.
  rewrite (chat_backend_step user_message a a1 w w1 raw Hb Hcall), Hparse.
  cbn [action_of]. rewrite Htag. cbn [Py.eq_str String.eqb Ascii.eqb Bool.eqb].
  cbv zeta. unfold Py.get at 1. rewrite Hname.
  unfold bind at 1. now rewrite run_tool_unhashable.
Qed.

End Dispatcher.

Section DispatcherTurn.
Import PyStr Agent.
Context {E : Env}.

(** The planner answers with the echo or with a call of a registered tool. *)
Lemma planner_shapes (user_message : string) :
  _mock_decide_action user_message = echo_action user_message
  \/ exists key args,
       in_registry key = true
       /\ _mock_decide_action user_message
          = [("action", VStr "tool"); ("name", VStr key); ("args", args)].
Proof.
  unfold _mock_decide_action.
  repeat match goal with
         | |- context [if ?c then _ else _] =>
             match c with
             | context [contains] => destruct c
             end
         end;
    try (right; eexists; eexists; split; [|reflexivity]; reflexivity).
  now left.
Qed.

Lemma run_tool_registered_cases (key : string) (args : value) (a : agent) (w : World) :
  in_registry key = true ->
  _run_tool (VStr key) args a w
  = match call_tool key (passed_args args) w with
    | (ToolReturn result, w') => (Returned result, a, w')
    | (ToolTypeError e, w') =>
        (Returned ("Error calling tool '" ++ key ++ "': " ++ e), a, w')
    | (ToolError e, w') =>
        (Returned ("Tool '" ++ key ++ "' raised an error: " ++ e), a, w')
    end.
Proof.
  unfold in_registry. intros Hin. unfold _run_tool. cbn [Py.hashable negb]. rewrite Hin.
  unfold bind, in_world, passed_args.
  destruct (call_tool key _ w) as [[r|e|e] w']; reflexivity.
Qed.

Lemma chat_mock_tool (user_message key : string) (a : agent) (w : World) :
  LLM_BACKEND = "mock" ->
  planned_tool (_mock_decide_action user_message) = Some key ->
  exists args tool_result w',
    _run_tool (VStr key) args a w = (Returned tool_result, a, w')
    /\ chat user_message a w
       = (Returned (mock_tool_reply key tool_result),
          append_turn a user_message (mock_tool_reply key tool_result), w').
Proof.
  intros Hmock Hplan. unfold chat. rewrite Hmock. cbn [String.eqb Ascii.eqb Bool.eqb].
  destruct (planner_shapes user_message) as [Hecho | (k & args & Hreg & Hshape)].
  - rewrite Hecho in Hplan. discriminate.
  - rewrite Hshape in *. cbn in Hplan. injection Hplan as ->.
    exists (Py.or_else args (VDict [])).
    destruct (run_tool_returns (VStr key) (Py.or_else args (VDict [])) a w eq_refl)
      as (tool_result & w' & Hrun).
    exists tool_result, w'. split; [exact Hrun|].
    cbn [bind subscript Py.lookup String.eqb Ascii.eqb Bool.eqb ret Py.eq_str Py.get].
    unfold bind at 1. rewrite Hrun. reflexivity.
Qed.

(** C6 (as amended).  For a tool name that can be looked up in the
    registry (a string, or another scalar): a name that is not registered
    gives the "not implemented" text; a [TypeError] of the call and any other
    exception of the tool give the two failure texts, with the detail of the
    exception; [_run_tool] returns a string, raises nothing and leaves the
    agent as it was.  In backend-driven mode the turn then sends one
    follow-up prompt, which contains the result or failure text, and returns
    the stripped answer of the backend (or the fixed placeholder), a
    non-empty string appended to the dialogue.  In mock mode the reply is the
    fixed sentence naming the tool followed by the result or failure text. *)
Theorem run_tool_failures_become_text :
  (forall name args a w,
      Py.hashable name = true ->
      (forall key, name = VStr key -> in_registry key = false) ->
      _run_tool name args a w
      = (Returned ("Error: tool '" ++ Py.str name ++ "' is not implemented."), a, w))
  /\ (forall key args a w,
        in_registry key = true ->
        _run_tool (VStr key) args a w
        = match call_tool key (passed_args args) w with
          | (ToolReturn result, w') => (Returned result, a, w')
          | (ToolTypeError detail, w') =>
              (Returned ("Error calling tool '" ++ key ++ "': " ++ detail), a, w')
          | (ToolError detail, w') =>
              (Returned ("Tool '" ++ key ++ "' raised an error: " ++ detail), a, w')
          end)
  /\ (forall name args a w,
        Py.hashable name = true ->
        exists result w', _run_tool name args a w = (Returned result, a, w'))
  /\ (forall user_message a a1 w w1 raw d,
        LLM_BACKEND <> "mock" ->
        _call_model (first_prompt (dialogue a) user_message) a w = (Returned raw, a1, w1) ->
        json_loads raw = Parsed (VDict d) ->
        Py.lookup "action" d = Some (VStr "tool") ->
        Py.hashable (Py.get d "name" VNone) = true ->
        let name := Py.get d "name" VNone in
        let args := Py.or_else (Py.get d "args" VNone) (VDict []) in
        exists tool_result w2 final w3,
          _run_tool name args a1 w1 = (Returned tool_result, a1, w2)
          /\ contains tool_result
               (followup_prompt (dialogue a1) user_message name args tool_result) = true
          /\ _call_model (followup_prompt (dialogue a1) user_message name args tool_result)
               a1 w2 = (Returned final, _compact_context a1, w3)
          /\ chat user_message a w
             = (Returned (or_str (strip final) NO_ANSWER),
                append_turn (_compact_context a1) user_message
                  (or_str (strip final) NO_ANSWER),
                w3)
          /\ or_str (strip final) NO_ANSWER <> EmptyString)
  /\ (forall user_message key a w,
        LLM_BACKEND = "mock" ->
        planned_tool (_mock_decide_action user_message) = Some key ->
        exists args tool_result w',
          _run_tool (VStr key) args a w = (Returned tool_result, a, w')
          /\ chat user_message a w
             = (Returned (mock_tool_reply key tool_result),
                append_turn a user_message (mock_tool_reply key tool_result), w')).
Proof.
  split; [|split; [|split; [|split]]].
  - intros name args a w Hh Hout. unfold _run_tool. rewrite Hh. cbn [negb].
    destruct name; try discriminate; try reflexivity.
    specialize (Hout s eq_refl). unfold in_registry in Hout. now rewrite Hout.
  - intros; now apply run_tool_registered_cases.
  - intros; now apply run_tool_returns.
  - intros user_message a a1 w w1 raw d Hb Hcall Hparse Htag Hh name args.
    destruct (run_tool_returns name args a1 w1 Hh) as (tool_result & w2 & Hrun).
    destruct (call_model_returns
                (followup_prompt (dialogue a1) user_message name args tool_result) a1 w2)
      as (final & w3 & Hfinal).
    exists tool_result, w2, final, w3.
    split; [exact Hrun|]. split; [apply followup_prompt_has_result|].
    split; [exact Hfinal|]. split; [|apply or_str_nonempty; discriminate].
    rewrite (chat_backend_step user_message a a1 w w1 raw Hb Hcall), Hparse.
    cbn [action_of]. rewrite Htag. cbn [Py.eq_str String.eqb Ascii.eqb Bool.eqb].
    cbv zeta. fold name. fold args.
    unfold bind at 1. rewrite Hrun.
    unfold bind at 1. unfold read_agent at 1.
    unfold bind at 1. rewrite Hfinal. reflexivity.
  - intros; now apply chat_mock_tool.
Qed.

End DispatcherTurn.

Section Witnesses.
Import PyStr Agent Tools.

Lemma compact_context_bounded_witness :
  (max_dialogue_chars tight_agent < Z.of_nat (String.length (dialogue tight_agent)))%Z
  /\ String.length (dialogue (_compact_context tight_agent))
     <= String.length system_instruction + String.length COMPACTION_NOTICE + 4000.
Proof.
  assert (H : (max_dialogue_chars tight_agent
               < Z.of_nat (String.length (dialogue tight_agent)))%Z)
    by (vm_compute; reflexivity).
  split; [exact H|].
  exact (proj1 (proj2 (proj2 (proj2 (proj1 (compact_context_bounded tight_agent) H))))).
Defined.

Lemma dialogue_begins_with_system_witness :
  prefix (strip SYSTEM_PROMPT)
         (dialogue (_compact_context (_compact_context tight_agent))) = true.
Proof.
  apply (proj1 (@dialogue_begins_with_system (replay_env "hf"))).
  apply reach_compact, reach_compact, reach_init.
Defined.

Lemma mock_mode_never_compacts_witness :
  exists reply w',
    @chat (replay_env "mock") "check reminders" tight_agent nothing_recorded
    = (Returned reply, append_turn tight_agent "check reminders" reply, w')
    /\ reply <> EmptyString.
Proof.
  apply (proj1 (@mock_mode_never_compacts (replay_env "mock") eq_refl)).
Defined.

Lemma planner_first_match_wins_witness :
  _mock_decide_action "Any reminders? Remember to recall my reminder"
  = [("action", VStr "tool"); ("name", VStr "check_reminders"); ("args", VDict [])].
Proof.
  apply (proj1 (planner_first_match_wins _)). reflexivity.
Defined.

Lemma call_model_backend_failure_witness :
  @_call_model (replay_env "hf") "prompt" fresh_agent (hf_says [HfRaise "timed out"])
  = (Returned (JsonText.dumps true
                 (VDict [("action", VStr "respond");
                         ("content", VStr (error_content HF_APOLOGY "timed out"))])),
     _compact_context fresh_agent, hf_says []).
Proof.
  apply (proj1 (@call_model_backend_failure (replay_env "hf"))); reflexivity.
Defined.

(** C5 (failing input).  The Hugging Face backend answers with 1500 opening
    brackets: [json.loads] raises [RecursionError], and so does the turn. *)
Lemma chat_raises_when_loads_raises_witness :
  @chat (replay_env "hf") "hi" fresh_agent (hf_says [HfText (Some DEEP_TEXT)])
  = (Raised (JsonText.too_deep "array"), fresh_agent, hf_says []).
Proof.
  refine (proj1 (@chat_raises_when_loads_raises (replay_env "hf") "hi" fresh_agent
                   fresh_agent (hf_says [HfText (Some DEEP_TEXT)]) (hf_says [])
                   DEEP_TEXT _ _) _ _).
  - discriminate.
  - vm_compute; reflexivity.
  - vm_compute; reflexivity.
Defined.

Lemma chat_raises_on_non_string_content_witness :
  @chat (replay_env "gemini") "hi" fresh_agent (gemini_says [NUMERIC_CONTENT_TEXT])
  = (Raised (AttributeError "'int' object has no attribute 'strip'"),
     fresh_agent, gemini_says []).
Proof.
  refine (@chat_raises_on_non_string_content (replay_env "gemini") "hi"
            fresh_agent fresh_agent (gemini_says [NUMERIC_CONTENT_TEXT]) (gemini_says [])
            NUMERIC_CONTENT_TEXT
            [("action", VStr "respond"); ("content", VInt 5)] (VInt 5) _ _ _ _ _ _ _).
  - discriminate.
  - vm_compute; reflexivity.
  - vm_compute; reflexivity.
  - reflexivity.
  - reflexivity.
  - reflexivity.
  - discriminate.
Defined.

Lemma run_tool_failures_become_text_witness :
  @_run_tool (replay_env "hf") (VStr "nonexistent_tool") (VDict [])
    fresh_agent nothing_recorded
  = (Returned "Error: tool 'nonexistent_tool' is not implemented.",
     fresh_agent, nothing_recorded).
Proof.
  apply (proj1 (@run_tool_failures_become_text (replay_env "hf"))).
  - reflexivity.
  - intros key Hkey. injection Hkey as <-. reflexivity.
Defined.

Lemma check_reminders_delivers_once_witness :
  exists reply,
    fst (check_reminders IsoSeconds.fromisoformat (at_time 10 1) Written
           (Holds [tea_reminder; call_reminder])) = Returned reply
    /\ contains (due_line tea_reminder) reply = true.
Proof.
  refine (proj1 (check_reminders_delivers_once IsoSeconds.fromisoformat (at_time 10 1)
                   [tea_reminder; call_reminder] tea_reminder (at_time 10 0) _ _ _ _ _)).
  - reflexivity.
  - left; reflexivity.
  - reflexivity.
  - reflexivity.
  - reflexivity.
Defined.

(** C9 (counterexample to the claim as stated).  With a tea reminder due at
    10:00 and a call reminder due at 10:05, a first check at 10:01 delivers
    the tea reminder; a second check at the later time 10:06 does not return
    the none-due message: it reports the call reminder. *)
Lemma later_check_reports_newly_due :
  let store := [tea_reminder; call_reminder] in
  let first :=
    check_reminders IsoSeconds.fromisoformat (at_time 10 1) Written (Holds store) in
  In tea_reminder store
  /\ get_delivered tea_reminder = false
  /\ IsoSeconds.fromisoformat (due_at tea_reminder) = Some (Naive (at_time 10 0))
  /\ datetime_leb (at_time 10 0) (at_time 10 1) = true
  /\ fst first
     = Returned ("Here are your due reminders:" ++ LF
                 ++ "- tea (due at 2024-01-01T10:00:00)")
  /\ datetime_leb (at_time 10 1) (at_time 10 6) = true
  /\ fst (check_reminders IsoSeconds.fromisoformat (at_time 10 6) Written (snd first))
     = Returned ("Here are your due reminders:" ++ LF
                 ++ "- call (due at 2024-01-01T10:05:00)")
  /\ fst (check_reminders IsoSeconds.fromisoformat (at_time 10 6) Written (snd first))
     <> Returned NONE_DUE.
Proof.
  cbv zeta. repeat split; try reflexivity.
  - left; reflexivity.
  - vm_compute. discriminate.
Qed.

(** C9 (two more inputs on which the claim as stated fails).  With the tea
    reminder followed by a reminder whose due time carries a UTC offset, the
    check at 10:01 raises [TypeError] and saves nothing, although the tea
    reminder is past due.  And when the file cannot be opened for writing,
    the first check reports the tea reminder, the file stays as it was, and
    a second check at the same time reports the tea reminder again. *)
Lemma check_needs_naive_times_and_a_write :
  check_reminders IsoSeconds.fromisoformat (at_time 10 1) Written
    (Holds [tea_reminder; zoned_reminder])
  = (Raised (TypeError NAIVE_AWARE), Holds [tea_reminder; zoned_reminder])
  /\ (let first := check_reminders IsoSeconds.fromisoformat (at_time 10 1) OpenFails
                     (Holds [tea_reminder]) in
      first = (Returned ("Here are your due reminders:" ++ LF
                         ++ "- tea (due at 2024-01-01T10:00:00)"),
               Holds [tea_reminder])
      /\ fst (check_reminders IsoSeconds.fromisoformat (at_time 10 1) Written (snd first))
         = fst first).
Proof. cbv zeta. repeat split; reflexivity. Qed.

(** C6 (counterexample to the claim as stated).  The backend asks for the
    tool nonexistent_tool and answers the follow-up prompt with "Hello": the
    turn returns "Hello", which mentions neither the tool nor the failure
    text of [_run_tool].  And when the backend names the tool by a list,
    [_run_tool] raises [TypeError] and so does the turn. *)
Lemma unknown_tool_reply_need_not_mention_failure :
  let w := hf_says [HfText (Some UNKNOWN_TOOL_TEXT); HfText (Some "Hello")] in
  let listed := "{" ++ quoted "action" ++ ":" ++ quoted "tool" ++ ","
                ++ quoted "name" ++ ":[1]}" in
  fst (fst (@_run_tool (replay_env "hf") (VStr "nonexistent_tool") (VDict [])
              fresh_agent w))
  = Returned "Error: tool 'nonexistent_tool' is not implemented."
  /\ fst (fst (@chat (replay_env "hf") "hi" fresh_agent w)) = Returned "Hello"
  /\ contains "Error: tool 'nonexistent_tool' is not implemented." "Hello" = false
  /\ contains "nonexistent_tool" "Hello" = false
  /\ fst (fst (@_run_tool (replay_env "hf") (VList [VInt 1]) (VDict [])
                 fresh_agent nothing_recorded))
     = Raised (TypeError "unhashable type: 'list'")
  /\ fst (fst (@chat (replay_env "hf") "hi" fresh_agent (hf_says [HfText (Some listed)])))
     = Raised (TypeError "unhashable type: 'list'").
Proof.
  cbv zeta. repeat split; vm_compute; reflexivity.
Qed.

End Witnesses.

(* ================================================================== *)
(** * Part III: further properties of the code *)
(* ================================================================== *)

(** ** More on compaction *)

Section CompactionMore.
Import PyStr Agent.

Lemma compact_length_over (a : agent) :
  over_budget a ->
  String.length (dialogue (_compact_context a))
  = String.length system_instruction + String.length COMPACTION_NOTICE
    + Nat.min 4000 (String.length (dialogue a)).
Proof.
  intros H. rewrite (compact_over_budget a H), !length_app, length_last_chars. lia.
Qed.

Lemma compact_max_dialogue_chars (a : agent) :
  max_dialogue_chars (_compact_context a) = max_dialogue_chars a.
Proof. unfold _compact_context. now destruct (_ <=? _)%Z. Qed.

(** What a compaction leaves is within the budget or within
    [COMPACTED_MAX]. *)
Lemma compact_length_bound (a : agent) :
  (Z.of_nat (String.length (dialogue (_compact_context a)))
   <= Z.max (max_dialogue_chars a) (Z.of_nat COMPACTED_MAX))%Z.
Proof.
  destruct (Z.le_gt_cases (Z.of_nat (String.length (dialogue a))) (max_dialogue_chars a))
    as [Hin|Hover].
  - rewrite compact_within_budget by assumption. lia.
  - rewrite (compact_length_over a Hover).
    unfold COMPACTED_MAX. lia.
Qed.

(** X1.  When the budget is at least the length of the system instruction,
    the notice and 4000 characters (as the default budget of 8000 is), one
    compaction brings the dialogue within the budget, and compacting again
    changes nothing. *)
Theorem compaction_settles_within_budget (a : agent) :
  (Z.of_nat COMPACTED_MAX <= max_dialogue_chars a)%Z ->
  (Z.of_nat (String.length (dialogue (_compact_context a))) <= max_dialogue_chars a)%Z
  /\ _compact_context (_compact_context a) = _compact_context a.
Proof.
  intros Hroom.
  assert (Hfit : (Z.of_nat (String.length (dialogue (_compact_context a)))
                  <= max_dialogue_chars a)%Z).
  { pose proof (compact_length_bound a). lia. }
  split; [exact Hfit|].
  apply compact_within_budget. now rewrite compact_max_dialogue_chars.
Qed.

(** X2.  When the budget is smaller than the system instruction and the
    notice together, a compaction that fires leaves a dialogue that is over
    the budget again: however often it is repeated, compaction fires every
    time and never brings the dialogue within the budget. *)
Theorem compaction_cannot_reach_small_budget (a : agent) (n : nat) :
  (max_dialogue_chars a
   < Z.of_nat (String.length system_instruction + String.length COMPACTION_NOTICE))%Z ->
  over_budget a ->
  over_budget (Nat.iter n _compact_context a)
  /\ max_dialogue_chars (Nat.iter n _compact_context a) = max_dialogue_chars a.
Proof.
  intros Hsmall Hover.
  induction n as [|n [IHover IHmax]]; [now split|].
  rewrite Nat.iter_succ. split.
  - unfold over_budget. rewrite compact_max_dialogue_chars, IHmax.
    rewrite (compact_length_over _ IHover). lia.
  - now rewrite compact_max_dialogue_chars.
Qed.

End CompactionMore.

(** ** Facts about [strip] *)

Section StripFacts.
Import PyStr.

Lemma rstrip_app (a b : string) :
  rstrip (a ++ b) = if rstrip b =? EmptyString then rstrip a else a ++ rstrip b.
Proof.
  induction a as [|c a IH]; cbn [append rstrip].
  - destruct (String.eqb_spec (rstrip b) EmptyString) as [->|_]; reflexivity.
  - rewrite IH. destruct (String.eqb_spec (rstrip b) EmptyString) as [Hb|Hb].
    + reflexivity.
    + destruct (a ++ rstrip b) eqn:Hab; [|reflexivity].
      destruct a; [|discriminate]. now elim Hb.
Qed.

Lemma rstrip_idempotent (s : string) : rstrip (rstrip s) = rstrip s.
Proof.
  induction s as [|c s IH]; [reflexivity|].
  cbn [rstrip]. destruct (rstrip s) as [|d r] eqn:Hr.
  - destruct (isspace c) eqn:Hc; [reflexivity|]. cbn [rstrip]. now rewrite Hc.
  - cbn [rstrip]. cbn [rstrip] in IH. rewrite IH. reflexivity.
Qed.

Lemma lstrip_head (s : string) :
  lstrip s = EmptyString \/ exists c r, lstrip s = String c r /\ isspace c = false.
Proof.
  induction s as [|c s IH]; [now left|].
  cbn [lstrip]. destruct (isspace c) eqn:Hc; [exact IH|].
  right. now exists c, s.
Qed.

Lemma rstrip_keeps_head (c : ascii) (r : string) :
  isspace c = false -> exists r', rstrip (String c r) = String c r'.
Proof.
  intros Hc. cbn [rstrip]. destruct (rstrip r); [rewrite Hc|]; eauto.
Qed.

Lemma strip_idempotent (s : string) : strip (strip s) = strip s.
Proof.
  unfold strip.
  destruct (lstrip_head s) as [->|(c & r & -> & Hc)]; [reflexivity|].
  destruct (rstrip_keeps_head c r Hc) as [r' Hr'].
  rewrite Hr'. cbn [lstrip]. rewrite Hc. rewrite <- Hr'. apply rstrip_idempotent.
Qed.

(** Stripping a text that begins with a visible character keeps every
    prefix of it that ends with a visible character. *)
Lemma strip_keeps_prefix (c : ascii) (a b : string) :
  isspace c = false -> rstrip (String c a) = String c a ->
  prefix (String c a) (strip (String c a ++ b)) = true.
Proof.
  intros Hc Ha. unfold strip.
  change (String c a ++ b) with (String c (a ++ b)).
  cbn [lstrip]. rewrite Hc.
  change (String c (a ++ b)) with (String c a ++ b).
  rewrite rstrip_app. destruct (rstrip b =? EmptyString).
  - rewrite Ha. rewrite <- (app_empty_r (String c a)) at 2. apply prefix_app.
  - apply prefix_app.
Qed.

End StripFacts.

(** ** How a turn ends *)

Section TurnOutcomes.
Import PyStr Agent.
Context {E : Env}.

(** A turn in backend-driven mode ends in one of three ways: with a reply
    appended to the dialogue compacted once (the direct paths) or twice (the
    tool path), or with an exception and the dialogue compacted once. *)
Lemma chat_backend_outcomes (user_message : string) (a : agent) (w : World) :
  LLM_BACKEND <> "mock" ->
  (exists reply w',
      chat user_message a w
      = (Returned reply, append_turn (_compact_context a) user_message reply, w'))
  \/ (exists reply w',
        chat user_message a w
        = (Returned reply,
           append_turn (_compact_context (_compact_context a)) user_message reply, w'))
  \/ (exists e w', chat user_message a w = (Raised e, _compact_context a, w')).
Proof.
  intros Hb.
  destruct (call_model_returns (first_prompt (dialogue a) user_message) a w)
    as (raw & w1 & Hcall).
  rewrite (chat_backend_step user_message a _ w w1 raw Hb Hcall).
  destruct (json_loads raw) as [parsed| |e];
    [|left; eexists; eexists; apply finish_turn_run
     |right; right; eexists; eexists; reflexivity].
  destruct (action_of parsed) as [[action tag]|];
    [|left; eexists; eexists; apply finish_turn_run].
  destruct (Py.eq_str tag "respond").
  { unfold bind at 1.
    destruct (Py.strip_method (Py.or_else (Py.get action "content" VNone) (VStr EmptyString)))
      as [content|e]; cbn [of_outcome ret raise].
    - left; eexists; eexists; apply finish_turn_run.
    - right; right; eexists; eexists; reflexivity. }
  destruct (Py.eq_str tag "tool");
    [|left; eexists; eexists; apply finish_turn_run].
  cbv zeta.
  set (name := Py.get action "name" VNone).
  set (args := Py.or_else (Py.get action "args" VNone) (VDict [])).
  destruct (Py.hashable name) eqn:Hh.
  - destruct (run_tool_returns name args (_compact_context a) w1 Hh)
      as (tool_result & w2 & Hrun).
    destruct (call_model_returns
                (followup_prompt (dialogue (_compact_context a)) user_message
                   name args tool_result) (_compact_context a) w2)
      as (final & w3 & Hfinal).
    right; left.
    exists (or_str (strip final) "I used a tool but couldn't form a response."), w3.
    unfold bind at 1. rewrite Hrun.
    unfold bind at 1. unfold read_agent at 1.
    unfold bind at 1. rewrite Hfinal. reflexivity.
  - right; right.
    exists (TypeError ("unhashable type: '" ++ Py.type_name name ++ "'")), w1.
    unfold bind at 1. now rewrite (run_tool_unhashable name args _ w1 Hh).
Qed.

(** X3.  A turn that raises leaves no trace of itself in the transcript:
    it happens in backend-driven mode only, and the agent it leaves is the
    one before the turn, compacted; neither the user message nor any reply
    has been appended. *)
Theorem failed_turn_leaves_no_trace
    (user_message : string) (a a' : agent) (w w' : World) (e : exn) :
  chat user_message a w = (Raised e, a', w') ->
  LLM_BACKEND <> "mock" /\ a' = _compact_context a.
Proof.
  intros Hraise.
  destruct (String.eqb_spec LLM_BACKEND "mock") as [Hmock|Hb].
  - destruct (chat_mock_turn user_message a w Hmock) as (reply & w1 & Hturn & _).
    rewrite Hturn in Hraise. discriminate.
  - split; [exact Hb|].
    destruct (chat_backend_outcomes user_message a w Hb)
      as [(r & w1 & H)|[(r & w1 & H)|(e1 & w1 & H)]];
      rewrite H in Hraise; [discriminate | discriminate |].
    now injection Hraise as _ <- _.
Qed.

(** After a turn that returns in backend-driven mode, the dialogue ends with
    the text of the turn. *)
Lemma turn_text_is_appended
    (user_message reply : string) (a a' : agent) (w w' : World) :
  LLM_BACKEND <> "mock" ->
  chat user_message a w = (Returned reply, a', w') ->
  exists kept, dialogue a' = kept ++ turn_text user_message reply.
Proof.
  intros Hb Hret.
  destruct (chat_backend_outcomes user_message a w Hb)
    as [(r & w1 & H)|[(r & w1 & H)|(e1 & w1 & H)]];
    rewrite H in Hret; [| |discriminate];
    injection Hret as <- <- _; eexists; reflexivity.
Qed.

(** X4.  In backend-driven mode the transcript stays bounded: after a turn
    that returns, the dialogue is a kept part no longer than the larger of
    the budget and [COMPACTED_MAX], followed by the text of that turn; the
    budget itself is unchanged. *)
Theorem backend_transcript_stays_bounded
    (user_message reply : string) (a a' : agent) (w w' : World) :
  LLM_BACKEND <> "mock" ->
  chat user_message a w = (Returned reply, a', w') ->
  exists kept,
    dialogue a' = kept ++ turn_text user_message reply
    /\ (Z.of_nat (String.length kept)
        <= Z.max (max_dialogue_chars a) (Z.of_nat COMPACTED_MAX))%Z
    /\ max_dialogue_chars a' = max_dialogue_chars a.
Proof.
  intros Hb Hret.
  destruct (chat_backend_outcomes user_message a w Hb)
    as [(r & w1 & H)|[(r & w1 & H)|(e1 & w1 & H)]];
    rewrite H in Hret; [| |discriminate].
  - injection Hret as <- <- _.
    exists (dialogue (_compact_context a)). repeat split.
    + apply compact_length_bound.
    + cbn [append_turn with_dialogue max_dialogue_chars].
      apply compact_max_dialogue_chars.
  - injection Hret as <- <- _.
    exists (dialogue (_compact_context (_compact_context a))). repeat split.
    + pose proof (compact_length_bound (_compact_context a)) as Hlen.
      now rewrite compact_max_dialogue_chars in Hlen.
    + cbn [append_turn with_dialogue max_dialogue_chars].
      now rewrite !compact_max_dialogue_chars.
Qed.

(** X5.  In either mode, a reply that [chat] returns is never empty and is
    what the transcript records: the dialogue then ends with the User and
    Assistant lines of this turn, the latter holding the very reply. *)
Theorem returned_reply_is_recorded
    (user_message reply : string) (a a' : agent) (w w' : World) :
  chat user_message a w = (Returned reply, a', w') ->
  reply <> EmptyString
  /\ exists kept,
       dialogue a'
       = kept ++ "User: " ++ user_message ++ LF ++ "Assistant: " ++ reply ++ LF.
Proof.
  intros Hret. split; [exact (chat_reply_nonempty user_message a w reply a' w' Hret)|].
  destruct (String.eqb_spec LLM_BACKEND "mock") as [Hmock|Hb].
  - destruct (chat_mock_turn user_message a w Hmock) as (r & w1 & Hturn & _).
    rewrite Hturn in Hret. injection Hret as <- <- _.
    now exists (dialogue a).
  - destruct (turn_text_is_appended user_message reply a a' w w' Hb Hret)
      as (kept & Hk). now exists kept.
Qed.

End TurnOutcomes.

(** ** The backend adapter, end to end *)

Section BackendEndToEnd.
Import PyStr Agent.
Context {E : Env}.

Lemma call_model_hf (prompt : string) (a : agent) (w w1 : World) (r : hf_outcome) :
  LLM_BACKEND = "hf" ->
  text_generation prompt w = (r, w1) ->
  _call_model prompt a w
  = (Returned match r with
              | HfText t => strip (or_empty t)
              | HfRaise e =>
                  json_dumps true (respond_action (error_content HF_APOLOGY e))
              end,
     _compact_context a, w1).
Proof.
  intros Hb Hcall. unfold _call_model, bind, update_agent, in_world, ret.
  rewrite Hb. cbn [String.eqb Ascii.eqb Bool.eqb]. rewrite Hcall. now destruct r.
Qed.

Lemma call_model_gemini (prompt : string) (a : agent) (w w1 : World)
    (r : gemini_outcome) :
  LLM_BACKEND = "gemini" ->
  generate_content (model_name a) prompt w = (r, w1) ->
  _call_model prompt a w
  = (Returned match r with
              | GeminiResponse response => strip (gemini_text response)
              | GeminiRaise e =>
                  json_dumps true (respond_action (error_content GEMINI_APOLOGY e))
              end,
     _compact_context a, w1).
Proof.
  intros Hb Hcall.
  unfold _call_model, bind, update_agent, in_world, read_agent, ret.
  rewrite Hb. cbn [String.eqb Ascii.eqb Bool.eqb].
  rewrite compact_model_name, Hcall. destruct r as [response|e]; [|reflexivity].
  unfold gemini_text.
  destruct (or_empty (response_text response) =? EmptyString); [|reflexivity].
  now destruct (response_candidates response).
Qed.

(** X6.  Whatever a remote backend answers without raising, the text
    [_call_model] hands on carries no leading or trailing whitespace:
    stripping it again changes nothing.  For Hugging Face it is the stripped
    answer (the empty string for [None]); for Gemini the stripped [text] of
    the response or, when that is missing or empty, the stripped join of the
    non-empty part texts by newlines (the empty string when the candidates
    cannot be walked). *)
Theorem call_model_text_is_stripped :
  (forall prompt a w w1 t,
      LLM_BACKEND = "hf" ->
      text_generation prompt w = (HfText t, w1) ->
      exists raw,
        _call_model prompt a w = (Returned raw, _compact_context a, w1)
        /\ raw = strip (or_empty t) /\ strip raw = raw)
  /\ (forall prompt a w w1 response,
        LLM_BACKEND = "gemini" ->
        generate_content (model_name a) prompt w = (GeminiResponse response, w1) ->
        exists raw,
          _call_model prompt a w = (Returned raw, _compact_context a, w1)
          /\ strip raw = raw
          /\ (or_empty (response_text response) <> EmptyString ->
              raw = strip (or_empty (response_text response)))
          /\ (or_empty (response_text response) = EmptyString ->
              forall candidates,
                response_candidates response = Some candidates ->
                raw = strip (PyStr.join LF (collect_parts candidates)))
          /\ (or_empty (response_text response) = EmptyString ->
              response_candidates response = None -> raw = EmptyString)).
Proof.
  split.
  - intros prompt a w w1 t Hb Hcall. eexists. split; [|split].
    + exact (call_model_hf prompt a w w1 (HfText t) Hb Hcall).
    + reflexivity.
    + apply strip_idempotent.
  - intros prompt a w w1 response Hb Hcall. eexists. split; [|split; [|split; [|split]]].
    + exact (call_model_gemini prompt a w w1 (GeminiResponse response) Hb Hcall).
    + apply strip_idempotent.
    + intros Hne. unfold gemini_text.
      now destruct (String.eqb_spec (or_empty (response_text response)) EmptyString).
    + intros He candidates Hc. unfold gemini_text. now rewrite He, Hc.
    + intros He Hc. unfold gemini_text. now rewrite He, Hc.
Qed.

(** X7.  A Hugging Face turn, end to end: the backend is asked once, with
    the prompt built from the dialogue as it stood before compaction (a prompt
    that can be longer than the budget); an answer on which [json.loads]
    raises [JSONDecodeError] comes back stripped as the reply (a placeholder
    when nothing is left) and is appended to the compacted dialogue. *)
Theorem hf_turn_asks_with_uncompacted_dialogue
    (user_message : string) (a : agent) (w w1 : World) (t : option string) :
  LLM_BACKEND = "hf" ->
  text_generation
    (dialogue a ++ "User: " ++ user_message ++ LF
     ++ "Assistant (reply ONLY in JSON as specified above):") w = (HfText t, w1) ->
  json_loads (strip (or_empty t)) = JSONDecodeError ->
  let reply := if strip (or_empty t) =? EmptyString
               then "I could not understand my own JSON output."
               else strip (or_empty t) in
  chat user_message a w
  = (Returned reply, append_turn (_compact_context a) user_message reply, w1).
Proof.
  intros Hb Hcall Hjson reply.
  assert (Hnm : LLM_BACKEND <> "mock") by (rewrite Hb; discriminate).
  rewrite (chat_backend_step user_message a _ w w1 _ Hnm
             (call_model_hf _ a w w1 (HfText t) Hb Hcall)).
  rewrite Hjson. apply finish_turn_run.
Qed.

(** X8.  With a backend setting that is neither mock, hf nor gemini, a turn
    contacts nothing (the world is untouched): provided [json.loads] reads
    back the action [json.dumps] wrote, the reply is the fixed
    misconfiguration message, appended to the compacted dialogue. *)
Theorem misconfigured_backend_replies_locally
    (user_message : string) (a : agent) (w : World) :
  LLM_BACKEND <> "mock" -> LLM_BACKEND <> "hf" -> LLM_BACKEND <> "gemini" ->
  json_loads (json_dumps true (respond_action MISCONFIGURED))
  = Parsed (respond_action MISCONFIGURED) ->
  chat user_message a w
  = (Returned MISCONFIGURED, append_turn (_compact_context a) user_message MISCONFIGURED, w).
Proof.
  intros Hm Hh Hg Hjson.
  assert (Hcall : _call_model (first_prompt (dialogue a) user_message) a w
                  = (Returned (json_dumps true (respond_action MISCONFIGURED)),
                     _compact_context a, w)).
  { unfold _call_model, bind, update_agent, ret.
    destruct (String.eqb_spec LLM_BACKEND "hf"); [contradiction|].
    destruct (String.eqb_spec LLM_BACKEND "gemini"); [contradiction|]. reflexivity. }
  rewrite (chat_backend_step user_message a _ w w _ Hm Hcall), Hjson.
  reflexivity.
Qed.

Lemma or_str_keeps (x d : string) : x <> EmptyString -> or_str x d = x.
Proof.
  intros Hx. unfold or_str. now destruct (String.eqb_spec x EmptyString).
Qed.

Lemma apology_survives_strip (detail : string) :
  prefix HF_APOLOGY (strip (error_content HF_APOLOGY detail)) = true
  /\ prefix GEMINI_APOLOGY (strip (error_content GEMINI_APOLOGY detail)) = true.
Proof.
  unfold error_content. split.
  - apply (strip_keeps_prefix "I"
             " couldn't reach the Hugging Face model due to an error."); reflexivity.
  - apply (strip_keeps_prefix "I"
             " couldn't reach the Gemini API because of a quota or network error.");
      reflexivity.
Qed.

(** X9.  When the remote call of the first prompt raises, the user gets the
    apology as plain text: provided [json.loads] reads back the action
    [json.dumps] wrote, the turn returns the stripped content, which begins
    with the apology of that backend, and records it; no second call is
    made. *)
Theorem backend_failure_reply_is_apology :
  (forall user_message a w w1 detail,
      LLM_BACKEND = "hf" ->
      text_generation (first_prompt (dialogue a) user_message) w = (HfRaise detail, w1) ->
      json_loads (json_dumps true (respond_action (error_content HF_APOLOGY detail)))
      = Parsed (respond_action (error_content HF_APOLOGY detail)) ->
      let reply := strip (error_content HF_APOLOGY detail) in
      chat user_message a w
      = (Returned reply, append_turn (_compact_context a) user_message reply, w1)
      /\ prefix HF_APOLOGY reply = true)
  /\ (forall user_message a w w1 detail,
        LLM_BACKEND = "gemini" ->
        generate_content (model_name a) (first_prompt (dialogue a) user_message) w
        = (GeminiRaise detail, w1) ->
        json_loads (json_dumps true (respond_action (error_content GEMINI_APOLOGY detail)))
        = Parsed (respond_action (error_content GEMINI_APOLOGY detail)) ->
        let reply := strip (error_content GEMINI_APOLOGY detail) in
        chat user_message a w
        = (Returned reply, append_turn (_compact_context a) user_message reply, w1)
        /\ prefix GEMINI_APOLOGY reply = true).
Proof.
  split.
  - intros user_message a w w1 detail Hb Hcall Hjson reply.
    assert (Hnm : LLM_BACKEND <> "mock") by (rewrite Hb; discriminate).
    pose proof (proj1 (apology_survives_strip detail)) as Hpre. fold reply in Hpre.
    split; [|exact Hpre].
    rewrite (chat_backend_step user_message a _ w w1 _ Hnm
               (call_model_hf _ a w w1 (HfRaise detail) Hb Hcall)).
    rewrite Hjson.
    cbn [respond_action action_of Py.lookup String.eqb Ascii.eqb Bool.eqb Py.eq_str
         Py.get].
    unfold Py.or_else. cbn [Py.truthy].
    destruct (String.eqb_spec (error_content HF_APOLOGY detail) EmptyString) as [He|_];
      [unfold error_content in He; discriminate|].
    cbn [negb Py.strip_method of_outcome]. unfold bind, ret. fold reply.
    rewrite (or_str_keeps reply EMPTY_CONTENT)
      by (intros He; rewrite He in Hpre; discriminate).
    apply finish_turn_run.
  - intros user_message a w w1 detail Hb Hcall Hjson reply.
    assert (Hnm : LLM_BACKEND <> "mock") by (rewrite Hb; discriminate).
    pose proof (proj2 (apology_survives_strip detail)) as Hpre. fold reply in Hpre.
    split; [|exact Hpre].
    rewrite (chat_backend_step user_message a _ w w1 _ Hnm
               (call_model_gemini _ a w w1 (GeminiRaise detail) Hb Hcall)).
    rewrite Hjson.
    cbn [respond_action action_of Py.lookup String.eqb Ascii.eqb Bool.eqb Py.eq_str
         Py.get].
    unfold Py.or_else. cbn [Py.truthy].
    destruct (String.eqb_spec (error_content GEMINI_APOLOGY detail) EmptyString) as [He|_];
      [unfold error_content in He; discriminate|].
    cbn [negb Py.strip_method of_outcome]. unfold bind, ret. fold reply.
    rewrite (or_str_keeps reply EMPTY_CONTENT)
      by (intros He; rewrite He in Hpre; discriminate).
    apply finish_turn_run.
Qed.

End BackendEndToEnd.

(** ** More on the rule-based planner *)

Section PlannerMore.
Import PyStr Agent Tools.

Lemma contains_remember_nonempty (m : string) :
  contains "remember" (lower m) = true -> m <> EmptyString.
Proof. intros H ->. discriminate H. Qed.

(** X10.  Whenever the planner decides to remember something, the note it
    passes is not empty: it is the message with every "remember that"
    removed and then stripped, or the whole message when nothing is left. *)
Theorem planner_note_is_never_empty (user_message note : string) :
  Py.lookup "args" (_mock_decide_action user_message)
  = Some (VDict [("note", VStr note)]) ->
  note <> EmptyString
  /\ (note = strip (replace "remember that" EmptyString user_message)
      \/ (strip (replace "remember that" EmptyString user_message) = EmptyString
          /\ note = user_message)).
Proof.
  unfold _mock_decide_action.
  destruct (contains "check reminders" (lower user_message)
            || contains "any reminders" (lower user_message)
            || contains "show my reminders" (lower user_message));
    [discriminate|].
  destruct (contains "remember" (lower user_message)) eqn:Hrem.
  - cbn [Py.lookup String.eqb Ascii.eqb Bool.eqb].
    intros H. injection H as <-.
    destruct (String.eqb_spec (strip (replace "remember that" EmptyString user_message))
                              EmptyString) as [He|Hne].
    + split; [now apply contains_remember_nonempty | right; now split].
    + split; [exact Hne | now left].
  - repeat match goal with
           | |- context [if ?c then _ else _] => destruct c
           end; discriminate.
Qed.

(** X11.  Every tool call the planner produces fits the tool it names: the
    tool is registered, and the arguments [_run_tool] passes on (the
    dictionary, or none at all when it is empty) are exactly the parameters
    of that tool's definition, so the call cannot fail on its arguments. *)
Theorem planner_calls_fit_signatures (user_message key : string) :
  planned_tool (_mock_decide_action user_message) = Some key ->
  in_registry key = true
  /\ exists params,
       signature_of key SIGNATURES = Some params
       /\ binds params
            (passed_args
               (Py.or_else (Py.get (_mock_decide_action user_message) "args" VNone)
                           (VDict []))) = true.
Proof.
  unfold _mock_decide_action.
  repeat match goal with
         | |- context [if ?c then _ else _] =>
             match c with
             | context [contains] => destruct c
             end
         end;
    cbn; intros H; try discriminate; injection H as <-;
    (split; [reflexivity | eexists; split; reflexivity]).
Qed.

End PlannerMore.

(** ** More on reading files *)

Section ReadFileMore.
Import PyStr Tools.

Lemma length_take (n : nat) (s : string) :
  String.length (take n s) = Nat.min n (String.length s).
Proof.
  revert s; induction n as [|n IH]; intros s; [reflexivity|].
  destruct s as [|c s]; [reflexivity|]. cbn [take String.length]. now rewrite IH.
Qed.

Lemma prefix_take (n : nat) (s : string) : prefix (take n s) s = true.
Proof. rewrite <- (take_drop n s) at 2. apply prefix_app. Qed.

(** X12.  [read_file] never refuses a path that resolves to the project
    folder itself or to a path below it: the access-denial text is returned
    only for paths outside the folder. *)
Theorem read_file_never_refuses_inside (h : host) (path : string) :
  lies_inside (BASE_DIR h) (resolve h path) = true ->
  read_file h path <> ACCESS_DENIED.
Proof.
  intros Hin. apply lies_inside_startswith in Hin.
  unfold read_file. fold (resolve h path). rewrite Hin. cbn [negb].
  destruct (files h (resolve h path)) as [node|]; [|discriminate].
  destruct (_ <? _)%Z; [discriminate|].
  destruct (node_read node); discriminate.
Qed.

(** X13.  The two size limits of [read_file], for a path that passes the
    folder test and exists.  A file of more than 200 KB is not opened: the
    answer is the too-large text.  Otherwise a text that is read is shown
    after the header, whole when it has at most 4000 characters, and else cut
    to its first 4000 characters followed by the truncation mark; what is
    shown is never longer than 4024 characters. *)
Theorem read_file_size_limits (h : host) (path : string) (node : fs_node) :
  startswith (resolve h path) (BASE_DIR h) = true ->
  files h (resolve h path) = Some node ->
  ((200 * 1024 < node_size node)%Z -> read_file h path = TOO_LARGE)
  /\ ((node_size node <= 200 * 1024)%Z ->
      forall content,
        node_read node = ReadText content ->
        exists shown,
          read_file h path = "Content of " ++ path ++ ":" ++ LF ++ LF ++ shown
          /\ String.length shown <= 4024
          /\ (String.length content <= 4000 -> shown = content)
          /\ (4000 < String.length content ->
              shown = first_chars 4000 content ++ LF ++ LF ++ "[Content truncated...]"
              /\ prefix (first_chars 4000 content) content = true
              /\ String.length (first_chars 4000 content) = 4000)).
Proof.
  intros Hstart Hfile. unfold read_file. fold (resolve h path).
  rewrite Hstart, Hfile. cbn [negb]. split.
  - intros Hbig. destruct (Z.ltb_spec (200 * 1024) (node_size node)); [reflexivity | lia].
  - intros Hsmall content Hread.
    destruct (Z.ltb_spec (200 * 1024) (node_size node)); [lia|].
    rewrite Hread.
    destruct (Nat.ltb_spec 4000 (String.length content)) as [Hlong|Hshort].
    + eexists. split; [reflexivity|].
      assert (Hlen : String.length (first_chars 4000 content) = 4000).
      { unfold first_chars. rewrite length_take. lia. }
      split; [|split].
      * rewrite !length_app, Hlen. unfold LF. cbn [String.length]. lia.
      * lia.
      * intros _. split; [reflexivity|]. split; [apply prefix_take | exact Hlen].
    + exists content. split; [reflexivity|]. split; [lia|]. split; [reflexivity | lia].
Qed.

End ReadFileMore.

(** ** More on reminders *)

Section RemindersMore.
Import PyStr Tools.
Variable fromisoformat : string -> option parsed_time.

Lemma deliver_due_fields (now : datetime) (r : reminder) :
  message (deliver_due fromisoformat now r) = message r
  /\ created_at (deliver_due fromisoformat now r) = created_at r
  /\ due_at (deliver_due fromisoformat now r) = due_at r.
Proof. unfold deliver_due. now destruct (is_due fromisoformat now r). Qed.

Lemma due_lines_ignore_delivery (l : list reminder) :
  map due_line (map mark_delivered l) = map due_line l.
Proof. rewrite map_map. now apply map_ext. Qed.

(** A record the loop selects has its line in the reply. *)
Lemma due_record_is_reported (now : datetime) (reminders : list reminder) (r : reminder) :
  In r reminders -> is_due fromisoformat now r = true ->
  contains (due_line r)
    match filter (is_due fromisoformat now) reminders with
    | [] => NONE_DUE
    | due => PyStr.join LF ("Here are your due reminders:" :: map due_line due)
    end = true.
Proof.
  intros Hin Hdue.
  assert (Hsel : In r (filter (is_due fromisoformat now) reminders))
    by (apply filter_In; now split).
  destruct (filter (is_due fromisoformat now) reminders) as [|x l]; [destruct Hsel|].
  apply contains_join. right. now apply in_map.
Qed.

(** X14.  [check_reminders] changes only the records it reports.  For a
    list in which no undelivered record has an aware due time, and when the
    write succeeds: the stored list has the records of the old one, in the
    same order and with the same message, creation time and due time; a
    record that was undelivered with a due time that has passed is stored
    marked delivered and its line is in the reply; every other record (one
    already delivered, one whose due time cannot be parsed, one not yet due)
    is stored as it was.  The reply lists exactly the records that were due,
    in order, and is the same whatever the write does; when the file cannot
    be opened for writing it stays as it was. *)
Theorem check_reminders_keeps_every_record
    (now : datetime) (reminders : list reminder) :
  has_aware fromisoformat reminders = false ->
  exists reply stored,
    check_reminders fromisoformat now Written (Holds reminders)
    = (Returned reply, Holds stored)
    /\ List.length stored = List.length reminders
    /\ (forall i r,
          nth_error reminders i = Some r ->
          exists r',
            nth_error stored i = Some r'
            /\ message r' = message r
            /\ created_at r' = created_at r
            /\ due_at r' = due_at r
            /\ (get_delivered r = true -> r' = r)
            /\ (fromisoformat (due_at r) = None -> r' = r)
            /\ (forall due_time,
                  fromisoformat (due_at r) = Some (Naive due_time) ->
                  datetime_leb due_time now = false -> r' = r)
            /\ (forall due_time,
                  get_delivered r = false ->
                  fromisoformat (due_at r) = Some (Naive due_time) ->
                  datetime_leb due_time now = true ->
                  r' = mark_delivered r /\ contains (due_line r) reply = true))
    /\ reply = match filter (is_due fromisoformat now) reminders with
               | [] => NONE_DUE
               | due => PyStr.join LF ("Here are your due reminders:" :: map due_line due)
               end
    /\ (forall write,
          fst (check_reminders fromisoformat now write (Holds reminders)) = Returned reply)
    /\ snd (check_reminders fromisoformat now OpenFails (Holds reminders))
       = Holds reminders.
Proof.
  intros Hnaive.
  set (reply := match filter (is_due fromisoformat now) reminders with
                | [] => NONE_DUE
                | due => PyStr.join LF ("Here are your due reminders:" :: map due_line due)
                end).
  assert (Hcall : forall write,
             check_reminders fromisoformat now write (Holds reminders)
             = (Returned reply,
                _save_json write (Holds reminders)
                  (map (deliver_due fromisoformat now) reminders))).
  { intros write. rewrite check_reminders_holds, Hnaive. unfold reply.
    destruct (filter (is_due fromisoformat now) reminders) as [|x l]; [reflexivity|].
    now rewrite due_lines_ignore_delivery. }
  exists reply, (map (deliver_due fromisoformat now) reminders).
  split; [apply Hcall|]. split; [apply List.length_map|].
  split; [|split; [reflexivity|split; [intros write; now rewrite Hcall|now rewrite Hcall]]].
  intros i r Hi. exists (deliver_due fromisoformat now r).
  split; [now rewrite nth_error_map, Hi|].
  destruct (deliver_due_fields now r) as (Hm & Hc & Hd).
  split; [exact Hm|]. split; [exact Hc|]. split; [exact Hd|].
  split; [|split; [|split]].
  - intros Hdel. unfold deliver_due, is_due. now rewrite Hdel.
  - intros Hbad. unfold deliver_due, is_due. rewrite Hbad. now rewrite andb_false_r.
  - intros due_time Hparse Hearly. unfold deliver_due, is_due.
    rewrite Hparse, Hearly. now rewrite andb_false_r.
  - intros due_time Hdel Hparse Hpast.
    assert (Hdue : is_due fromisoformat now r = true).
    { unfold is_due. now rewrite Hdel, Hparse, Hpast. }
    split; [unfold deliver_due; now rewrite Hdue|].
    apply due_record_is_reported; [|exact Hdue].
    now apply nth_error_In with i.
Qed.

Lemma filter_after_delivery (now1 now2 : datetime) (reminders : list reminder) :
  filter (is_due fromisoformat now2) (map (deliver_due fromisoformat now1) reminders)
  = filter (came_due fromisoformat now1 now2) reminders.
Proof.
  induction reminders as [|r rest IH]; [reflexivity|].
  cbn [map filter]. rewrite IH, is_due_deliver_due. unfold came_due.
  destruct (is_due fromisoformat now2 r && negb (is_due fromisoformat now1 r)) eqn:Hnew;
    [|reflexivity].
  apply andb_true_iff in Hnew as [_ Hold]. unfold deliver_due.
  destruct (is_due fromisoformat now1 r); [discriminate | reflexivity].
Qed.

(** X15.  Two calls of [check_reminders] in a row, at any two times, on a
    list in which no undelivered record has an aware due time, the write of
    the first call succeeding: the second returns a report of exactly the
    reminders that were not reported by the first and are due at the second
    time, in the order of the list, and the none-due text when there is
    none, whatever its own write does.  A reminder the first call reported
    is not reported again. *)
Theorem second_check_reports_newly_due
    (now1 now2 : datetime) (write2 : write_outcome) (reminders : list reminder) :
  has_aware fromisoformat reminders = false ->
  fst (check_reminders fromisoformat now2 write2
         (snd (check_reminders fromisoformat now1 Written (Holds reminders))))
  = Returned match filter (came_due fromisoformat now1 now2) reminders with
             | [] => NONE_DUE
             | due => PyStr.join LF ("Here are your due reminders:" :: map due_line due)
             end.
Proof.
  intros Hnaive.
  rewrite check_reminders_holds, Hnaive. cbn [snd _save_json].
  rewrite check_reminders_holds, (has_aware_deliver_due _ now1 _ Hnaive). cbn [fst].
  rewrite filter_after_delivery.
  destruct (filter (came_due fromisoformat now1 now2) reminders) as [|r l]; [reflexivity|].
  now rewrite due_lines_ignore_delivery.
Qed.

End RemindersMore.

(** ** Notes *)

Section MemoryFacts.
Import PyStr Tools.

Lemma last_items_keeps_last {A} (n : nat) (l : list A) (x : A) :
  0 < n -> In x (last_items n (l ++ [x])%list).
Proof.
  intros Hn. unfold last_items. rewrite List.length_app. cbn [List.length].
  rewrite skipn_app. apply in_or_app. right.
  replace (List.length l + 1 - n - List.length l) with 0 by lia. now left.
Qed.

Lemma last_items_suffix {A} (n : nat) (l : list A) :
  (exists older, l = (older ++ last_items n l)%list)
  /\ List.length (last_items n l) = Nat.min n (List.length l).
Proof.
  unfold last_items. split.
  - exists (firstn (List.length l - n) l). symmetry. apply firstn_skipn.
  - rewrite List.length_skipn. lia.
Qed.

Lemma remember_info_stores (now : datetime) (text : string) (write : write_outcome)
    (file : json_file (list memory_note)) :
  remember_info now text write file
  = ("I've saved this to memory at " ++ isoformat_seconds now ++ ".",
     _save_json write (_ensure_json_file file [])
       (fst (_load_json file [])
        ++ [{| timestamp := isoformat_seconds now; note := text |}])%list).
Proof. destruct file; reflexivity. Qed.

(** A successful write to a file that can be opened for reading leaves the
    document in it. *)
Lemma save_written {A} (file : json_file A) (default data : A) :
  file <> Unreadable ->
  _save_json Written (_ensure_json_file file default) data = Holds data.
Proof. intros H. destruct file; try reflexivity. now elim H. Qed.



End MemoryFacts.

(** ** Timestamps *)

Section Timestamps.
Import PyStr Tools.

Lemma digit_value_char (k : Z) :
  (0 <= k <= 9)%Z -> JsonText.digit_value (digit_char k) = Some k.
Proof.
  intros H.
  assert (Hcases : (k = 0 \/ k = 1 \/ k = 2 \/ k = 3 \/ k = 4 \/ k = 5 \/ k = 6
                    \/ k = 7 \/ k = 8 \/ k = 9)%Z) by lia.
  repeat (destruct Hcases as [->|Hcases]; [reflexivity|]). subst. reflexivity.
Qed.

Lemma number_pad2 (n : Z) : (0 <= n < 100)%Z -> IsoSeconds.number 0 (pad2 n) = Some n.
Proof.
  intros H. unfold pad2. cbn [IsoSeconds.number].
  rewrite digit_value_char by (Z.div_mod_to_equations; lia).
  rewrite digit_value_char by (Z.div_mod_to_equations; lia).
  f_equal. Z.div_mod_to_equations; lia.
Qed.

Lemma number_pad4 (n : Z) : (0 <= n < 10000)%Z -> IsoSeconds.number 0 (pad4 n) = Some n.
Proof.
  intros H. unfold pad4, pad2. cbn [IsoSeconds.number].
  rewrite digit_value_char by (Z.div_mod_to_equations; lia).
  rewrite digit_value_char by (Z.div_mod_to_equations; lia).
  rewrite digit_value_char by (Z.div_mod_to_equations; lia).
  rewrite digit_value_char by (Z.div_mod_to_equations; lia).
  f_equal. Z.div_mod_to_equations; lia.
Qed.

(** Parsing a text of the shape YYYY-MM-DDTHH:MM:SS parses its six
    numbers. *)
Lemma fromisoformat_parts (Y M D h m s : string) :
  String.length Y = 4 -> String.length M = 2 -> String.length D = 2 ->
  String.length h = 2 -> String.length m = 2 -> String.length s = 2 ->
  IsoSeconds.fromisoformat (Y ++ "-" ++ M ++ "-" ++ D ++ "T" ++ h ++ ":" ++ m ++ ":" ++ s)
  = match IsoSeconds.number 0 Y, IsoSeconds.number 0 M, IsoSeconds.number 0 D,
          IsoSeconds.number 0 h, IsoSeconds.number 0 m, IsoSeconds.number 0 s with
    | Some y, Some mo, Some d, Some hh, Some mi, Some sec =>
        if ((1 <=? y) && (1 <=? mo) && (mo <=? 12) && (1 <=? d)
            && (d <=? IsoSeconds.days_in_month y mo) && (hh <? 24) && (mi <? 60)
            && (sec <? 60))%Z
        then Some (Naive {| year := y; month := mo; day := d;
                            hour := hh; minute := mi; second := sec;
                            microsecond := 0 |})
        else None
    | _, _, _, _, _, _ => None
    end.
Proof.
  intros HY HM HD Hh Hm Hs.
  destruct Y as [|y1 [|y2 [|y3 [|y4 [|]]]]]; try discriminate.
  destruct M as [|m1 [|m2 [|]]]; try discriminate.
  destruct D as [|d1 [|d2 [|]]]; try discriminate.
  destruct h as [|h1 [|h2 [|]]]; try discriminate.
  destruct m as [|n1 [|n2 [|]]]; try discriminate.
  destruct s as [|s1 [|s2 [|]]]; try discriminate.
  unfold IsoSeconds.fromisoformat, IsoSeconds.date_time.
  cbn [append String.length Nat.eqb substring String.eqb Ascii.eqb Bool.eqb andb].
  repeat match goal with
         | |- context [IsoSeconds.number 0 ?t] =>
             destruct (IsoSeconds.number 0 t); try reflexivity
         end.
  now destruct (_ && _)%bool.
Qed.

Lemma days_in_month_bounds (y m : Z) : (28 <= days_in_month y m <= 31)%Z.
Proof.
  unfold days_in_month.
  destruct (m =? 2)%Z; [destruct (is_leap y); lia|].
  destruct ((m =? 4) || (m =? 6) || (m =? 9) || (m =? 11))%Z; lia.
Qed.

(** What [isoformat] writes, [fromisoformat] reads back, to the second. *)
Lemma fromisoformat_isoformat (d : datetime) :
  valid_datetime d = true ->
  IsoSeconds.fromisoformat (isoformat_seconds d) = Some (Naive (whole_seconds d)).
Proof.
  destruct d as [y mo dd h mi s us]. unfold valid_datetime, whole_seconds.
  cbn [year month day hour minute second microsecond]. intros H.
  repeat (apply andb_true_iff in H as [H ?]).
  repeat match goal with
         | Hb : (_ <=? _)%Z = true |- _ => apply Z.leb_le in Hb
         | Hb : (_ <? _)%Z = true |- _ => apply Z.ltb_lt in Hb
         end.
  unfold isoformat_seconds. cbn [year month day hour minute second].
  rewrite fromisoformat_parts by reflexivity.
  pose proof (days_in_month_bounds y mo) as Hdim.
  rewrite number_pad4 by lia.
  rewrite (number_pad2 mo), (number_pad2 dd), (number_pad2 h), (number_pad2 mi),
    (number_pad2 s) by lia.
  change (IsoSeconds.days_in_month y mo) with (days_in_month y mo).
  replace ((1 <=? y) && (1 <=? mo) && (mo <=? 12) && (1 <=? dd)
           && (dd <=? days_in_month y mo) && (h <? 24) && (mi <? 60) && (s <? 60))%Z
    with true; [reflexivity|].
  symmetry. repeat (apply andb_true_iff; split);
    first [apply Z.leb_le | apply Z.ltb_lt]; assumption.
Qed.

Lemma lex_leb_refl (a : list Z) : lex_leb a a = true.
Proof.
  induction a as [|x a IH]; [reflexivity|].
  cbn [lex_leb]. rewrite Z.eqb_refl, IH. apply orb_true_r.
Qed.

Lemma lex_leb_trans (a b c : list Z) :
  List.length a = List.length b -> List.length b = List.length c ->
  lex_leb a b = true -> lex_leb b c = true -> lex_leb a c = true.
Proof.
  revert b c; induction a as [|x a IH]; intros [|y b] [|z c] Hab Hbc H1 H2;
    try discriminate; [reflexivity|].
  cbn [lex_leb] in *. injection Hab as Hab. injection Hbc as Hbc.
  apply orb_true_iff in H1 as [H1|H1]; apply orb_true_iff in H2 as [H2|H2];
    apply orb_true_iff.
  - left. apply Z.ltb_lt in H1, H2. apply Z.ltb_lt. lia.
  - apply andb_true_iff in H2 as [H2 _]. apply Z.eqb_eq in H2 as <-. now left.
  - apply andb_true_iff in H1 as [H1 _]. apply Z.eqb_eq in H1 as ->. now left.
  - apply andb_true_iff in H1 as [H1 H1']. apply andb_true_iff in H2 as [H2 H2'].
    apply Z.eqb_eq in H1 as ->. apply Z.eqb_eq in H2 as ->.
    right. rewrite Z.eqb_refl. cbn [andb]. exact (IH b c Hab Hbc H1' H2').
Qed.

Lemma datetime_leb_refl (d : datetime) : datetime_leb d d = true.
Proof. apply lex_leb_refl. Qed.

Lemma datetime_leb_trans (a b c : datetime) :
  datetime_leb a b = true -> datetime_leb b c = true -> datetime_leb a c = true.
Proof. apply lex_leb_trans; reflexivity. Qed.

Lemma whole_seconds_leb (d : datetime) :
  (0 <= microsecond d)%Z -> datetime_leb (whole_seconds d) d = true.
Proof.
  intros H. unfold datetime_leb, whole_seconds, datetime_fields.
  cbn [year month day hour minute second microsecond lex_leb].
  rewrite !Z.eqb_refl, !Z.ltb_irrefl. cbn [orb andb].
  destruct (Z.ltb_spec 0 (microsecond d)); [reflexivity|].
  replace (microsecond d) with 0%Z by lia. reflexivity.
Qed.

Lemma valid_microsecond (d : datetime) : valid_datetime d = true -> (0 <= microsecond d)%Z.
Proof.
  unfold valid_datetime. intros H.
  repeat (apply andb_true_iff in H as [H ?]).
  match goal with Hb : (0 <=? microsecond d)%Z = true |- _ => now apply Z.leb_le in Hb end.
Qed.

(** *** Adding minutes *)

Lemma next_day_valid (date : Z * Z * Z) : valid_date date -> valid_date (next_day date).
Proof.
  destruct date as [[y m] d]. unfold valid_date, next_day. intros [Hm Hd].
  destruct (Z.ltb_spec d (days_in_month y m)); [lia|].
  destruct (Z.ltb_spec m 12).
  - pose proof (days_in_month_bounds y (m + 1)). lia.
  - pose proof (days_in_month_bounds (y + 1) 1). lia.
Qed.

Lemma prev_day_valid (date : Z * Z * Z) : valid_date date -> valid_date (prev_day date).
Proof.
  destruct date as [[y m] d]. unfold valid_date, prev_day. intros [Hm Hd].
  destruct (Z.ltb_spec 1 d); [lia|].
  destruct (Z.ltb_spec 1 m).
  - pose proof (days_in_month_bounds y (m - 1)). lia.
  - change (days_in_month (y - 1) 12) with 31%Z. lia.
Qed.

Lemma shift_days_valid (date : Z * Z * Z) (k : Z) :
  valid_date date -> valid_date (shift_days date k).
Proof.
  intros H. unfold shift_days. destruct (0 <=? k)%Z.
  - induction (Z.to_nat k) as [|n IH]; [exact H|].
    rewrite Nat.iter_succ. now apply next_day_valid.
  - induction (Z.to_nat (- k)) as [|n IH]; [exact H|].
    rewrite Nat.iter_succ. now apply prev_day_valid.
Qed.

Lemma valid_datetime_spec (d : datetime) :
  valid_datetime d = true <->
  (1 <= year d <= 9999 /\ 1 <= month d <= 12
   /\ 1 <= day d <= days_in_month (year d) (month d)
   /\ 0 <= hour d < 24 /\ 0 <= minute d < 60 /\ 0 <= second d < 60
   /\ 0 <= microsecond d < 1000000)%Z.
Proof.
  unfold valid_datetime. rewrite !andb_true_iff, !Z.leb_le, !Z.ltb_lt. lia.
Qed.

(** A sum that [plus_minutes] returns is a [datetime] again. *)
Lemma plus_minutes_valid (now due : datetime) (n : Z) :
  valid_datetime now = true -> plus_minutes now n = Returned due ->
  valid_datetime due = true.
Proof.
  intros Hnow. apply valid_datetime_spec in Hnow. unfold plus_minutes.
  destruct (_ || _)%bool; [discriminate|].
  destruct (999999999 <? _)%Z; [discriminate|].
  destruct (MAX_ORDINAL <? _)%Z; [discriminate|].
  set (total := (hour now * 3600 + minute now * 60 + second now + n mod 1440 * 60)%Z).
  pose proof (shift_days_valid (year now, month now, day now)
                (n / 1440 + total / 86400)) as Hshift.
  destruct (shift_days (year now, month now, day now) (n / 1440 + total / 86400))
    as [[y m] d].
  destruct ((1 <=? y) && (y <=? 9999))%Z eqn:Hy; [|discriminate].
  intros Hdue. injection Hdue as <-.
  apply andb_true_iff in Hy as [Hy1 Hy2]. apply Z.leb_le in Hy1, Hy2.
  assert (Hdate : valid_date (y, m, d)) by (apply Hshift; cbn; lia).
  cbn in Hdate.
  apply valid_datetime_spec. cbn [year month day hour minute second microsecond].
  assert (0 <= total mod 86400 < 86400)%Z by (apply Z.mod_pos_bound; lia).
  repeat split; try lia; Z.div_mod_to_equations; lia.
Qed.

(** Adding no minute gives the same [datetime]. *)
Lemma plus_minutes_zero (now : datetime) :
  valid_datetime now = true -> plus_minutes now 0 = Returned now.
Proof.
  intros Hnow. apply valid_datetime_spec in Hnow. unfold plus_minutes.
  change (0 / 1440)%Z with 0%Z. change (0 mod 1440 * 60)%Z with 0%Z.
  change ((0 <? - 2147483648) || (2147483647 <? 0))%Z with false.
  change (999999999 <? Z.abs 0)%Z with false. cbv iota.
  set (total := (hour now * 3600 + minute now * 60 + second now + 0)%Z).
  assert (Hq : (total / 86400 = 0)%Z) by (apply Z.div_small; unfold total; lia).
  assert (Hr : (total mod 86400 = total)%Z) by (apply Z.mod_small; unfold total; lia).
  rewrite Hq, Hr. change (0 + 0)%Z with 0%Z.
  change (MAX_ORDINAL <? Z.abs 0)%Z with false. cbv iota.
  change (shift_days (year now, month now, day now) 0)
    with (year now, month now, day now).
  destruct now as [y mo dd h mi s us]. cbn [year month day hour minute second microsecond] in *.
  replace ((1 <=? y) && (y <=? 9999))%Z with true
    by (symmetry; apply andb_true_iff; split; apply Z.leb_le; lia).
  f_equal. unfold total. f_equal; Z.div_mod_to_equations; lia.
Qed.

End Timestamps.

(** ** Setting a reminder *)

Section DateOrder.
Import PyStr Tools.

Lemma next_day_key (date : Z * Z * Z) :
  valid_date date -> (date_key date < date_key (next_day date))%Z.
Proof.
  destruct date as [[y m] d]. unfold valid_date, next_day, date_key. intros [Hm Hd].
  pose proof (days_in_month_bounds y m).
  destruct (Z.ltb_spec d (days_in_month y m)); [lia|].
  destruct (Z.ltb_spec m 12); lia.
Qed.

Lemma prev_day_key (date : Z * Z * Z) :
  valid_date date -> (date_key (prev_day date) < date_key date)%Z.
Proof.
  destruct date as [[y m] d]. unfold valid_date, prev_day, date_key. intros [Hm Hd].
  destruct (Z.ltb_spec 1 d); [lia|].
  destruct (Z.ltb_spec 1 m).
  - pose proof (days_in_month_bounds y (m - 1)). lia.
  - lia.
Qed.

Lemma iter_next_day_key (n : nat) (date : Z * Z * Z) :
  valid_date date ->
  valid_date (Nat.iter n next_day date)
  /\ (date_key date + Z.of_nat n <= date_key (Nat.iter n next_day date))%Z.
Proof.
  intros H. induction n as [|n [IHv IHk]]; [split; [exact H | cbn; lia]|].
  rewrite Nat.iter_succ. split; [now apply next_day_valid|].
  pose proof (next_day_key _ IHv). lia.
Qed.

Lemma iter_prev_day_key (n : nat) (date : Z * Z * Z) :
  valid_date date ->
  valid_date (Nat.iter n prev_day date)
  /\ (date_key (Nat.iter n prev_day date) + Z.of_nat n <= date_key date)%Z.
Proof.
  intros H. induction n as [|n [IHv IHk]]; [split; [exact H | cbn; lia]|].
  rewrite Nat.iter_succ. split; [now apply prev_day_valid|].
  pose proof (prev_day_key _ IHv). lia.
Qed.

(** Later days have larger keys, earlier days smaller ones. *)
Lemma shift_days_key (date : Z * Z * Z) (k : Z) :
  valid_date date ->
  ((0 < k)%Z -> (date_key date < date_key (shift_days date k))%Z)
  /\ ((k < 0)%Z -> (date_key (shift_days date k) < date_key date)%Z)
  /\ (k = 0%Z -> shift_days date k = date).
Proof.
  intros H. unfold shift_days. destruct (Z.leb_spec 0 k) as [Hk|Hk].
  - destruct (iter_next_day_key (Z.to_nat k) date H) as [_ Hkey].
    split; [lia|]. split; [lia|]. now intros ->.
  - destruct (iter_prev_day_key (Z.to_nat (- k)) date H) as [_ Hkey].
    split; [lia|]. split; lia.
Qed.

Lemma datetime_leb_instant (a b : datetime) :
  valid_datetime a = true -> valid_datetime b = true ->
  datetime_leb a b = (instant a <=? instant b)%Z.
Proof.
  intros Ha Hb. apply valid_datetime_spec in Ha, Hb.
  pose proof (days_in_month_bounds (year a) (month a)).
  pose proof (days_in_month_bounds (year b) (month b)).
  destruct a as [y1 m1 d1 h1 i1 s1 u1], b as [y2 m2 d2 h2 i2 s2 u2].
  unfold datetime_leb, datetime_fields, instant, date_key.
  cbn [year month day hour minute second microsecond lex_leb] in *.
  repeat match goal with
         | |- context [(?x <? ?y)%Z] => destruct (Z.ltb_spec x y)
         | |- context [(?x =? ?y)%Z] => destruct (Z.eqb_spec x y)
         end;
    cbn [orb andb]; symmetry; first [apply Z.leb_le | apply Z.leb_gt]; lia.
Qed.

Lemma whole_seconds_valid (d : datetime) :
  valid_datetime d = true -> valid_datetime (whole_seconds d) = true.
Proof.
  intros H. apply valid_datetime_spec in H. apply valid_datetime_spec.
  unfold whole_seconds. cbn [year month day hour minute second microsecond]. lia.
Qed.

(** Where [now + timedelta(minutes=n)] lies: not after [now] for [n <= 0],
    and, even cut to the whole second, after [now] for [n > 0]. *)
Lemma plus_minutes_instant (now due : datetime) (n : Z) :
  valid_datetime now = true -> plus_minutes now n = Returned due ->
  ((n <= 0)%Z -> (instant (whole_seconds due) <= instant now)%Z)
  /\ ((0 < n)%Z -> (instant now < instant (whole_seconds due))%Z).
Proof.
  intros Hnow. apply valid_datetime_spec in Hnow. unfold plus_minutes.
  destruct (_ || _)%bool; [discriminate|].
  destruct (999999999 <? _)%Z; [discriminate|].
  destruct (MAX_ORDINAL <? _)%Z; [discriminate|].
  set (total := (hour now * 3600 + minute now * 60 + second now + n mod 1440 * 60)%Z).
  assert (Hdate : valid_date (year now, month now, day now)) by (cbn; lia).
  pose proof (shift_days_key (year now, month now, day now)
                (n / 1440 + total / 86400) Hdate) as (Hlater & Hearlier & Hsame).
  destruct (shift_days (year now, month now, day now) (n / 1440 + total / 86400))
    as [[y m] d] eqn:Hshift.
  destruct ((1 <=? y) && (y <=? 9999))%Z; [|discriminate].
  intros Hdue. injection Hdue as <-.
  unfold instant, whole_seconds. cbn [year month day hour minute second microsecond].
  assert (Ht : (0 <= total mod 86400 < 86400)%Z) by (apply Z.mod_pos_bound; lia).
  assert (Hfields : (total mod 86400 / 3600 * 3600 + total mod 86400 mod 3600 / 60 * 60
                     + total mod 86400 mod 60 = total mod 86400)%Z)
    by (Z.div_mod_to_equations; lia).
  assert (Hsplit : (total = 86400 * (total / 86400) + total mod 86400)%Z)
    by (apply Z.div_mod; lia).
  assert (Hn : (n = 1440 * (n / 1440) + n mod 1440)%Z) by (apply Z.div_mod; lia).
  assert (Hnm : (0 <= n mod 1440 < 1440)%Z) by (apply Z.mod_pos_bound; lia).
  set (q := (total / 86400)%Z) in *. set (t := (total mod 86400)%Z) in *.
  set (nq := (n / 1440)%Z) in *. set (nr := (n mod 1440)%Z) in *.
  destruct (Z.lt_trichotomy (nq + q) 0) as [Hk|[Hk|Hk]].
  - specialize (Hearlier Hk). unfold date_key in *. split; intros; lia.
  - specialize (Hsame Hk). injection Hsame as -> -> ->.
    unfold date_key. unfold total in Hsplit. split; intros; lia.
  - specialize (Hlater Hk). unfold date_key in *. unfold total in Hsplit. split; intros; lia.
Qed.

End DateOrder.

Section SetReminderFacts.
Import PyStr Tools.
Variable fromisoformat : string -> option parsed_time.
Variable strftime : datetime -> string.
Variable int_of_str : string -> outcome Z.

Lemma set_reminder_returns (now due : datetime) (text : string) (minutes : value)
    (n : Z) (write : write_outcome) (file : json_file (list reminder)) :
  int_of int_of_str minutes = Returned n ->
  plus_minutes now n = Returned due ->
  set_reminder strftime int_of_str now text minutes write file
  = (Returned ("Reminder set: '" ++ text ++ "' in about " ++ Py.str minutes
               ++ " minute(s), around " ++ strftime due ++ "."),
     _save_json write (_ensure_json_file file [])
       (fst (_load_json file []) ++ [new_reminder now due text])%list).
Proof.
  intros Hint Hplus. unfold set_reminder.
  destruct file; cbn [_load_json _ensure_json_file fst]; rewrite Hint, Hplus; reflexivity.
Qed.

Lemma set_reminder_raises (now : datetime) (e : exn) (text : string) (minutes : value)
    (n : Z) (write : write_outcome) (file : json_file (list reminder)) :
  int_of int_of_str minutes = Returned n ->
  plus_minutes now n = Raised e ->
  set_reminder strftime int_of_str now text minutes write file
  = (Raised e, _ensure_json_file file []).
Proof.
  intros Hint Hplus. unfold set_reminder.
  destruct file; cbn [_load_json _ensure_json_file]; rewrite Hint, Hplus; reflexivity.
Qed.

Lemma new_reminder_is_due (now due now2 : datetime) (text : string) :
  reads_back fromisoformat -> valid_datetime due = true ->
  is_due fromisoformat now2 (new_reminder now due text)
  = datetime_leb (whole_seconds due) now2
  /\ is_aware fromisoformat (new_reminder now due text) = false.
Proof.
  intros Hreads Hdue. unfold is_due, is_aware, new_reminder, get_delivered.
  cbn [delivered due_at negb andb]. now rewrite Hreads.
Qed.

Lemma has_aware_app (l1 l2 : list reminder) :
  has_aware fromisoformat (l1 ++ l2)%list
  = has_aware fromisoformat l1 || has_aware fromisoformat l2.
Proof. apply existsb_app. Qed.

(** A check at [now2] of a list that ends in the new reminder and has no
    aware due time before it: the reply has the line of the reminder when it
    is selected, and the reminder is stored untouched when it is not. *)
Lemma check_after_set (now due now2 : datetime) (text : string) (earlier : list reminder) :
  let r := new_reminder now due text in
  has_aware fromisoformat earlier = false ->
  is_aware fromisoformat r = false ->
  (is_due fromisoformat now2 r = true ->
   forall write,
   exists reply,
     fst (check_reminders fromisoformat now2 write (Holds (earlier ++ [r])%list))
     = Returned reply
     /\ contains (due_line r) reply = true)
  /\ (is_due fromisoformat now2 r = false ->
      snd (check_reminders fromisoformat now2 Written (Holds (earlier ++ [r])%list))
      = Holds (map (deliver_due fromisoformat now2) earlier ++ [r])%list).
Proof.
  intros r Hearlier Hnew.
  assert (Hnaive : has_aware fromisoformat (earlier ++ [r])%list = false).
  { rewrite has_aware_app, Hearlier. unfold has_aware. cbn [existsb].
    now rewrite Hnew. }
  split; intros Hr.
  - intros write. rewrite check_reminders_holds, Hnaive. cbn [fst].
    eexists. split; [reflexivity|].
    assert (Hin : In r (filter (is_due fromisoformat now2) (earlier ++ [r])%list)).
    { apply filter_In. split; [apply in_or_app; right; now left | exact Hr]. }
    destruct (filter (is_due fromisoformat now2) (earlier ++ [r])%list) as [|x l] eqn:Hf;
      [destruct Hin|].
    apply contains_join. right. rewrite due_lines_ignore_delivery. now apply in_map.
  - rewrite check_reminders_holds, Hnaive. cbn [snd _save_json].
    rewrite map_app. cbn [map]. unfold deliver_due at 2. now rewrite Hr.
Qed.



End SetReminderFacts.

Section SetReminderFailure.
Import PyStr Tools.
Variable strftime : datetime -> string.
Variable int_of_str : string -> outcome Z.

(** X20.  A delay that leads beyond the last date a [datetime] can hold
    (year 9999) makes [set_reminder] raise, and then no reminder is stored:
    a file that held a list holds the same list. *)
Theorem set_reminder_out_of_range_stores_nothing
    (now : datetime) (text : string) (minutes : value) (n : Z) (write : write_outcome)
    (file : json_file (list reminder)) :
  valid_datetime now = true ->
  int_of int_of_str minutes = Returned n ->
  ((MAX_ORDINAL + 2) * 1440 <= Z.abs n)%Z ->
  exists e,
    set_reminder strftime int_of_str now text minutes write file
    = (Raised e, _ensure_json_file file [])
    /\ forall reminders,
         file = Holds reminders ->
         snd (set_reminder strftime int_of_str now text minutes write file)
         = Holds reminders.
Proof.
  intros Hnow Hint Hbig. apply valid_datetime_spec in Hnow.
  assert (Hraise : exists e, plus_minutes now n = Raised e).
  { unfold plus_minutes.
    destruct (_ || _)%bool; [eexists; reflexivity|].
    destruct (999999999 <? _)%Z; [eexists; reflexivity|].
    set (total := (hour now * 3600 + minute now * 60 + second now + n mod 1440 * 60)%Z).
    assert (Hq : (0 <= total / 86400 <= 1)%Z).
    { assert (0 <= n mod 1440 < 1440)%Z by (apply Z.mod_pos_bound; lia).
      unfold total. split; [apply Z.div_pos; lia|].
      apply Z.lt_succ_r. apply Z.div_lt_upper_bound; lia. }
    assert (Hd : (MAX_ORDINAL + 2 <= Z.abs (n / 1440))%Z).
    { unfold MAX_ORDINAL in *. Z.div_mod_to_equations. lia. }
    destruct (Z.ltb_spec MAX_ORDINAL (Z.abs (n / 1440 + total / 86400)));
      [eexists; reflexivity | lia]. }
  destruct Hraise as [e He]. exists e.
  rewrite (set_reminder_raises strftime int_of_str now e text minutes n write file Hint He).
  split; [reflexivity|].
  now intros reminders ->.
Qed.

End SetReminderFailure.

(** ** Web search *)

Section WebSearchFacts.
Import PyStr Tools.

Lemma find_at_none (sub s : string) (pos : nat) :
  contains sub s = false -> find_at sub s pos = (-1)%Z.
Proof.
  revert pos; induction s as [|c s IH]; intros pos H; cbn [contains find_at] in *;
    apply orb_false_iff in H as [Hp Hr]; rewrite Hp; [reflexivity | now apply IH].
Qed.

(** An occurrence of [sub] after [pre] bounds the first one found. *)
Lemma find_at_bound (sub pre post : string) (pos : nat) :
  (Z.of_nat pos <= find_at sub (pre ++ sub ++ post) pos <= Z.of_nat (pos + String.length pre))%Z.
Proof.
  revert pos; induction pre as [|c pre IH]; intros pos.
  - change (EmptyString ++ sub ++ post) with (sub ++ post).
    destruct (sub ++ post) as [|x r] eqn:Hs; cbn [find_at]; rewrite <- Hs, prefix_app;
      cbn [String.length]; lia.
  - change ((String c pre) ++ sub ++ post) with (String c (pre ++ sub ++ post)).
    cbn [find_at String.length].
    destruct (prefix sub (String c (pre ++ sub ++ post))); [lia|].
    specialize (IH (S pos)). lia.
Qed.

Lemma rfind_at_none (sub s : string) (pos : nat) (best : Z) :
  contains sub s = false -> rfind_at sub s pos best = best.
Proof.
  revert pos; induction s as [|c s IH]; intros pos H; cbn [contains rfind_at] in *;
    apply orb_false_iff in H as [Hp Hr]; rewrite Hp; [reflexivity | now apply IH].
Qed.

Lemma contains_take (sub s : string) (n : nat) :
  contains sub s = false -> contains sub (take n s) = false.
Proof.
  intros H. destruct (contains sub (take n s)) eqn:Ht; [|reflexivity].
  rewrite <- H. symmetry. rewrite <- (take_drop n s).
  destruct (contains_elim _ _ Ht) as (u & v & ->).
  rewrite !app_assoc. apply contains_intro.
Qed.

Lemma take_app_short (n : nat) (a b : string) :
  n <= String.length a -> take n (a ++ b) = take n a.
Proof.
  revert a; induction n as [|n IH]; intros a H; [reflexivity|].
  destruct a as [|c a]; cbn [String.length] in H; [lia|].
  cbn [append take]. f_equal. apply IH. lia.
Qed.

Lemma str_find_from_start (sub s : string) : str_find sub s 0 = find_at sub s 0.
Proof.
  unfold str_find. cbn [Z.ltb Z.compare].
  destruct (Z.ltb_spec (Z.of_nat (String.length s)) 0); [lia | reflexivity].
Qed.

(** What the loop builds: it only appends, never beyond five results, and
    numbers each result by its place in the list. *)
Lemma scrape_spec (rounds : nat) (text : string) (start : Z) (results : list string) :
  exists more,
    scrape rounds text start results = (results ++ more)%list
    /\ (List.length results <= 5 -> List.length (results ++ more)%list <= 5)
    /\ forall i entry,
         nth_error more i = Some entry ->
         exists title url,
           entry = str_of_int (Z.of_nat (List.length results + i) + 1) ++ ". "
                   ++ title ++ LF ++ "   " ++ url.
Proof.
  revert start results; induction rounds as [|rounds IH]; intros start results.
  - exists []. rewrite List.app_nil_r. split; [reflexivity|]. split; [tauto|].
    intros [|i] entry; discriminate.
  - cbn [scrape].
    assert (Hstop : exists more : list string,
               results = (results ++ more)%list
               /\ (List.length results <= 5 -> List.length (results ++ more)%list <= 5)
               /\ forall i entry,
                    nth_error more i = Some entry ->
                    exists title url,
                      entry = str_of_int (Z.of_nat (List.length results + i) + 1) ++ ". "
                              ++ title ++ LF ++ "   " ++ url).
    { exists []. rewrite List.app_nil_r. split; [reflexivity|]. split; [tauto|].
      intros [|i] entry; discriminate. }
    destruct (Nat.leb_spec 5 (List.length results)) as [Hfull|Hroom]; [exact Hstop|].
    destruct (_ =? -1)%Z; [exact Hstop|].
    destruct (_ =? -1)%Z; [exact Hstop|].
    cbv zeta.
    match goal with
    | |- context [scrape rounds text ?s (results ++ [?e])%list] =>
        set (entry := e); destruct (IH s (results ++ [entry])%list) as (more & Hrun & Hlen & Hnum)
    end.
    exists (entry :: more). rewrite Hrun, <- List.app_assoc. cbn [List.app].
    split; [reflexivity|]. split.
    + intros _. rewrite !List.length_app in Hlen. cbn [List.length] in Hlen.
      rewrite List.length_app. cbn [List.length]. lia.
    + intros [|i] e He; cbn [nth_error] in He.
      * injection He as <-. rewrite Nat.add_0_r. eexists _, _. reflexivity.
      * destruct (Hnum i e He) as (title & url & ->).
        exists title, url. rewrite List.length_app. cbn [List.length].
        now replace (List.length results + 1 + i) with (List.length results + S i) by lia.
Qed.

(** X21.  On a response with status 200, [web_search] lists at most five
    results: the answer is either the no-results text with the query, or the
    header followed by one to five results separated by blank lines, the
    result at place [i] starting with its number [i + 1], a dot and a
    space. *)
Theorem web_search_lists_at_most_five (text query : string) :
  web_search (HttpResponse 200 text) query = "No results found for: " ++ query
  \/ exists results,
       web_search (HttpResponse 200 text) query
       = "Top search results:" ++ LF ++ LF ++ PyStr.join (LF ++ LF) results
       /\ 1 <= List.length results <= 5
       /\ forall i entry,
            nth_error results i = Some entry ->
            exists title url,
              entry = str_of_int (Z.of_nat i + 1) ++ ". " ++ title ++ LF ++ "   " ++ url.
Proof.
  unfold web_search. cbn [Z.eqb Pos.eqb negb].
  destruct (scrape_spec 5 text 0 []) as (more & Hrun & Hlen & Hnum).
  cbn [List.app List.length] in Hrun, Hlen, Hnum. rewrite Hrun.
  destruct more as [|first rest]; [now left|]. right.
  exists (first :: rest). split; [reflexivity|].
  split; [cbn [List.length] in *; lia | exact Hnum].
Qed.

(** X22.  When does [web_search] find nothing on a page that arrived: when
    the page has no result marker at all, and also when the text in front of
    some result marker holds no [href] attribute, whatever follows.  The
    answer is then the no-results text with the query. *)
Theorem web_search_finds_nothing (text query : string) :
  (contains RESULT_MARKER text = false
   \/ exists pre post,
        text = pre ++ RESULT_MARKER ++ post /\ contains HREF pre = false) ->
  web_search (HttpResponse 200 text) query = "No results found for: " ++ query.
Proof.
  intros H. unfold web_search. cbn [Z.eqb Pos.eqb negb].
  assert (Hnone : scrape 5 text 0 [] = []); [|now rewrite Hnone].
  cbn [scrape List.length Nat.leb]. rewrite str_find_from_start.
  destruct H as [Hmark | (pre & post & -> & Hhref)].
  - now rewrite (find_at_none _ _ 0 Hmark).
  - pose proof (find_at_bound RESULT_MARKER pre post 0) as Hidx.
    set (idx := find_at RESULT_MARKER (pre ++ RESULT_MARKER ++ post) 0) in *.
    destruct (Z.eqb_spec idx (-1)); [reflexivity|].
    assert (Hr : str_rfind HREF (pre ++ RESULT_MARKER ++ post) idx = (-1)%Z).
    { unfold str_rfind, slice_index.
      destruct (Z.ltb_spec idx 0); [lia|].
      rewrite length_app. rewrite Z.min_l by lia.
      rewrite take_app_short by lia.
      apply rfind_at_none. now apply contains_take. }
    now rewrite Hr.
Qed.

End WebSearchFacts.

(** ** The command loop *)

Section MainLoop.
Import PyStr Agent.
Context {E : Env}.

(** The loop on messages followed by [rest]: one answer per message, then
    the loop on [rest] from the agent the turns leave. *)
Lemma command_loop_messages (messages : list string) (rest : list stdin_event)
    (a : agent) (w : World) :
  no_exit_command messages ->
  exists answers,
    command_loop (map Line messages ++ rest)%list a w
    = (let '(a', w') := chat_turns messages a w in
       let '(out, a'', w'') := command_loop rest a' w' in
       ((answers ++ out)%list, a'', w''))
    /\ List.length answers = List.length messages
    /\ Forall is_answer answers.
Proof.
  intros Hmsgs. revert a w.
  induction Hmsgs as [|m messages Hm _ IH]; intros a w.
  - exists []. cbn [map List.app chat_turns]. split; [|split; [reflexivity | constructor]].
    now destruct (command_loop rest a w) as [[out a''] w''].
  - cbn [map List.app command_loop chat_turns]. rewrite Hm.
    destruct (chat m a w) as [[[reply|e] a1] w1] eqn:Hchat;
      destruct (IH a1 w1) as (answers & -> & Hlen & Hans);
      destruct (chat_turns messages a1 w1) as [a2 w2];
      destruct (command_loop rest a2 w2) as [[out a3] w3].
    + exists (JarvisSays reply :: answers). split; [reflexivity|].
      split; [cbn [List.length]; now rewrite Hlen|].
      constructor; [|exact Hans].
      exact (chat_reply_nonempty m a w reply a1 w1 Hchat).
    + exists (ErrorSays (exn_text e) :: answers). split; [reflexivity|].
      split; [cbn [List.length]; now rewrite Hlen|].
      constructor; [exact I | exact Hans].
Qed.

(** X23.  The command loop stops at the first exit command: the lines after
    it are neither read nor answered.  Before it, every message gets exactly
    one printed line, a reply that is not empty or the text of an exception
    (which does not end the session), and the agent left is the one the
    chat turns on these messages leave; the output is the banner, these
    lines, and the farewell. *)
Theorem main_stops_at_exit
    (messages : list string) (command : string) (rest : list stdin_event) (w : World) :
  no_exit_command messages ->
  is_exit_command command = true ->
  exists answers,
    main (map Line messages ++ Line command :: rest)%list w
    = ((Banner :: answers ++ [Farewell false])%list,
       fst (chat_turns messages (GeminiAgent DEFAULT_GEMINI_MODEL 8000) w),
       snd (chat_turns messages (GeminiAgent DEFAULT_GEMINI_MODEL 8000) w))
    /\ List.length answers = List.length messages
    /\ Forall is_answer answers.
Proof.
  intros Hmsgs Hexit. unfold main.
  destruct (command_loop_messages messages (Line command :: rest)
              (GeminiAgent DEFAULT_GEMINI_MODEL 8000) w Hmsgs)
    as (answers & -> & Hlen & Hans).
  exists answers. split; [|now split].
  destruct (chat_turns messages (GeminiAgent DEFAULT_GEMINI_MODEL 8000) w) as [a' w'].
  cbn [command_loop fst snd]. now rewrite Hexit.
Qed.

Lemma command_loop_mock (inputs : list stdin_event) (a : agent) (w : World) :
  LLM_BACKEND = "mock" ->
  exists replies after_newline,
    fst (fst (command_loop inputs a w)) = (replies ++ [Farewell after_newline])%list
    /\ Forall is_reply replies.
Proof.
  intros Hmock. revert a w.
  induction inputs as [|[m|] rest IH]; intros a w; cbn [command_loop].
  - exists [], true. split; [reflexivity | constructor].
  - destruct (is_exit_command m).
    + exists [], false. split; [reflexivity | constructor].
    + destruct (chat_mock_turn m a w Hmock) as (reply & w' & -> & Hne).
      destruct (IH (append_turn a m reply) w') as (replies & nl & Hout & Hrep).
      destruct (command_loop rest (append_turn a m reply) w') as [[out a''] w''].
      cbn [fst] in *. subst out.
      exists (JarvisSays reply :: replies), nl. split; [reflexivity|].
      constructor; [exact Hne | exact Hrep].
  - exists [], true. split; [reflexivity | constructor].
Qed.

(** X24.  In mock mode a session never prints an error: whatever is typed,
    the output of [main] is the banner, then replies only, none of them
    empty, then the farewell. *)
Theorem mock_session_never_errors (inputs : list stdin_event) (w : World) :
  LLM_BACKEND = "mock" ->
  exists replies after_newline,
    fst (fst (main inputs w)) = (Banner :: replies ++ [Farewell after_newline])%list
    /\ Forall is_reply replies
    /\ forall detail, ~ In (ErrorSays detail) (fst (fst (main inputs w))).
Proof.
  intros Hmock. unfold main.
  destruct (command_loop_mock inputs (GeminiAgent DEFAULT_GEMINI_MODEL 8000) w Hmock)
    as (replies & nl & Hout & Hrep).
  destruct (command_loop inputs (GeminiAgent DEFAULT_GEMINI_MODEL 8000) w) as [[out a] w'].
  cbn [fst] in *. subst out. exists replies, nl.
  split; [reflexivity|]. split; [exact Hrep|].
  intros detail [Hin|Hin]; [discriminate|].
  apply in_app_or in Hin as [Hin|[Hin|[]]]; [|discriminate].
  rewrite Forall_forall in Hrep. exact (Hrep _ Hin).
Qed.

Lemma chat_max_dialogue_chars (user_message : string) (a : agent) (w : World) :
  max_dialogue_chars (snd (fst (chat user_message a w))) = max_dialogue_chars a.
Proof.
  destruct (String.eqb_spec LLM_BACKEND "mock") as [Hmock|Hb].
  - now destruct (chat_mock_turn user_message a w Hmock) as (reply & w' & -> & _).
  - destruct (chat_backend_outcomes user_message a w Hb)
      as [(r & w1 & ->)|[(r & w1 & ->)|(e1 & w1 & ->)]];
      cbn [fst snd append_turn with_dialogue max_dialogue_chars];
      now rewrite !compact_max_dialogue_chars.
Qed.

Lemma command_loop_agent (inputs : list stdin_event) (a : agent) (w : World) :
  begins_with_system a ->
  begins_with_system (snd (fst (command_loop inputs a w)))
  /\ max_dialogue_chars (snd (fst (command_loop inputs a w))) = max_dialogue_chars a
  /\ exists answers after_newline,
       fst (fst (command_loop inputs a w)) = (answers ++ [Farewell after_newline])%list
       /\ Forall is_answer answers
       /\ List.length answers <= List.length inputs.
Proof.
  revert a w. induction inputs as [|[m|] rest IH]; intros a w Ha; cbn [command_loop].
  - split; [exact Ha|]. split; [reflexivity|].
    exists [], true. split; [reflexivity|]. split; [constructor | cbn; lia].
  - destruct (is_exit_command m).
    + split; [exact Ha|]. split; [reflexivity|].
      exists [], false. split; [reflexivity|]. split; [constructor | cbn; lia].
    + pose proof (chat_preserves m a w Ha) as Ha1.
      pose proof (chat_max_dialogue_chars m a w) as Hmax1.
      destruct (chat m a w) as [[[reply|e] a1] w1] eqn:Hchat; cbn [fst snd] in Ha1, Hmax1;
        destruct (IH a1 w1 Ha1) as (Hsys & Hmax & answers & nl & Hout & Hans & Hlen);
        destruct (command_loop rest a1 w1) as [[out a2] w2]; cbn [fst snd] in *; subst out;
        (split; [exact Hsys|]); (split; [now rewrite Hmax|]).
      * exists (JarvisSays reply :: answers), nl. split; [reflexivity|].
        split; [|cbn [List.length]; lia].
        constructor; [exact (chat_reply_nonempty m a w reply a1 w1 Hchat) | exact Hans].
      * exists (ErrorSays (exn_text e) :: answers), nl. split; [reflexivity|].
        split; [|cbn [List.length]; lia].
        constructor; [exact I | exact Hans].
  - split; [exact Ha|]. split; [reflexivity|].
    exists [], true. split; [reflexivity|]. split; [constructor | cbn; lia].
Qed.

(** X25.  Every session ends well, whatever is typed and whatever the
    backend does: [main] prints the banner, at most one line per input line
    (each a reply that is not empty or the text of an exception) and a single
    farewell at the very end; the agent it leaves still has the budget of
    8000 characters and a dialogue that begins with the system
    instruction. *)
Theorem session_ends_well (inputs : list stdin_event) (w : World) :
  (exists answers after_newline,
      fst (fst (main inputs w)) = (Banner :: answers ++ [Farewell after_newline])%list
      /\ Forall is_answer answers
      /\ List.length answers <= List.length inputs)
  /\ max_dialogue_chars (snd (fst (main inputs w))) = 8000%Z
  /\ prefix (strip SYSTEM_PROMPT) (dialogue (snd (fst (main inputs w)))) = true.
Proof.
  unfold main.
  destruct (command_loop_agent inputs (GeminiAgent DEFAULT_GEMINI_MODEL 8000) w
              (init_begins_with_system _ _))
    as (Hsys & Hmax & answers & nl & Hout & Hans & Hlen).
  destruct (command_loop inputs (GeminiAgent DEFAULT_GEMINI_MODEL 8000) w) as [[out a] w'].
  cbn [fst snd] in *. subst out.
  split; [exists answers, nl; now repeat split|]. split; [exact Hmax | exact Hsys].
Qed.

End MainLoop.

(** ** Runs of the further properties *)

Section FurtherWitnesses.
Import PyStr Agent Tools.

Lemma compaction_settles_within_budget_witness :
  (Z.of_nat (String.length (dialogue (_compact_context long_agent)))
   <= max_dialogue_chars long_agent)%Z
  /\ _compact_context (_compact_context long_agent) = _compact_context long_agent.
Proof.
  apply (compaction_settles_within_budget long_agent). vm_compute. discriminate.
Defined.

Lemma compaction_cannot_reach_small_budget_witness :
  over_budget (Nat.iter 3 _compact_context tight_agent)
  /\ max_dialogue_chars (Nat.iter 3 _compact_context tight_agent)
     = max_dialogue_chars tight_agent.
Proof.
  apply (compaction_cannot_reach_small_budget tight_agent 3); vm_compute; reflexivity.
Defined.

Lemma failed_turn_leaves_no_trace_witness :
  @LLM_BACKEND (replay_env "gemini") <> "mock"
  /\ fresh_agent = _compact_context fresh_agent.
Proof.
  apply (@failed_turn_leaves_no_trace (replay_env "gemini") "hi" fresh_agent fresh_agent
           (gemini_says [NUMERIC_CONTENT_TEXT]) (gemini_says [])
           (AttributeError "'int' object has no attribute 'strip'")).
  vm_compute. reflexivity.
Defined.

Lemma backend_transcript_stays_bounded_witness :
  exists kept,
    dialogue (append_turn fresh_agent "hi" "hello there")
    = kept ++ turn_text "hi" "hello there"
    /\ (Z.of_nat (String.length kept)
        <= Z.max (max_dialogue_chars fresh_agent) (Z.of_nat COMPACTED_MAX))%Z
    /\ max_dialogue_chars (append_turn fresh_agent "hi" "hello there")
       = max_dialogue_chars fresh_agent.
Proof.
  refine (@backend_transcript_stays_bounded (replay_env "hf") "hi" "hello there"
            fresh_agent (append_turn fresh_agent "hi" "hello there")
            (hf_says [HfText (Some "  hello there ")]) (hf_says []) _ _).
  - discriminate.
  - vm_compute. reflexivity.
Defined.

Lemma returned_reply_is_recorded_witness :
  "hello there" <> EmptyString
  /\ exists kept,
       dialogue (append_turn fresh_agent "hi" "hello there")
       = kept ++ "User: " ++ "hi" ++ LF ++ "Assistant: " ++ "hello there" ++ LF.
Proof.
  refine (@returned_reply_is_recorded (replay_env "hf") "hi" "hello there"
            fresh_agent (append_turn fresh_agent "hi" "hello there")
            (hf_says [HfText (Some "  hello there ")]) (hf_says []) _).
  vm_compute. reflexivity.
Defined.

Lemma call_model_text_is_stripped_witness :
  exists raw,
    @_call_model (replay_env "hf") "prompt" fresh_agent
      (hf_says [HfText (Some "  hello there ")])
    = (Returned raw, _compact_context fresh_agent, hf_says [])
    /\ raw = strip (or_empty (Some "  hello there ")) /\ strip raw = raw.
Proof.
  apply (proj1 (@call_model_text_is_stripped (replay_env "hf"))); reflexivity.
Defined.

Lemma hf_turn_asks_with_uncompacted_dialogue_witness :
  @chat (replay_env "hf") "hi" long_agent (hf_says [HfText (Some "  hello there ")])
  = (Returned "hello there",
     append_turn (_compact_context long_agent) "hi" "hello there", hf_says []).
Proof.
  refine (@hf_turn_asks_with_uncompacted_dialogue (replay_env "hf") "hi" long_agent
            (hf_says [HfText (Some "  hello there ")]) (hf_says [])
            (Some "  hello there ") _ _ _).
  - reflexivity.
  - reflexivity.
  - vm_compute. reflexivity.
Defined.

Lemma misconfigured_backend_replies_locally_witness :
  @chat (replay_env "openai") "hi" fresh_agent nothing_recorded
  = (Returned MISCONFIGURED,
     append_turn (_compact_context fresh_agent) "hi" MISCONFIGURED, nothing_recorded).
Proof.
  refine (@misconfigured_backend_replies_locally (replay_env "openai") "hi" fresh_agent
            nothing_recorded _ _ _ _).
  - discriminate.
  - discriminate.
  - discriminate.
  - vm_compute. reflexivity.
Defined.

Lemma backend_failure_reply_is_apology_witness :
  @chat (replay_env "hf") "hi" fresh_agent (hf_says [HfRaise "timed out"])
  = (Returned (strip (error_content HF_APOLOGY "timed out")),
     append_turn (_compact_context fresh_agent) "hi"
       (strip (error_content HF_APOLOGY "timed out")),
     hf_says [])
  /\ prefix HF_APOLOGY (strip (error_content HF_APOLOGY "timed out")) = true.
Proof.
  refine (proj1 (@backend_failure_reply_is_apology (replay_env "hf")) "hi" fresh_agent
            (hf_says [HfRaise "timed out"]) (hf_says []) "timed out" _ _ _).
  - reflexivity.
  - reflexivity.
  - vm_compute. reflexivity.
Defined.

Lemma planner_note_is_never_empty_witness :
  "I like tea" <> EmptyString
  /\ ("I like tea" = strip (replace "remember that" EmptyString "remember that I like tea")
      \/ (strip (replace "remember that" EmptyString "remember that I like tea")
          = EmptyString
          /\ "I like tea" = "remember that I like tea")).
Proof.
  apply (planner_note_is_never_empty "remember that I like tea" "I like tea").
  vm_compute. reflexivity.
Defined.

Lemma planner_calls_fit_signatures_witness :
  in_registry "recall_memory" = true
  /\ exists params,
       signature_of "recall_memory" SIGNATURES = Some params
       /\ binds params
            (passed_args
               (Py.or_else (Py.get (_mock_decide_action "what do you recall?") "args" VNone)
                           (VDict []))) = true.
Proof.
  apply (planner_calls_fit_signatures "what do you recall?" "recall_memory").
  vm_compute. reflexivity.
Defined.

Lemma read_file_never_refuses_inside_witness :
  read_file project_host "notes.txt" <> ACCESS_DENIED.
Proof.
  apply (read_file_never_refuses_inside project_host "notes.txt").
  vm_compute. reflexivity.
Defined.

Lemma read_file_size_limits_witness :
  ((200 * 1024 < 5)%Z -> read_file project_host "notes.txt" = TOO_LARGE)
  /\ ((5 <= 200 * 1024)%Z ->
      forall content,
        ReadText "hello" = ReadText content ->
        exists shown,
          read_file project_host "notes.txt"
          = "Content of " ++ "notes.txt" ++ ":" ++ LF ++ LF ++ shown
          /\ String.length shown <= 4024
          /\ (String.length content <= 4000 -> shown = content)
          /\ (4000 < String.length content ->
              shown = first_chars 4000 content ++ LF ++ LF ++ "[Content truncated...]"
              /\ prefix (first_chars 4000 content) content = true
              /\ String.length (first_chars 4000 content) = 4000)).
Proof.
  apply (read_file_size_limits project_host "notes.txt"
           {| node_size := 5; node_read := ReadText "hello" |}).
  - vm_compute. reflexivity.
  - vm_compute. reflexivity.
Defined.

Lemma check_reminders_keeps_every_record_witness :
  exists reply stored,
    check_reminders IsoSeconds.fromisoformat (at_time 10 1) Written
      (Holds [tea_reminder; call_reminder])
    = (Returned reply, Holds stored)
    /\ List.length stored = List.length [tea_reminder; call_reminder]
    /\ (forall i r,
          nth_error [tea_reminder; call_reminder] i = Some r ->
          exists r',
            nth_error stored i = Some r'
            /\ message r' = message r
            /\ created_at r' = created_at r
            /\ due_at r' = due_at r
            /\ (get_delivered r = true -> r' = r)
            /\ (IsoSeconds.fromisoformat (due_at r) = None -> r' = r)
            /\ (forall due_time,
                  IsoSeconds.fromisoformat (due_at r) = Some (Naive due_time) ->
                  datetime_leb due_time (at_time 10 1) = false -> r' = r)
            /\ (forall due_time,
                  get_delivered r = false ->
                  IsoSeconds.fromisoformat (due_at r) = Some (Naive due_time) ->
                  datetime_leb due_time (at_time 10 1) = true ->
                  r' = mark_delivered r /\ contains (due_line r) reply = true))
    /\ reply = match filter (is_due IsoSeconds.fromisoformat (at_time 10 1))
                       [tea_reminder; call_reminder] with
               | [] => NONE_DUE
               | due => PyStr.join LF ("Here are your due reminders:" :: map due_line due)
               end
    /\ (forall write,
          fst (check_reminders IsoSeconds.fromisoformat (at_time 10 1) write
                 (Holds [tea_reminder; call_reminder])) = Returned reply)
    /\ snd (check_reminders IsoSeconds.fromisoformat (at_time 10 1) OpenFails
              (Holds [tea_reminder; call_reminder]))
       = Holds [tea_reminder; call_reminder].
Proof.
  apply (check_reminders_keeps_every_record IsoSeconds.fromisoformat (at_time 10 1)
           [tea_reminder; call_reminder]).
  reflexivity.
Defined.

Lemma second_check_reports_newly_due_witness :
  fst (check_reminders IsoSeconds.fromisoformat (at_time 10 6) OpenFails
         (snd (check_reminders IsoSeconds.fromisoformat (at_time 10 1) Written
                 (Holds [tea_reminder; call_reminder]))))
  = Returned match filter (came_due IsoSeconds.fromisoformat (at_time 10 1) (at_time 10 6))
                     [tea_reminder; call_reminder] with
             | [] => NONE_DUE
             | due => PyStr.join LF ("Here are your due reminders:" :: map due_line due)
             end.
Proof.
  apply (second_check_reports_newly_due IsoSeconds.fromisoformat (at_time 10 1)
           (at_time 10 6) OpenFails [tea_reminder; call_reminder]).
  reflexivity.
Defined.




Lemma set_reminder_out_of_range_stores_nothing_witness :
  exists e,
    set_reminder strftime_seconds int_of_decimal (at_time 9 0) "tea" (VStr "6000000000")
      Written (Holds [tea_reminder])
    = (Raised e, _ensure_json_file (Holds [tea_reminder]) [])
    /\ forall reminders,
         Holds [tea_reminder] = Holds reminders ->
         snd (set_reminder strftime_seconds int_of_decimal (at_time 9 0) "tea"
                (VStr "6000000000") Written (Holds [tea_reminder])) = Holds reminders.
Proof.
  apply (set_reminder_out_of_range_stores_nothing strftime_seconds int_of_decimal
           (at_time 9 0) "tea" (VStr "6000000000") 6000000000%Z Written
           (Holds [tea_reminder])).
  - vm_compute. reflexivity.
  - vm_compute. reflexivity.
  - vm_compute. discriminate.
Defined.

Lemma web_search_finds_nothing_witness :
  web_search (HttpResponse 200 "<html><body>Nothing here</body></html>") "rocq"
  = "No results found for: " ++ "rocq".
Proof.
  apply (web_search_finds_nothing "<html><body>Nothing here</body></html>" "rocq").
  left. vm_compute. reflexivity.
Defined.

Lemma main_stops_at_exit_witness :
  exists answers,
    @main (replay_env "mock") (map Line ["hello"] ++ Line " Exit" :: [Line "more"])%list
      nothing_recorded
    = ((Banner :: answers ++ [Farewell false])%list,
       fst (@chat_turns (replay_env "mock") ["hello"]
              (GeminiAgent DEFAULT_GEMINI_MODEL 8000) nothing_recorded),
       snd (@chat_turns (replay_env "mock") ["hello"]
              (GeminiAgent DEFAULT_GEMINI_MODEL 8000) nothing_recorded))
    /\ List.length answers = List.length ["hello"]
    /\ Forall is_answer answers.
Proof.
  apply (@main_stops_at_exit (replay_env "mock") ["hello"] " Exit" [Line "more"]
           nothing_recorded).
  - repeat constructor.
  - vm_compute. reflexivity.
Defined.

Lemma mock_session_never_errors_witness :
  exists replies after_newline,
    fst (fst (@main (replay_env "mock") [Line "hello"; Line "recall"] nothing_recorded))
    = (Banner :: replies ++ [Farewell after_newline])%list
    /\ Forall is_reply replies
    /\ forall detail,
         ~ In (ErrorSays detail)
             (fst (fst (@main (replay_env "mock") [Line "hello"; Line "recall"]
                          nothing_recorded))).
Proof.
  apply (@mock_session_never_errors (replay_env "mock") [Line "hello"; Line "recall"]
           nothing_recorded).
  reflexivity.
Defined.

End FurtherWitnesses.
